(** * Approval workflow, notification dispatch and bulk-notification job

    A shallow embedding of the service layer ([services.py]) and of the
    bulk-notification task ([tasks.py]) of the report-approval application,
    together with the properties of the approval-workflow state machine and
    of its notification side effects.

    The persistence layer (SQLAlchemy session), the clock, the JSON decoder,
    the mailer and the Celery progress channel are collaborators of the
    code: they are modelled by an explicit store with a committed and a
    session view, and by an environment that decides which collaborator
    call raises. *)

From Stdlib Require Import ZArith String Ascii List Floats.SpecFloat.
From stdpp Require Import base option list strings pretty gmap fin_maps.

Local Open Scope string_scope.
Local Open Scope Z_scope.

(** ** Python values *)

(** The values that travel through [Dict[str, Any]] form data and through
    the [json] module.  A Python [str] is a [string] whose characters are
    read as code points below 256; a [dict] with string keys is an
    association list in insertion order; [PyObject] stands for any other
    object (one the JSON encoder rejects). *)
#[warnings="-register-all"]
Inductive pyval : Type :=
| PyNone
| PyBool (b : bool)
| PyInt (z : Z)
| PyFloat (f : spec_float)
| PyStr (s : string)
| PyList (l : list pyval)
| PyDict (d : list (string * pyval))
| PyObject (tag : nat).

(** [d.get(k)] on the association list of a dict: the bound value, if any. *)
Fixpoint assoc_get (k : string) (d : list (string * pyval)) : option pyval :=
  match d with
  | [] => None
  | (k', v) :: d' => if String.eqb k k' then Some v else assoc_get k d'
  end.

(** [data.get(k)]: a missing key yields [None]. *)
Definition dict_get (d : list (string * pyval)) (k : string) : pyval :=
  default PyNone (assoc_get k d).

(** [data.get(k, dflt)]. *)
Definition dict_get_default (d : list (string * pyval)) (k : string) (dflt : pyval) : pyval :=
  default dflt (assoc_get k d).

(** [x == s] for a string literal [s]. *)
Definition py_eq_str (v : pyval) (s : string) : bool :=
  match v with
  | PyStr s' => String.eqb s' s
  | _ => false
  end.

(** A binary float equals the integer [z] when its exact value is [z]. *)
Definition float_eq_Z (f : spec_float) (z : Z) : bool :=
  match f with
  | S754_zero _ => z =? 0
  | S754_finite s m e =>
      let v := if s then Z.neg m else Z.pos m in
      if 0 <=? e then v * 2 ^ e =? z else v =? z * 2 ^ (- e)
  | _ => false
  end.

(** [x == n] for an integer [n]: Python compares numbers by value, and
    [True]/[False] are the integers 1 and 0. *)
Definition py_eq_int (v : pyval) (n : Z) : bool :=
  match v with
  | PyInt z => z =? n
  | PyBool b => (if b then 1 else 0) =? n
  | PyFloat f => float_eq_Z f n
  | _ => false
  end.

(** ** The JSON encoder, [json.dumps] with its default options *)

Definition dq : string := String (ascii_of_nat 34) EmptyString.
Definition backslash : string := String (ascii_of_nat 92) EmptyString.

Definition hex_digit (n : nat) : ascii :=
  ascii_of_nat (if Nat.ltb n 10 then 48 + n else 87 + n)%nat.

(** One character of a string under [ensure_ascii]: the quote, the
    backslash and everything outside [' '..'~'] are escaped. *)
Definition json_escape_char (c : ascii) : string :=
  let n := nat_of_ascii c in
  if Nat.eqb n 34 then backslash +:+ dq
  else if Nat.eqb n 92 then backslash +:+ backslash
  else if Nat.eqb n 8 then backslash +:+ "b"
  else if Nat.eqb n 12 then backslash +:+ "f"
  else if Nat.eqb n 10 then backslash +:+ "n"
  else if Nat.eqb n 13 then backslash +:+ "r"
  else if Nat.eqb n 9 then backslash +:+ "t"
  else if Nat.leb 32 n && Nat.leb n 126 then String c EmptyString
  else backslash +:+ "u00" +:+
       String (hex_digit (Nat.div n 16)) (String (hex_digit (Nat.modulo n 16)) EmptyString).

Fixpoint json_escape (s : string) : string :=
  match s with
  | EmptyString => EmptyString
  | String c s' => json_escape_char c +:+ json_escape s'
  end.

Definition json_quote (s : string) : string := dq +:+ json_escape s +:+ dq.

Section JsonDumps.
(** The text the encoder prints for a float ([float.__repr__], or
    [NaN]/[Infinity]); floating-point printing is left to the caller. *)
Variable float_repr : spec_float -> string.

(** [json.dumps v]: [None] when the encoder raises [TypeError]. *)
Fixpoint json_dumps (v : pyval) : option string :=
  match v with
  | PyNone => Some "null"
  | PyBool b => Some (if b then "true" else "false")
  | PyInt z => Some (pretty z)
  | PyFloat f => Some (float_repr f)
  | PyStr s => Some (json_quote s)
  | PyList l =>
      items ← (fix go (l : list pyval) : option (list string) :=
                 match l with
                 | [] => Some []
                 | x :: l' => s ← json_dumps x; r ← go l'; Some (s :: r)
                 end) l;
      Some ("[" +:+ String.concat ", " items +:+ "]")
  | PyDict d =>
      items ← (fix go (d : list (string * pyval)) : option (list string) :=
                 match d with
                 | [] => Some []
                 | (k, x) :: d' =>
                     s ← json_dumps x; r ← go d';
                     Some ((json_quote k +:+ ": " +:+ s) :: r)
                 end) d;
      Some ("{" +:+ String.concat ", " items +:+ "}")
  | PyObject _ => None
  end.
End JsonDumps.

(** The dict literal built by [update_report_status] on DRAFT -> PENDING. *)
Definition approvals_template : pyval :=
  PyDict
    [ ("stage", PyInt 1);
      ("approvers",
        PyList
          [ PyDict [ ("stage", PyInt 1); ("title", PyStr "Technical Manager");
                     ("status", PyStr "pending") ];
            PyDict [ ("stage", PyInt 2); ("title", PyStr "Project Manager");
                     ("status", PyStr "pending") ] ]) ].

(** ** Data model *)

(** Modelled from the spec: the [User] model class (models.py), with the
    attributes the services read. *)
Module User.
Record t := mk {
  full_name : string;
  email : string;
  role : string;
  status : string
}.
End User.

(** Modelled from the spec: the [Report] model class (models.py).  The
    document metadata comes unchecked from the form data, hence [pyval];
    [approvals_json] is a nullable text column and
    [approval_notification_sent] a boolean column that is false on a new
    report. *)
Module Report.
Record t := mk {
  id : string;
  type : pyval;
  status : string;
  document_title : pyval;
  document_reference : pyval;
  project_reference : pyval;
  client_name : pyval;
  revision : pyval;
  prepared_by : pyval;
  user_email : string;
  version : string;
  updated_at : option Z;
  approvals_json : option string;
  approval_notification_sent : bool
}.

Definition set_status (s : string) (r : t) : t :=
  mk (id r) (type r) s (document_title r) (document_reference r)
     (project_reference r) (client_name r) (revision r) (prepared_by r)
     (user_email r) (version r) (updated_at r) (approvals_json r)
     (approval_notification_sent r).

Definition set_updated_at (ts : Z) (r : t) : t :=
  mk (id r) (type r) (status r) (document_title r) (document_reference r)
     (project_reference r) (client_name r) (revision r) (prepared_by r)
     (user_email r) (version r) (Some ts) (approvals_json r)
     (approval_notification_sent r).

Definition set_approvals_json (j : string) (r : t) : t :=
  mk (id r) (type r) (status r) (document_title r) (document_reference r)
     (project_reference r) (client_name r) (revision r) (prepared_by r)
     (user_email r) (version r) (updated_at r) (Some j)
     (approval_notification_sent r).

Definition set_approval_notification_sent (b : bool) (r : t) : t :=
  mk (id r) (type r) (status r) (document_title r) (document_reference r)
     (project_reference r) (client_name r) (revision r) (prepared_by r)
     (user_email r) (version r) (updated_at r) (approvals_json r) b.
End Report.

(** Modelled from the spec: the [SATReport] companion record (models.py). *)
Module SATReport.
Record t := mk {
  report_id : string;
  data_json : string;
  date : pyval;
  purpose : pyval;
  scope : pyval
}.
End SATReport.

(** Modelled from the spec: the [Notification] model class (models.py).
    [id] is the key the database assigns; [read] is false and [read_at]
    null on a new notification. *)
Module Notification.
Record t := mk {
  id : Z;
  user_email : string;
  title : string;
  message : string;
  type : string;
  read : bool;
  read_at : option Z
}.

Definition set_id (n : Z) (x : t) : t :=
  mk n (user_email x) (title x) (message x) (type x) (read x) (read_at x).

Definition set_read (b : bool) (x : t) : t :=
  mk (id x) (user_email x) (title x) (message x) (type x) b (read_at x).

Definition set_read_at (ts : Z) (x : t) : t :=
  mk (id x) (user_email x) (title x) (message x) (type x) (read x) (Some ts).
End Notification.

(** One view of the database: the four tables the services touch. *)
Record store := mkStore {
  users : list User.t;
  reports : gmap string Report.t;
  sat_reports : list SATReport.t;
  notifications : list Notification.t
}.

(** ** Collaborators, exceptions and the world *)

(** The calls into collaborators: each may raise. *)
Inductive prim : Type :=
| OpUserQuery
| OpReportGet
| OpReportQuery
| OpNotificationQuery
| OpNewReport
| OpNewSATReport
| OpNewNotification (recipient : string)
| OpSessionAdd
| OpCommit
| OpRollback
| OpConfigGet
| OpSendEmail (recipient : string)
| OpCreateApp
| OpUpdateState
| OpUtcNow
| OpUuid4.

Global Instance prim_eq_dec : EqDecision prim.
Proof. solve_decision. Defined.

(** Exceptions, all subclasses of [Exception]: [Fault p] is what the
    collaborator call [p] raised. *)
Inductive exn : Type :=
| NotFound (msg : string)
| TypeError
| AttributeError
| JSONDecodeError
| ObjectDeletedError
| OverflowError
| Fault (p : prim).

(** A line written with [logger.error]: the text before the colon and the
    exception formatted after it. *)
Inductive log_entry : Type :=
| LogError (context : string) (e : exn).

(** The [meta] payload of a Celery [update_state(state='PROGRESS', ...)]
    call.  [MetaSending k n] is the report after recipient [k] of [n]; its
    percentage is the float expression [int(k / n * 100)] of these two. *)
Inductive task_meta : Type :=
| MetaTotal (total : nat)
| MetaSending (k total : nat).

(** An e-mail handed to [send_email_notification]. *)
Record email_msg := mkEmail {
  recipient : string;
  subject : string;
  body : string
}.

(** What the code cannot decide: which collaborator call raises (by
    position in the journal of calls), the clock, the identifiers, the JSON
    decoder ([None]: it raises), the printing of floats and of values
    without a fixed text, and the e-mail feature flag. *)
Record env := mkEnv {
  fails : nat -> prim -> bool;
  clock : nat -> Z;
  uuid4 : nat -> string;
  json_loads : string -> option pyval;
  float_repr : spec_float -> string;
  str_other : pyval -> string;
  ENABLE_EMAIL_NOTIFICATIONS : bool
}.

(** The world: the committed database, the session's view of it (committed
    data plus pending changes), and what the collaborators have seen. *)
Record world := mkWorld {
  committed : store;
  session : store;
  journal : list prim;
  next_notification_id : Z;
  log : list log_entry;
  outbox : list email_msg;
  task_states : list task_meta
}.

Definition with_committed (c : store) (w : world) : world :=
  mkWorld c (session w) (journal w) (next_notification_id w) (log w) (outbox w) (task_states w).
Definition with_session (s : store) (w : world) : world :=
  mkWorld (committed w) s (journal w) (next_notification_id w) (log w) (outbox w) (task_states w).
Definition with_journal (j : list prim) (w : world) : world :=
  mkWorld (committed w) (session w) j (next_notification_id w) (log w) (outbox w) (task_states w).
Definition with_next_notification_id (n : Z) (w : world) : world :=
  mkWorld (committed w) (session w) (journal w) n (log w) (outbox w) (task_states w).
Definition with_log (l : list log_entry) (w : world) : world :=
  mkWorld (committed w) (session w) (journal w) (next_notification_id w) l (outbox w) (task_states w).
Definition with_outbox (o : list email_msg) (w : world) : world :=
  mkWorld (committed w) (session w) (journal w) (next_notification_id w) (log w) o (task_states w).
Definition with_task_states (t : list task_meta) (w : world) : world :=
  mkWorld (committed w) (session w) (journal w) (next_notification_id w) (log w) (outbox w) t.

Definition with_reports (m : gmap string Report.t) (s : store) : store :=
  mkStore (users s) m (sat_reports s) (notifications s).
Definition with_sat_reports (l : list SATReport.t) (s : store) : store :=
  mkStore (users s) (reports s) l (notifications s).
Definition with_notifications (l : list Notification.t) (s : store) : store :=
  mkStore (users s) (reports s) (sat_reports s) l.

(** ** A state and exception monad *)

Inductive outcome (A : Type) : Type :=
| Ret (a : A)
| Raise (e : exn).
Arguments Ret {A} a.
Arguments Raise {A} e.

Definition M (St A : Type) : Type := St -> outcome A * St.

Global Instance M_ret {St} : MRet (M St) := fun A a s => (Ret a, s).

Global Instance M_bind {St} : MBind (M St) := fun A B f m s =>
  match m s with
  | (Ret a, s') => f a s'
  | (Raise e, s') => (Raise e, s')
  end.

Global Instance M_throw {St} : MThrow exn (M St) := fun A e s => (Raise e, s).

(** [try: m  except Exception as e: h e]. *)
Definition try_except {St A} (m : M St A) (h : exn -> M St A) : M St A := fun s =>
  match m s with
  | (Ret a, s') => (Ret a, s')
  | (Raise e, s') => h e s'
  end.

Definition gets {St A} (f : St -> A) : M St A := fun s => (Ret (f s), s).
Definition modify {St} (f : St -> St) : M St unit := fun s => (Ret tt, f s).

(** [for x in l: body x]. *)
Fixpoint for_each {St A} (l : list A) (body : A -> M St unit) : M St unit :=
  match l with
  | [] => mret tt
  | x :: l' => body x;; for_each l' body
  end.

(** [sum(1 for x in l if p x)]. *)
Fixpoint sum_1_if {St A} (p : A -> M St bool) (l : list A) : M St nat :=
  match l with
  | [] => mret 0%nat
  | x :: l' => b ← p x; n ← sum_1_if p l'; mret (if b : bool then S n else n)
  end.

(** Python local variables that a [try] block updates live beside the
    world, so that an assignment made before a [raise] is still there in
    the handler. *)
Definition in_world {L A} (m : M world A) : M (world * L) A := fun s =>
  let '(r, w') := m (fst s) in (r, (w', snd s)).

Definition with_locals {L A} (init : L) (m : M (world * L) A) : M world (A * L) := fun w =>
  match m (w, init) with
  | (Ret a, (w', l)) => (Ret (a, l), w')
  | (Raise e, (w', _)) => (Raise e, w')
  end.

Definition set_locals {L} (f : L -> L) : M (world * L) unit :=
  modify (fun s => (fst s, f (snd s))).

(** ** The collaborators' calls *)

Section Services.
Variable E : env.

(** The position of the next collaborator call. *)
Definition tick (w : world) : nat := length (journal w).

Definition record_call (p : prim) (w : world) : world :=
  with_journal (journal w ++ [p]) w.

(** A call that may raise: the environment decides. *)
Definition call (p : prim) : M world unit := fun w =>
  if fails E (tick w) p then (Raise (Fault p), record_call p w)
  else (Ret tt, record_call p w).

(** [datetime.utcnow()]. *)
Definition utcnow : M world Z := fun w =>
  (Ret (clock E (tick w)), record_call OpUtcNow w).

(** [str(uuid.uuid4())]. *)
Definition new_uuid4 : M world string := fun w =>
  (Ret (uuid4 E (tick w)), record_call OpUuid4 w).

(** [logger.error(f"<context>: {e}")]. *)
Definition logger_error (context : string) (e : exn) : M world unit :=
  modify (fun w => with_log (log w ++ [LogError context e]) w).

(** [db.session.commit()]: the session's view becomes the committed one. *)
Definition db_session_commit : M world unit :=
  call OpCommit;; modify (fun w => with_committed (session w) w).

(** [db.session.rollback()]: pending changes are dropped.  Rolling back
    is taken never to raise. *)
Definition db_session_rollback : M world unit :=
  modify (fun w => record_call OpRollback (with_session (committed w) w)).

(** [db.session.add(report)]. *)
Definition db_session_add_report (r : Report.t) : M world unit :=
  call OpSessionAdd;;
  modify (fun w => with_session (with_reports (<[Report.id r := r]> (reports (session w))) (session w)) w).

(** [db.session.add(sat_report)]. *)
Definition db_session_add_sat_report (r : SATReport.t) : M world unit :=
  call OpSessionAdd;;
  modify (fun w => with_session (with_sat_reports (sat_reports (session w) ++ [r]) (session w)) w).

(** [db.session.add(notification)]; the notification gets its key here. *)
Definition db_session_add_notification (n : Notification.t) : M world Notification.t :=
  call OpSessionAdd;;
  key ← gets next_notification_id;
  let n' := Notification.set_id key n in
  modify (fun w =>
    with_next_notification_id (key + 1)
      (with_session (with_notifications (notifications (session w) ++ [n']) (session w)) w));;
  mret n'.

(** [Report.query.get(report_id)]: the session's object, if any. *)
Definition Report_query_get (report_id : string) : M world (option Report.t) :=
  call OpReportGet;; gets (fun w => reports (session w) !! report_id).

(** [Report.query.all()]. *)
Definition Report_query_all : M world (list Report.t) :=
  call OpReportQuery;; gets (fun w => (map_to_list (reports (session w))).*2).

(** [Report.query.filter_by(status=s).all()]. *)
Definition Report_query_filter_by_status (s : string) : M world (list Report.t) :=
  call OpReportQuery;;
  gets (fun w => filter (fun r => Report.status r = s) (map_to_list (reports (session w))).*2).

(** [Report.query.filter_by(user_email=e).all()]. *)
Definition Report_query_filter_by_user_email (e : string) : M world (list Report.t) :=
  call OpReportQuery;;
  gets (fun w => filter (fun r => Report.user_email r = e) (map_to_list (reports (session w))).*2).

(** Reading an attribute of the report object held by the session. *)
Definition report_getattr {A} (report : string) (f : Report.t -> A) : M world A := fun w =>
  match reports (session w) !! report with
  | Some r => (Ret (f r), w)
  | None => (Raise ObjectDeletedError, w)
  end.

(** Assigning an attribute of the report object held by the session. *)
Definition report_setattr (report : string) (f : Report.t -> Report.t) : M world unit :=
  modify (fun w => with_session (with_reports (alter f report (reports (session w))) (session w)) w).

(** [User.query.filter_by(status='Active').all()]. *)
Definition User_query_active : M world (list User.t) :=
  call OpUserQuery;;
  gets (fun w => filter (fun u => User.status u = "Active") (users (session w))).

(** [User.query.filter(User.role.in_(['TM', 'Technical Manager']),
    User.status == 'Active').all()]. *)
Definition User_query_tms : M world (list User.t) :=
  call OpUserQuery;;
  gets (fun w => filter (fun u => User.role u ∈ ["TM"; "Technical Manager"]
                                  ∧ User.status u = "Active") (users (session w))).

(** [Notification.query.filter_by(id=i, user_email=e).first()]: the
    position of the first match in the session. *)
Definition Notification_query_first (i : Z) (e : string) : M world (option nat) :=
  call OpNotificationQuery;;
  gets (fun w => fst <$> list_find (fun n => Notification.id n = i ∧ Notification.user_email n = e)
                           (notifications (session w))).

(** Assigning an attribute of the notification at position [k]. *)
Definition notification_setattr (k : nat) (f : Notification.t -> Notification.t) : M world unit :=
  modify (fun w => with_session (with_notifications (alter f k (notifications (session w))) (session w)) w).

(** [current_app.config.get('ENABLE_EMAIL_NOTIFICATIONS')]. *)
Definition config_get_email_notifications : M world bool :=
  call OpConfigGet;; mret (ENABLE_EMAIL_NOTIFICATIONS E).

(** [send_email_notification(recipient, subject, body)]. *)
Definition send_email_notification (recipient subject body : string) : M world unit :=
  call (OpSendEmail recipient);;
  modify (fun w => with_outbox (outbox w ++ [mkEmail recipient subject body]) w).

(** [self.update_state(state='PROGRESS', meta=m)]. *)
Definition update_state (m : task_meta) : M world unit :=
  call OpUpdateState;;
  modify (fun w => with_task_states (task_states w ++ [m]) w).

(** [str(v)], as an f-string formats it. *)
Definition py_str (v : pyval) : string :=
  match v with
  | PyNone => "None"
  | PyBool b => if b then "True" else "False"
  | PyInt z => pretty z
  | PyStr s => s
  | _ => str_other E v
  end.

(** [json.loads(s)]. *)
Definition json_loads_py {St} (s : string) : M St pyval :=
  match json_loads E s with
  | Some v => mret v
  | None => mthrow JSONDecodeError
  end.

(** [json.dumps(v)]. *)
Definition json_dumps_py {St} (v : pyval) : M St string :=
  match json_dumps (float_repr E) v with
  | Some s => mret s
  | None => mthrow TypeError
  end.

(** [v.get(k)]: only a dict has the method. *)
Definition py_get {St} (v : pyval) (k : string) : M St pyval :=
  match v with
  | PyDict d => mret (dict_get d k)
  | _ => mthrow AttributeError
  end.

(** ** [UserService] *)

(** The dict [{'name': ..., 'email': ...}] built for each user. *)
Record user_data := mkUserData {
  name : string;
  email : string
}.

Definition users_by_role_empty : gmap string (list user_data) :=
  <["Admin" := []]> (<["Engineer" := []]> (<["TM" := []]> (<["PM" := []]> ∅))).

(** [users_by_role[k].append(x)]. *)
Definition dict_append (k : string) (x : user_data)
    (d : gmap string (list user_data)) : gmap string (list user_data) :=
  alter (fun l => (l ++ [x])%list) k d.

(** The body of the loop of [get_users_by_role]: the database role is
    mapped to a frontend role category. *)
Definition group_user (users_by_role : gmap string (list user_data)) (user : User.t)
    : gmap string (list user_data) :=
  let user_data := mkUserData (User.full_name user) (User.email user) in
  if String.eqb (User.role user) "Admin" then
    dict_append "Admin" user_data users_by_role
  else if String.eqb (User.role user) "Engineer" then
    dict_append "Engineer" user_data users_by_role
  else if bool_decide (User.role user ∈
            ["TM"; "Technical Manager"; "Tech Manager"; "Automation Manager"]) then
    dict_append "TM" user_data users_by_role
  else if bool_decide (User.role user ∈ ["PM"; "Project Manager"; "Project_Manager"]) then
    dict_append "PM" user_data users_by_role
  else users_by_role.

Definition get_users_by_role : M world (gmap string (list user_data)) :=
  try_except
    (users ← User_query_active;
     mret (foldl group_user users_by_role_empty users))
    (fun e => logger_error "Error getting users by role" e;; mthrow e).

(** ** [NotificationService] *)

Definition create_notification (user_email title message notification_type : string)
    : M world Notification.t :=
  try_except
    (call (OpNewNotification user_email);;
     let notification :=
       Notification.mk 0 user_email title message notification_type false None in
     notification ← db_session_add_notification notification;
     db_session_commit;;
     mret notification)
    (fun e =>
       db_session_rollback;;
       logger_error "Error creating notification" e;;
       mthrow e).

(** [report] is the session's report object, named by its key. *)
Definition create_approval_notification (report : string) : M world bool :=
  try_except
    (tms ← User_query_tms;
     for_each tms (fun tm =>
       document_title ← report_getattr report Report.document_title;
       create_notification (User.email tm)
         "New Report for Approval"
         ("Report " +:+ dq +:+ py_str document_title +:+ dq +:+ " requires your approval")
         "approval";;
       mret tt);;
     enabled ← config_get_email_notifications;
     (if enabled : bool then
        for_each tms (fun tm =>
          document_title ← report_getattr report Report.document_title;
          send_email_notification (User.email tm)
            "New Report Pending Approval"
            ("A new report " +:+ dq +:+ py_str document_title +:+ dq
               +:+ " is pending your approval."))
      else mret tt);;
     mret true)
    (fun e =>
       logger_error "Error creating approval notifications" e;;
       mret false).

Definition mark_as_read (notification_id : Z) (user_email : string) : M world bool :=
  try_except
    (notification ← Notification_query_first notification_id user_email;
     match notification with
     | Some k =>
         notification_setattr k (Notification.set_read true);;
         now ← utcnow;
         notification_setattr k (Notification.set_read_at now);;
         db_session_commit;;
         mret true
     | None => mret false
     end)
    (fun e =>
       db_session_rollback;;
       logger_error "Error marking notification as read" e;;
       mret false).

(** ** [ReportService] *)

Definition create_report (data : list (string * pyval)) (user_email : string)
    : M world Report.t :=
  try_except
    (report_id ← new_uuid4;
     call OpNewReport;;
     let report :=
       Report.mk report_id
         (dict_get_default data "type" (PyStr "SAT"))
         "DRAFT"
         (dict_get data "document_title")
         (dict_get data "document_reference")
         (dict_get data "project_reference")
         (dict_get data "client_name")
         (dict_get_default data "revision" (PyStr "R0"))
         (dict_get data "prepared_by")
         user_email
         "R0"
         None None false in
     (if py_eq_str (Report.type report) "SAT" then
        data_json ← json_dumps_py (PyDict data);
        call OpNewSATReport;;
        let sat_report :=
          SATReport.mk report_id data_json
            (dict_get data "date") (dict_get data "purpose") (dict_get data "scope") in
        db_session_add_sat_report sat_report
      else mret tt);;
     db_session_add_report report;;
     db_session_commit;;
     mret report)
    (fun e =>
       db_session_rollback;;
       logger_error "Error creating report" e;;
       mthrow e).

Definition get_user_reports (user_email role : string) : M world (list Report.t) :=
  try_except
    (if String.eqb role "Admin" then Report_query_all
     else if bool_decide (role ∈ ["TM"; "Technical Manager"; "PM"; "Project Manager"]) then
       Report_query_all
     else Report_query_filter_by_user_email user_email)
    (fun e => logger_error "Error getting user reports" e;; mthrow e).

Definition update_report_status (report_id status : string) : M world bool :=
  try_except
    (report ← Report_query_get report_id;
     match report with
     | None => mthrow (NotFound "Report not found")
     | Some r =>
         let old_status := Report.status r in
         report_setattr report_id (Report.set_status status);;
         now ← utcnow;
         report_setattr report_id (Report.set_updated_at now);;
         (if String.eqb status "PENDING" && String.eqb old_status "DRAFT" then
            approvals ← json_dumps_py approvals_template;
            report_setattr report_id (Report.set_approvals_json approvals)
          else mret tt);;
         db_session_commit;;
         notify ← (if String.eqb status "PENDING" then
                     sent ← report_getattr report_id Report.approval_notification_sent;
                     mret (negb sent)
                   else mret false);
         (if notify : bool then
            create_approval_notification report_id;;
            report_setattr report_id (Report.set_approval_notification_sent true);;
            db_session_commit
          else mret tt);;
         mret true
     end)
    (fun e =>
       db_session_rollback;;
       logger_error "Error updating report status" e;;
       mthrow e).

Definition _is_at_stage {St} (report : Report.t) (stage : Z) : M St bool :=
  match Report.approvals_json report with
  | None => mret false
  | Some EmptyString => mret false
  | Some approvals_json =>
      try_except
        (approvals ← json_loads_py approvals_json;
         current ← py_get approvals "stage";
         mret (py_eq_int current stage))
        (fun _ => mret false)
  end.

Definition get_pending_approvals (user_role : string) : M world nat :=
  try_except
    (if bool_decide (user_role ∈ ["TM"; "Technical Manager"]) then
       reports ← Report_query_filter_by_status "PENDING";
       sum_1_if (fun r => _is_at_stage r 1) reports
     else if bool_decide (user_role ∈ ["PM"; "Project Manager"]) then
       reports ← Report_query_filter_by_status "PENDING";
       sum_1_if (fun r => _is_at_stage r 2) reports
     else mret 0%nat)
    (fun e => logger_error "Error getting pending approvals" e;; mret 0%nat).

(** ** The bulk-notification task *)

(** The local counters of [bulk_notification_async]. *)
Record bulk_locals := mkBulkLocals {
  sent_count : nat;
  failed_count : nat
}.

(** The dict a task returns. *)
Inductive task_result : Type :=
| BulkSuccess (sent failed total : nat) (timestamp : Z)
| TaskFailed (error : exn) (timestamp : Z).

(** The [for i, email in enumerate(user_emails)] loop, from index [i]. *)
Fixpoint bulk_loop (title message notification_type : string) (total i : nat)
    (user_emails : list string) : M (world * bulk_locals) unit :=
  match user_emails with
  | [] => mret tt
  | email :: rest =>
      try_except
        (in_world (call (OpNewNotification email));;
         let notification :=
           Notification.mk 0 email title message notification_type false None in
         in_world (db_session_add_notification notification);;
         set_locals (fun l => mkBulkLocals (sent_count l + 1) (failed_count l));;
         in_world (update_state (MetaSending (i + 1) total)))
        (fun e =>
           in_world (logger_error ("Failed to create notification for " +:+ email) e);;
           set_locals (fun l => mkBulkLocals (sent_count l) (failed_count l + 1)));;
      bulk_loop title message notification_type total (S i) rest
  end.

(** The task runs to its [return].  What leaving [with app.app_context()]
    does to the session is the application's (app.py) and is not modelled:
    the session of the final world is the one at the end of the block. *)
Definition bulk_notification_async (user_emails : list string)
    (title message notification_type : string) : M world task_result :=
  try_except
    (update_state (MetaTotal (length user_emails));;
     call OpCreateApp;;
     '(_, l) ← with_locals (mkBulkLocals 0 0)
                 (bulk_loop title message notification_type (length user_emails) 0 user_emails;;
                  in_world db_session_commit);
     timestamp ← utcnow;
     mret (BulkSuccess (sent_count l) (failed_count l) (length user_emails) timestamp))
    (fun e =>
       logger_error "Error sending bulk notifications" e;;
       timestamp ← utcnow;
       mret (TaskFailed e timestamp)).

End Services.

(** ** More of the service layer *)

Section MoreServices.
Variable E : env.

(** [Notification.query.filter_by(user_email=e, read=False).count()]. *)
Definition Notification_query_unread_count (e : string) : M world nat :=
  call E OpNotificationQuery;;
  gets (fun w => length (filter (fun n => Notification.user_email n = e
                                          /\ Notification.read n = false)
                           (notifications (session w)))).

Definition get_unread_count (user_email : string) : M world nat :=
  try_except
    (Notification_query_unread_count user_email)
    (fun e => logger_error "Error getting unread count" e;; mret 0%nat).

(** The dict [get_engineer_stats] returns. *)
Record engineer_stats := mkEngineerStats {
  total_reports : nat;
  pending_reports : nat;
  approved_reports : nat;
  draft_reports : nat
}.

(** [sum(1 for r in reports if r.status == s)]. *)
Fixpoint sum_1_status (s : string) (reports : list Report.t) : nat :=
  match reports with
  | [] => 0%nat
  | r :: rest =>
      if String.eqb (Report.status r) s then S (sum_1_status s rest)
      else sum_1_status s rest
  end.

Definition get_engineer_stats (user_email : string) : M world engineer_stats :=
  try_except
    (reports ← Report_query_filter_by_user_email E user_email;
     mret (mkEngineerStats (length reports)
             (sum_1_status "PENDING" reports)
             (sum_1_status "APPROVED" reports)
             (sum_1_status "DRAFT" reports)))
    (fun e =>
       logger_error "Error getting engineer stats" e;;
       mret (mkEngineerStats 0 0 0 0)).

End MoreServices.

(** ** Retention *)

Global Instance Notification_eq_dec : EqDecision Notification.t.
Proof. solve_decision. Defined.

Section Retention.
Variable E : env.

(** Modelled from the spec: the created timestamp of a [Notification]
    (models.py), a time column like [Report.updated_at], read off the row. *)
Variable Notification_created_at : Notification.t -> option Z.

(** A [datetime] is counted in microseconds, its resolution, from
    [datetime.min], the first instant of year 1; [datetime.max] is the
    last microsecond of year 9999, day 3652059 of the calendar. *)
Definition microseconds_per_day : Z := 86400000000.

Definition datetime_max : Z := 3652059 * microseconds_per_day - 1.

(** [timedelta(days=days)]: a magnitude above 999999999 days is refused
    with [OverflowError]. *)
Definition timedelta_days {St} (days : Z) : M St Z :=
  if Z.abs days <=? 999999999 then mret (days * microseconds_per_day)
  else mthrow OverflowError.

(** [d - delta] on a [datetime]: a result before [datetime.min] or after
    [datetime.max] is refused with [OverflowError]. *)
Definition datetime_sub {St} (d delta : Z) : M St Z :=
  if (0 <=? d - delta) && (d - delta <=? datetime_max) then mret (d - delta)
  else mthrow OverflowError.

(** The two steps of [datetime.utcnow() - timedelta(days=days)] that can
    refuse both go through. *)
Definition cutoff_in_range (now days : Z) : bool :=
  (Z.abs days <=? 999999999)
  && (0 <=? now - days * microseconds_per_day)
  && (now - days * microseconds_per_day <=? datetime_max).

(** [column < cutoff_date] in a query filter: a null column selects
    nothing. *)
Definition column_lt (column : option Z) (cutoff_date : Z) : bool :=
  match column with
  | Some ts => ts <? cutoff_date
  | None => false
  end.

(** The two filters of [cleanup_old_data]. *)
Definition old_draft (cutoff_date : Z) (r : Report.t) : Prop :=
  Report.status r = "DRAFT" /\ column_lt (Report.updated_at r) cutoff_date = true.

Definition old_read_notification (cutoff_date : Z) (n : Notification.t) : Prop :=
  Notification.read n = true /\ column_lt (Notification_created_at n) cutoff_date = true.

(** [Report.query.filter(Report.status == 'DRAFT',
    Report.updated_at < cutoff_date).all()]: the selected objects, each
    named by the key under which the session holds it. *)
Definition Report_query_old_drafts (cutoff_date : Z) : M world (list string) :=
  call E OpReportQuery;;
  gets (fun w => (filter (fun kr => old_draft cutoff_date kr.2)
                    (map_to_list (reports (session w)))).*1).

(** [Notification.query.filter(Notification.read,
    Notification.created_at < cutoff_date).all()]. *)
Definition Notification_query_old_read (cutoff_date : Z) : M world (list Notification.t) :=
  call E OpNotificationQuery;;
  gets (fun w => filter (old_read_notification cutoff_date) (notifications (session w))).

(** [db.session.delete(report)]: the object is marked in the session; the
    marking is taken never to raise.  What the deletion cascades to is
    decided in models.py: the other tables are left as they are. *)
Definition db_session_delete_report (report : string) : M world unit :=
  modify (fun w => with_session (with_reports (delete report (reports (session w))) (session w)) w).

(** [db.session.delete(notif)]. *)
Definition db_session_delete_notification (notif : Notification.t) : M world unit :=
  modify (fun w =>
    with_session (with_notifications (filter (fun n => n <> notif) (notifications (session w)))
                    (session w)) w).

(** [SystemService.cleanup_old_data]. *)
Definition SystemService_cleanup_old_data (days : Z) : M world nat :=
  try_except
    (now ← utcnow E;
     window ← timedelta_days days;
     cutoff_date ← datetime_sub now window;
     old_drafts ← Report_query_old_drafts cutoff_date;
     let count := length old_drafts in
     for_each old_drafts db_session_delete_report;;
     old_notifications ← Notification_query_old_read cutoff_date;
     for_each old_notifications db_session_delete_notification;;
     db_session_commit E;;
     mret count)
    (fun e =>
       db_session_rollback;;
       logger_error "Error cleaning up old data" e;;
       mret 0%nat).

(** The dict the periodic task returns. *)
Inductive cleanup_result : Type :=
| CleanupSuccess (deleted_reports : nat) (timestamp : Z)
| CleanupFailed (error : exn) (timestamp : Z).

(** The Celery task [cleanup_old_data] of tasks.py. *)
Definition tasks_cleanup_old_data (days : Z) : M world cleanup_result :=
  try_except
    (call E OpCreateApp;;
     deleted_count ← SystemService_cleanup_old_data days;
     timestamp ← utcnow E;
     mret (CleanupSuccess deleted_count timestamp))
    (fun e =>
       logger_error "Error cleaning up old data" e;;
       timestamp ← utcnow E;
       mret (CleanupFailed e timestamp)).

End Retention.

(** ** The manager dashboard *)

(** The dict [get_manager_stats] returns. *)
Module ManagerStats.
Record t := mk {
  reports_count : nat;
  pending_approvals : nat;
  approved_reports : nat;
  recent_reports : list Report.t;
  team_reports : nat
}.
End ManagerStats.

Section ManagerDashboard.
Variable E : env.

(** [order_by(Report.updated_at.desc())]: the rows in the order the
    database returns them.  Where it puts a null [updated_at] and how it
    breaks ties is the database's choice. *)
Variable order_by_updated_at_desc : list Report.t -> list Report.t.

(** [Report.query.count()]. *)
Definition Report_query_count : M world nat :=
  call E OpReportQuery;;
  gets (fun w => length (map_to_list (reports (session w))).*2).

(** [Report.query.filter_by(status=s).count()]. *)
Definition Report_query_count_by_status (s : string) : M world nat :=
  call E OpReportQuery;;
  gets (fun w => length (filter (fun r => Report.status r = s)
                           (map_to_list (reports (session w))).*2)).

(** [Report.query.order_by(Report.updated_at.desc()).limit(n).all()]. *)
Definition Report_query_recent (n : nat) : M world (list Report.t) :=
  call E OpReportQuery;;
  gets (fun w => take n (order_by_updated_at_desc (map_to_list (reports (session w))).*2)).

Definition get_manager_stats (user_role : string) : M world ManagerStats.t :=
  try_except
    (total_reports ← Report_query_count;
     pending_approvals ← get_pending_approvals E user_role;
     approved_reports ← Report_query_count_by_status "APPROVED";
     recent_reports ← Report_query_recent 10;
     mret (ManagerStats.mk total_reports pending_approvals approved_reports
             recent_reports total_reports))
    (fun e =>
       logger_error "Error getting manager stats" e;;
       mret (ManagerStats.mk 0 0 0 [] 0)).

End ManagerDashboard.

(** ** A JSON decoder for the integer fragment

    Environments used in the examples decode with this reader: objects,
    arrays, strings with the one-letter escapes, integers and the three
    literals.  It refuses everything else (and so every text that is not
    JSON). *)
Module JsonFragment.

Definition is_ws (c : ascii) : bool :=
  let n := nat_of_ascii c in
  Nat.eqb n 32 || Nat.eqb n 9 || Nat.eqb n 10 || Nat.eqb n 13.

Definition is_digit (c : ascii) : bool :=
  let n := nat_of_ascii c in Nat.leb 48 n && Nat.leb n 57.

Fixpoint skip_ws (s : list ascii) : list ascii :=
  match s with
  | c :: s' => if is_ws c then skip_ws s' else s
  | [] => []
  end.

(** The digits at the head of [s], as a number, and the rest. *)
Fixpoint read_digits (acc : Z) (s : list ascii) : Z * list ascii :=
  match s with
  | c :: s' =>
      if is_digit c then read_digits (10 * acc + Z.of_nat (nat_of_ascii c - 48)) s'
      else (acc, s)
  | [] => (acc, [])
  end.

(** An integer without sign: one digit, or digits not starting with 0;
    a fraction or an exponent after it is refused. *)
Definition read_nat (s : list ascii) : option (Z * list ascii) :=
  match s with
  | c :: s' =>
      if negb (is_digit c) then None
      else
        let '(n, rest) := read_digits 0 s in
        if Nat.eqb (nat_of_ascii c) 48 && negb (Nat.eqb (length s) (S (length rest))) then None
        else
          match rest with
          | d :: _ =>
              if Nat.eqb (nat_of_ascii d) 46 || Nat.eqb (nat_of_ascii d) 101
                 || Nat.eqb (nat_of_ascii d) 69 then None
              else Some (n, rest)
          | [] => Some (n, rest)
          end
  | [] => None
  end.

Definition unescape (c : ascii) : option ascii :=
  let n := nat_of_ascii c in
  if Nat.eqb n 34 || Nat.eqb n 92 || Nat.eqb n 47 then Some c
  else if Nat.eqb n 98 then Some (ascii_of_nat 8)
  else if Nat.eqb n 102 then Some (ascii_of_nat 12)
  else if Nat.eqb n 110 then Some (ascii_of_nat 10)
  else if Nat.eqb n 114 then Some (ascii_of_nat 13)
  else if Nat.eqb n 116 then Some (ascii_of_nat 9)
  else None.

(** The characters after an opening quote, up to the closing one. *)
Fixpoint read_string (s : list ascii) : option (string * list ascii) :=
  match s with
  | [] => None
  | c :: s' =>
      let n := nat_of_ascii c in
      if Nat.eqb n 34 then Some (EmptyString, s')
      else if Nat.ltb n 32 then None
      else if Nat.eqb n 92 then
        match s' with
        | e :: s'' =>
            c' ← unescape e;
            '(str, rest) ← read_string s'';
            Some (String c' str, rest)
        | [] => None
        end
      else
        '(str, rest) ← read_string s';
        Some (String c str, rest)
  end.

(** [d[k] = v]: a repeated key keeps its place and takes the new value. *)
Fixpoint dict_set (k : string) (v : pyval) (d : list (string * pyval)) : list (string * pyval) :=
  match d with
  | [] => [(k, v)]
  | (k', v') :: d' => if String.eqb k k' then (k, v) :: d' else (k', v') :: dict_set k v d'
  end.

Definition starts_with (p s : list ascii) : option (list ascii) :=
  if bool_decide (take (length p) s = p) then Some (drop (length p) s) else None.

Fixpoint read_value (fuel : nat) (s : list ascii) : option (pyval * list ascii) :=
  match fuel with
  | O => None
  | S fuel' =>
      match skip_ws s with
      | [] => None
      | c :: rest =>
          let n := nat_of_ascii c in
          if Nat.eqb n 110 then r ← starts_with (list_ascii_of_string "ull") rest; Some (PyNone, r)
          else if Nat.eqb n 116 then
            r ← starts_with (list_ascii_of_string "rue") rest; Some (PyBool true, r)
          else if Nat.eqb n 102 then
            r ← starts_with (list_ascii_of_string "alse") rest; Some (PyBool false, r)
          else if Nat.eqb n 34 then '(str, r) ← read_string rest; Some (PyStr str, r)
          else if Nat.eqb n 45 then '(z, r) ← read_nat rest; Some (PyInt (- z), r)
          else if is_digit c then '(z, r) ← read_nat (c :: rest); Some (PyInt z, r)
          else if Nat.eqb n 91 then
            match skip_ws rest with
            | c' :: rest' =>
                if Nat.eqb (nat_of_ascii c') 93 then Some (PyList [], rest')
                else read_elements fuel' [] rest
            | [] => None
            end
          else if Nat.eqb n 123 then
            match skip_ws rest with
            | c' :: rest' =>
                if Nat.eqb (nat_of_ascii c') 125 then Some (PyDict [], rest')
                else read_members fuel' [] rest
            | [] => None
            end
          else None
      end
  end
with read_elements (fuel : nat) (acc : list pyval) (s : list ascii)
    : option (pyval * list ascii) :=
  match fuel with
  | O => None
  | S fuel' =>
      '(v, r) ← read_value fuel' s;
      match skip_ws r with
      | c :: r' =>
          if Nat.eqb (nat_of_ascii c) 44 then read_elements fuel' (acc ++ [v]) r'
          else if Nat.eqb (nat_of_ascii c) 93 then Some (PyList (acc ++ [v]), r')
          else None
      | [] => None
      end
  end
with read_members (fuel : nat) (acc : list (string * pyval)) (s : list ascii)
    : option (pyval * list ascii) :=
  match fuel with
  | O => None
  | S fuel' =>
      match skip_ws s with
      | q :: s1 =>
          if negb (Nat.eqb (nat_of_ascii q) 34) then None
          else
            '(k, s2) ← read_string s1;
            match skip_ws s2 with
            | colon :: s3 =>
                if negb (Nat.eqb (nat_of_ascii colon) 58) then None
                else
                  '(v, r) ← read_value fuel' s3;
                  match skip_ws r with
                  | c :: r' =>
                      if Nat.eqb (nat_of_ascii c) 44 then read_members fuel' (dict_set k v acc) r'
                      else if Nat.eqb (nat_of_ascii c) 125 then Some (PyDict (dict_set k v acc), r')
                      else None
                  | [] => None
                  end
            | [] => None
            end
      | [] => None
      end
  end.

Definition loads (s : string) : option pyval :=
  '(v, rest) ← read_value (2 * String.length s + 2) (list_ascii_of_string s);
  match skip_ws rest with
  | [] => Some v
  | _ => None
  end.

End JsonFragment.

Definition approvals_template_json : string :=
  "{" +:+ dq +:+ "stage" +:+ dq +:+ ": 1, " +:+ dq +:+ "approvers" +:+ dq +:+ ": [{"
  +:+ dq +:+ "stage" +:+ dq +:+ ": 1, " +:+ dq +:+ "title" +:+ dq +:+ ": "
  +:+ dq +:+ "Technical Manager" +:+ dq +:+ ", " +:+ dq +:+ "status" +:+ dq +:+ ": "
  +:+ dq +:+ "pending" +:+ dq +:+ "}, {"
  +:+ dq +:+ "stage" +:+ dq +:+ ": 2, " +:+ dq +:+ "title" +:+ dq +:+ ": "
  +:+ dq +:+ "Project Manager" +:+ dq +:+ ", " +:+ dq +:+ "status" +:+ dq +:+ ": "
  +:+ dq +:+ "pending" +:+ dq +:+ "}]}".

(** ** The two halves of [update_report_status] *)

(** The report object after the first half of [update_report_status]:
    status and time stamp assigned, approval state initialised on
    DRAFT -> PENDING. *)
Definition status_changed (status : string) (now : Z) (r : Report.t) : Report.t :=
  let r' := Report.set_updated_at now (Report.set_status status r) in
  if String.eqb status "PENDING" && String.eqb (Report.status r) "DRAFT"
  then Report.set_approvals_json approvals_template_json r'
  else r'.

(** The world after the first half of [update_report_status] went through:
    the report was found, changed and committed. *)
Definition after_status_commit (E : env) (report_id status : string) (w : world) : world :=
  let s := with_reports
             (alter (status_changed status (clock E (S (tick w)))) report_id (reports (session w)))
             (session w) in
  record_call OpCommit
    (record_call OpUtcNow (record_call OpReportGet (with_committed s (with_session s w)))).

(** The second half of [update_report_status] for a report that enters
    PENDING with no notification sent yet: dispatch, flag, second commit,
    under the function's [except] clause. *)
Definition notify_and_flag (E : env) (report_id : string) : M world bool :=
  try_except
    (create_approval_notification E report_id;;
     report_setattr report_id (Report.set_approval_notification_sent true);;
     db_session_commit E;;
     mret true)
    (fun e =>
       db_session_rollback;;
       logger_error "Error updating report status" e;;
       mthrow e).

(** The second half of [update_report_status], from the comment
    [# Send notifications if needed] to [return True]. *)
Definition send_notifications_if_needed (E : env) (report_id status : string) : M world bool :=
  notify ← (if String.eqb status "PENDING" then
              sent ← report_getattr report_id Report.approval_notification_sent;
              mret (negb sent)
            else mret false);
  (if notify : bool then
     create_approval_notification E report_id;;
     report_setattr report_id (Report.set_approval_notification_sent true);;
     db_session_commit E
   else mret tt);;
  mret true.

(** The [except] clause of [update_report_status]. *)
Definition update_report_status_handler (e : exn) : M world bool :=
  db_session_rollback;;
  logger_error "Error updating report status" e;;
  mthrow e.

(** The serialized approval state is absent or is not JSON. *)
Definition approvals_unreadable (E : env) (r : Report.t) : Prop :=
  match Report.approvals_json r with
  | None => True
  | Some s => json_loads E s = None
  end.

(** What [_is_at_stage] returns, read off a run that carries no state. *)
Definition at_stage_value (E : env) (r : Report.t) (stage : Z) : bool :=
  match (_is_at_stage (St := unit) E r stage tt).1 with
  | Ret b => b
  | Raise _ => false
  end.

(** The world whose session has lost the report [report_id]. *)
Definition without_report (report_id : string) (w : world) : world :=
  with_session (with_reports (delete report_id (reports (session w))) (session w)) w.

(** The notifications a batch adds for [emails], keyed from [key] on. *)
Fixpoint new_notifications (key : Z) (title message notification_type : string)
    (emails : list string) : list Notification.t :=
  match emails with
  | [] => []
  | e :: rest =>
      Notification.mk key e title message notification_type false None
      :: new_notifications (key + 1) title message notification_type rest
  end.

(** The lines the bulk job logs for the recipients in [emails]. *)
Definition bulk_failures (emails : list string) : list log_entry :=
  (fun e => LogError ("Failed to create notification for " +:+ e) (Fault (OpNewNotification e)))
    <$> emails.

(** The invariant the data model announces: the flag is up only on a
    pending report. *)
Definition flag_only_while_pending (s : store) : Prop :=
  forall rid r, reports s !! rid = Some r ->
    Report.approval_notification_sent r = true -> Report.status r = "PENDING".

(** The report stored under [report_id] in a view of the database
    satisfies [P]. *)
Definition report_has (report_id : string) (P : Report.t -> Prop) (s : store) : Prop :=
  exists r, reports s !! report_id = Some r /\ P r.

(** Both views of the database hold, under [report_id], a report that
    satisfies [P]. *)
Definition report_inv (report_id : string) (P : Report.t -> Prop) (w : world) : Prop :=
  report_has report_id P (session w) /\ report_has report_id P (committed w).

(** ** Reasoning about computations *)

(** [m] keeps the invariant [I], whether it returns or raises. *)
Definition preserves {St A} (I : St -> Prop) (m : M St A) : Prop :=
  forall s, I s -> I (m s).2.

(** [m] never raises. *)
Definition never_raises {St A} (m : M St A) : Prop :=
  forall s, exists a, (m s).1 = Ret a.

(** ** Vocabulary for the further properties *)

(** A property of a database view that holds of the session and of the
    committed view. *)
Definition both_views (Q : store -> Prop) (w : world) : Prop :=
  Q (session w) /\ Q (committed w).

(** The only calls that raise are the constructions of a notification for
    a recipient in [bad], and these always raise. *)
Definition constructor_faults (E : env) (bad : string -> bool) : Prop :=
  forall t p,
    fails E t p = match p with
                  | OpNewNotification e => bad e
                  | _ => false
                  end.

(** The users [create_approval_notification] selects. *)
Definition is_approver (u : User.t) : Prop :=
  User.role u ∈ ["TM"; "Technical Manager"] /\ User.status u = "Active".

(** The texts [create_approval_notification] builds from a report title. *)
Definition approval_message (E : env) (document_title : pyval) : string :=
  "Report " +:+ dq +:+ py_str E document_title +:+ dq +:+ " requires your approval".

Definition approval_email_body (E : env) (document_title : pyval) : string :=
  "A new report " +:+ dq +:+ py_str E document_title +:+ dq +:+ " is pending your approval.".

(** The bodies of the two loops of [create_approval_notification]. *)
Definition notify_one (E : env) (report : string) (tm : User.t) : M world unit :=
  document_title ← report_getattr report Report.document_title;
  create_notification E (User.email tm)
    "New Report for Approval"
    ("Report " +:+ dq +:+ py_str E document_title +:+ dq +:+ " requires your approval")
    "approval";;
  mret tt.

Definition email_one (E : env) (report : string) (tm : User.t) : M world unit :=
  document_title ← report_getattr report Report.document_title;
  send_email_notification E (User.email tm)
    "New Report Pending Approval"
    ("A new report " +:+ dq +:+ py_str E document_title +:+ dq
       +:+ " is pending your approval.").

(** The e-mails the dispatcher hands over for the users [tms]. *)
Definition approval_emails (E : env) (document_title : pyval) (tms : list User.t)
    : list email_msg :=
  (fun tm => mkEmail (User.email tm) "New Report Pending Approval"
               (approval_email_body E document_title)) <$> tms.

(** The number of unread notifications of [user_email] in a view. *)
Definition unread_of (user_email : string) (s : store) : nat :=
  length (filter (fun n => Notification.user_email n = user_email
                           /\ Notification.read n = false) (notifications s)).

(** The frontend category [group_user] files a database role under. *)
Definition role_group (role : string) : option string :=
  if String.eqb role "Admin" then Some "Admin"
  else if String.eqb role "Engineer" then Some "Engineer"
  else if bool_decide (role ∈ ["TM"; "Technical Manager"; "Tech Manager"; "Automation Manager"])
  then Some "TM"
  else if bool_decide (role ∈ ["PM"; "Project Manager"; "Project_Manager"]) then Some "PM"
  else None.

(** The roles that [get_user_reports] lets see every report. *)
Definition sees_all_reports (role : string) : Prop :=
  role ∈ ["Admin"; "TM"; "Technical Manager"; "PM"; "Project Manager"].

(** ** Sample environments and worlds, for the examples *)

Module Examples.

Definition no_faults : nat -> prim -> bool := fun _ _ => false.

(** Every call of the kind [p] raises, no other call does. *)
Definition only_fails (p : prim) : nat -> prim -> bool :=
  fun _ q => bool_decide (q = p).

Definition env_with (fails : nat -> prim -> bool) (emails : bool) : env :=
  mkEnv fails
    (fun n => 1700000000 + Z.of_nat n)
    (fun n => "report-" +:+ pretty n)
    JsonFragment.loads
    (fun _ => "nan")
    (fun _ => "<object>")
    emails.

Definition calm : env := env_with no_faults false.

Definition tara : User.t := User.mk "Tara Mills" "tara@x" "TM" "Active".
Definition avery : User.t := User.mk "Avery Moss" "avery@x" "Automation Manager" "Active".
Definition erin : User.t := User.mk "Erin Engel" "erin@x" "Engineer" "Active".

Definition draft_report : Report.t :=
  Report.mk "r1" (PyStr "SAT") "DRAFT" (PyStr "Pump SAT") PyNone PyNone PyNone
    (PyStr "R0") PyNone "erin@x" "R0" None None false.

(** A report waiting at stage 1, its approvers already notified. *)
Definition pending_report : Report.t :=
  Report.mk "r1" (PyStr "SAT") "PENDING" (PyStr "Pump SAT") PyNone PyNone PyNone
    (PyStr "R0") PyNone "erin@x" "R0" (Some 1699999999)
    (Some approvals_template_json) true.

(** A pending report whose approval state is not JSON. *)
Definition garbled_report : Report.t :=
  Report.mk "r2" (PyStr "SAT") "PENDING" (PyStr "Valve SAT") PyNone PyNone PyNone
    (PyStr "R0") PyNone "erin@x" "R0" (Some 1699999999) (Some "{stage: 1") false.

Definition note_for_tara : Notification.t :=
  Notification.mk 1 "tara@x" "New Report for Approval" "Report requires your approval"
    "approval" false None.

(** A world with nothing pending in the session. *)
Definition world_of (s : store) : world := mkWorld s s [] 1 [] [] [].

Definition with_draft : world :=
  world_of (mkStore [tara; avery; erin] {[ "r1" := draft_report ]} [] []).

Definition with_pending : world :=
  world_of (mkStore [avery; erin] {[ "r1" := pending_report ]} [] []).

Definition with_garbled : world :=
  world_of (mkStore [tara] (<["r2" := garbled_report]> {[ "r1" := pending_report ]}) [] []).

Definition with_note : world :=
  mkWorld (mkStore [tara; avery] ∅ [] [note_for_tara])
          (mkStore [tara; avery] ∅ [] [note_for_tara]) [] 2 [] [] [].

Definition empty_world : world := world_of (mkStore [] ∅ [] []).

End Examples.

(** ** Further sample worlds *)

Module Scenarios.

(** A draft that was submitted once before: its flag is up. *)
Definition returned_draft : Report.t :=
  Report.mk "r3" (PyStr "SAT") "DRAFT" (PyStr "Boiler SAT") PyNone PyNone PyNone
    (PyStr "R1") PyNone "erin@x" "R0" (Some 1699990000)
    (Some "{stale}") true.

Definition with_returned_draft : world :=
  Examples.world_of (mkStore [Examples.tara] {[ "r3" := returned_draft ]} [] []).


Definition tim : User.t := User.mk "Tim Moor" "tim@x" "Technical Manager" "Active".
Definition tess : User.t := User.mk "Tess Muir" "tess@x" "TM" "Active".
Definition paula : User.t := User.mk "Paula Marsh" "paula@x" "PM" "Active".
Definition ian : User.t := User.mk "Ian Park" "ian@x" "TM" "Inactive".

(** Three approvers, with other users in between. *)
Definition with_three_approvers : world :=
  Examples.world_of
    (mkStore [Examples.tara; Examples.erin; tim; ian; paula; tess]
       {[ "r1" := Examples.draft_report ]} [] []).

(** The construction of a notification for [e] raises, nothing else does. *)
Definition construction_fails_for (e : string) : string -> bool :=
  fun e' => bool_decide (OpNewNotification e' = OpNewNotification e).


(** A notification read some time ago. *)
Definition read_note : Notification.t :=
  Notification.mk 7 "tara@x" "New Report for Approval" "Report requires your approval"
    "approval" true (Some 1600000000).

Definition with_read_note : world :=
  mkWorld (mkStore [Examples.tara] ∅ [] [read_note])
          (mkStore [Examples.tara] ∅ [] [read_note]) [] 8 [] [] [].


Definition rejected_report : Report.t :=
  Report.mk "r4" (PyStr "SAT") "REJECTED" (PyStr "Fan SAT") PyNone PyNone PyNone
    (PyStr "R0") PyNone "erin@x" "R0" (Some 1699990000) None false.

(** Erin owns a draft, a pending and a rejected report. *)
Definition with_rejected : world :=
  Examples.world_of
    (mkStore [Examples.erin]
       (<["r4" := rejected_report]>
          (<["r2" := Examples.garbled_report]> {[ "r1" := Examples.draft_report ]})) [] []).


(** For the retention job: a clock that counts microseconds from
    [datetime.min]; it starts on 14 November 2023. *)
Definition env_us (fails : nat -> prim -> bool) : env :=
  mkEnv fails
    (fun n => 63835596800000000 + Z.of_nat n)
    (fun n => "report-" +:+ pretty n)
    JsonFragment.loads
    (fun _ => "nan")
    (fun _ => "<object>")
    false.

Definition report_at (key status : string) (updated_at : option Z) : Report.t :=
  Report.mk key (PyStr "SAT") status (PyStr "Pump SAT") PyNone PyNone PyNone
    (PyStr "R0") PyNone "erin@x" "R0" updated_at None false.

(** A draft untouched for years, one touched a quarter of an hour ago, one
    that was never stamped, and a pending report as old as the first. *)
Definition stale_draft : Report.t := report_at "r5" "DRAFT" (Some 63735596800000000).
Definition fresh_draft : Report.t := report_at "r6" "DRAFT" (Some 63835595800000000).
Definition unstamped_draft : Report.t := report_at "r7" "DRAFT" None.
Definition stale_pending : Report.t := report_at "r8" "PENDING" (Some 63735596800000000).

Definition note (key : Z) (read : bool) : Notification.t :=
  Notification.mk key "tara@x" "New Report for Approval" "Report requires your approval"
    "approval" read None.

(** Notification 3 is recent, the others are years old. *)
Definition created_at_of (n : Notification.t) : option Z :=
  if Notification.id n =? 3 then Some 63835595800000000 else Some 63735596800000000.

Definition before_cleanup : world :=
  Examples.world_of
    (mkStore [Examples.tara]
       (<["r8" := stale_pending]>
          (<["r7" := unstamped_draft]>
             (<["r6" := fresh_draft]> {[ "r5" := stale_draft ]})))
       [] [note 1 true; note 2 false; note 3 true]).

End Scenarios.

Section Preservation.
Context {St : Type} (I : St -> Prop).

Lemma preserves_ret {A} (a : A) : preserves I (mret a : M St A).
Proof. intros s H. exact H. Qed.

Lemma preserves_throw {A} (e : exn) : preserves I (mthrow e : M St A).
Proof. intros s H. exact H. Qed.

Lemma preserves_gets {A} (f : St -> A) : preserves I (gets f).
Proof. intros s H. exact H. Qed.

Lemma preserves_modify (f : St -> St) :
  (forall s, I s -> I (f s)) -> preserves I (modify f).
Proof. intros Hf s H. apply Hf, H. Qed.

Lemma preserves_bind {A B} (m : M St A) (f : A -> M St B) :
  preserves I m -> (forall a, preserves I (f a)) -> preserves I (m ≫= f).
Proof.
  intros Hm Hf s H. specialize (Hm s H).
  unfold mbind, M_bind. destruct (m s) as [[a|e] s']; simpl in *.
  - apply Hf, Hm.
  - exact Hm.
Qed.

Lemma preserves_try_except {A} (m : M St A) (h : exn -> M St A) :
  preserves I m -> (forall e, preserves I (h e)) -> preserves I (try_except m h).
Proof.
  intros Hm Hh s H. specialize (Hm s H).
  unfold try_except. destruct (m s) as [[a|e] s']; simpl in *.
  - exact Hm.
  - apply Hh, Hm.
Qed.

Lemma preserves_for_each {A} (l : list A) (body : A -> M St unit) :
  (forall x, preserves I (body x)) -> preserves I (for_each l body).
Proof.
  intros Hb. induction l as [|x l IH]; simpl.
  - apply preserves_ret.
  - apply preserves_bind; [apply Hb | intros _; exact IH].
Qed.

Lemma preserves_if {A} (b : bool) (m1 m2 : M St A) :
  preserves I m1 -> preserves I m2 -> preserves I (if b then m1 else m2).
Proof. destruct b; auto. Qed.
End Preservation.

Lemma never_raises_try_except {St A} (m : M St A) (h : exn -> M St A) :
  (forall e, never_raises (h e)) -> never_raises (try_except m h).
Proof.
  intros Hh s. unfold try_except.
  destruct (m s) as [[a|e] s']; simpl; [eauto | apply Hh].
Qed.

(** *** The collaborators' calls keep the reports *)

Create HintDb inv discriminated.

Ltac inv_step :=
  first
    [ solve [eauto with inv]
    | apply preserves_bind; [| intros ?]
    | apply preserves_try_except; [| intros ?]
    | apply preserves_for_each; intros ?
    | apply preserves_if
    | apply preserves_ret
    | apply preserves_throw
    | apply preserves_gets ].

Ltac inv_auto := repeat inv_step; eauto with inv.

Section ReportInvariant.
Variable E : env.
Variables (report_id : string) (P : Report.t -> Prop).
Local Abbreviation I := (report_inv report_id P).

Lemma inv_call p : preserves I (call E p).
Proof.
  intros w H. unfold call. destruct (fails E (tick w) p); exact H.
Qed.

Lemma inv_utcnow : preserves I (utcnow E).
Proof. intros w H. exact H. Qed.

Lemma inv_logger_error c e : preserves I (logger_error c e).
Proof. intros w H. exact H. Qed.

Lemma inv_commit : preserves I (db_session_commit E).
Proof.
  unfold db_session_commit. apply preserves_bind; [apply inv_call | intros _].
  apply preserves_modify. intros w [Hs _]. split; exact Hs.
Qed.

Lemma inv_rollback : preserves I db_session_rollback.
Proof. apply preserves_modify. intros w [_ Hc]. split; exact Hc. Qed.

Lemma inv_add_notification n : preserves I (db_session_add_notification E n).
Proof.
  unfold db_session_add_notification.
  apply preserves_bind; [apply inv_call | intros _].
  apply preserves_bind; [apply preserves_gets | intros key].
  apply preserves_bind; [| intros _; apply preserves_ret].
  apply preserves_modify. intros w H. exact H.
Qed.

Lemma inv_report_getattr {A} rid (f : Report.t -> A) : preserves I (report_getattr rid f).
Proof.
  intros w H. unfold report_getattr. destruct (reports (session w) !! rid); exact H.
Qed.

Lemma inv_report_setattr (f : Report.t -> Report.t) :
  (forall r, P r -> P (f r)) -> preserves I (report_setattr report_id f).
Proof.
  intros Hf. apply preserves_modify. intros w [[r [Hr HP]] Hc]. split; [| exact Hc].
  exists (f r). simpl. rewrite lookup_alter_eq, Hr. auto.
Qed.

Lemma inv_User_query_tms : preserves I (User_query_tms E).
Proof.
  unfold User_query_tms. apply preserves_bind; [apply inv_call | intros _; apply preserves_gets].
Qed.

Lemma inv_config_get : preserves I (config_get_email_notifications E).
Proof.
  unfold config_get_email_notifications.
  apply preserves_bind; [apply inv_call | intros _; apply preserves_ret].
Qed.

Lemma inv_send_email r sbj b : preserves I (send_email_notification E r sbj b).
Proof.
  unfold send_email_notification. apply preserves_bind; [apply inv_call | intros _].
  apply preserves_modify. intros w H. exact H.
Qed.

Hint Resolve inv_call inv_utcnow inv_logger_error inv_commit inv_rollback
  inv_add_notification inv_report_getattr inv_User_query_tms inv_config_get
  inv_send_email : inv.

Lemma inv_create_notification u t m k : preserves I (create_notification E u t m k).
Proof. unfold create_notification. inv_auto. Qed.

Hint Resolve inv_create_notification : inv.

Lemma inv_create_approval_notification rid :
  preserves I (create_approval_notification E rid).
Proof. unfold create_approval_notification. inv_auto. Qed.

End ReportInvariant.

(** *** Running a computation step by step *)

Lemma run_bind {St A B} (m : M St A) (f : A -> M St B) s :
  (m ≫= f) s = match m s with
               | (Ret a, s') => f a s'
               | (Raise e, s') => (Raise e, s')
               end.
Proof. reflexivity. Qed.

Lemma run_ret {St A} (a : A) (s : St) : (mret a : M St A) s = (Ret a, s).
Proof. reflexivity. Qed.

Lemma run_throw {St A} (e : exn) (s : St) : (mthrow e : M St A) s = (Raise e, s).
Proof. reflexivity. Qed.

Lemma run_try_except {St A} (m : M St A) (h : exn -> M St A) s :
  try_except m h s = match m s with
                     | (Ret a, s') => (Ret a, s')
                     | (Raise e, s') => h e s'
                     end.
Proof. reflexivity. Qed.

Lemma run_gets {St A} (f : St -> A) s : gets f s = (Ret (f s), s).
Proof. reflexivity. Qed.

Lemma run_modify {St} (f : St -> St) s : modify f s = (Ret tt, f s).
Proof. reflexivity. Qed.

Lemma run_call E p w :
  call E p w = (if fails E (tick w) p then Raise (Fault p) else Ret tt, record_call p w).
Proof. unfold call. destruct (fails E (tick w) p); reflexivity. Qed.

Lemma run_utcnow E w : utcnow E w = (Ret (clock E (tick w)), record_call OpUtcNow w).
Proof. reflexivity. Qed.

Lemma run_logger_error c e w :
  logger_error c e w = (Ret tt, with_log (log w ++ [LogError c e]) w).
Proof. reflexivity. Qed.

Lemma run_rollback w :
  db_session_rollback w = (Ret tt, record_call OpRollback (with_session (committed w) w)).
Proof. reflexivity. Qed.

Lemma run_commit E w :
  db_session_commit E w
  = if fails E (tick w) OpCommit then (Raise (Fault OpCommit), record_call OpCommit w)
    else (Ret tt, with_committed (session w) (record_call OpCommit w)).
Proof.
  unfold db_session_commit. rewrite run_bind, run_call.
  destruct (fails E (tick w) OpCommit); reflexivity.
Qed.

Lemma run_Report_query_get E rid w :
  Report_query_get E rid w
  = if fails E (tick w) OpReportGet then (Raise (Fault OpReportGet), record_call OpReportGet w)
    else (Ret (reports (session w) !! rid), record_call OpReportGet w).
Proof.
  unfold Report_query_get. rewrite run_bind, run_call.
  destruct (fails E (tick w) OpReportGet); reflexivity.
Qed.

Lemma run_report_setattr rid f w :
  report_setattr rid f w
  = (Ret tt, with_session (with_reports (alter f rid (reports (session w))) (session w)) w).
Proof. reflexivity. Qed.

Lemma run_notification_setattr k f w :
  notification_setattr k f w
  = (Ret tt,
     with_session (with_notifications (alter f k (notifications (session w))) (session w)) w).
Proof. reflexivity. Qed.

Lemma run_report_getattr {A} rid (f : Report.t -> A) w r :
  reports (session w) !! rid = Some r -> report_getattr rid f w = (Ret (f r), w).
Proof. intros H. unfold report_getattr. rewrite H. reflexivity. Qed.

Lemma json_dumps_template fr : json_dumps fr approvals_template = Some approvals_template_json.
Proof. vm_compute. reflexivity. Qed.

Lemma run_json_dumps_template {St} E (s : St) :
  json_dumps_py E approvals_template s = (Ret approvals_template_json, s).
Proof. unfold json_dumps_py. rewrite json_dumps_template. reflexivity. Qed.

Lemma tick_record_call p w : tick (record_call p w) = S (tick w).
Proof. unfold tick, record_call. simpl. rewrite length_app. simpl. lia. Qed.

Lemma never_raises_create_approval_notification E rid :
  never_raises (create_approval_notification E rid).
Proof.
  apply never_raises_try_except. intros e w. exists false. reflexivity.
Qed.

Ltac wsimpl :=
  unfold record_call, tick in *;
  unfold with_committed, with_session, with_journal, with_next_notification_id, with_log,
    with_outbox, with_task_states, with_reports, with_sat_reports, with_notifications in *;
  cbn [committed session journal next_notification_id log outbox task_states
       users reports sat_reports notifications fst snd length] in *;
  rewrite ?length_app, ?Nat.add_1_r in *;
  cbn [length] in *;
  rewrite ?Nat.add_1_r in *.

Ltac mrun :=
  repeat first
    [ rewrite run_bind
    | rewrite run_try_except
    | rewrite run_ret
    | rewrite run_throw
    | rewrite run_gets
    | rewrite run_modify
    | rewrite run_utcnow
    | rewrite run_logger_error
    | rewrite run_rollback
    | rewrite run_report_setattr
    | rewrite run_notification_setattr
    | rewrite run_json_dumps_template
    | progress cbv beta iota
    | progress wsimpl ].

(** *** The first half of [update_report_status] *)


Section FirstHalf.
Variable E : env.
Variables (w : world) (report_id : string) (r : Report.t).
Hypothesis Hfound : reports (session w) !! report_id = Some r.

Lemma after_status_commit_session status :
  reports (session (after_status_commit E report_id status w))
  = <[report_id := status_changed status (clock E (S (tick w))) r]> (reports (session w)).
Proof. unfold after_status_commit. wsimpl. apply alter_alt_Some, Hfound. Qed.

Lemma after_status_commit_synced status :
  committed (after_status_commit E report_id status w)
  = session (after_status_commit E report_id status w).
Proof. reflexivity. Qed.

Lemma after_status_commit_journal status :
  journal (after_status_commit E report_id status w)
  = (journal w ++ [OpReportGet; OpUtcNow; OpCommit])%list.
Proof. unfold after_status_commit. wsimpl. rewrite <- !app_assoc. reflexivity. Qed.

Lemma status_changed_flag status now :
  Report.approval_notification_sent (status_changed status now r)
  = Report.approval_notification_sent r.
Proof. unfold status_changed. destruct (_ && _); reflexivity. Qed.

Lemma status_changed_status status now :
  Report.status (status_changed status now r) = status.
Proof. unfold status_changed. destruct (_ && _); reflexivity. Qed.

Lemma status_changed_updated_at status now :
  Report.updated_at (status_changed status now r) = Some now.
Proof. unfold status_changed. destruct (_ && _); reflexivity. Qed.

Lemma after_status_commit_inv status (P : Report.t -> Prop) :
  P (status_changed status (clock E (S (tick w))) r) ->
  report_inv report_id P (after_status_commit E report_id status w).
Proof.
  intros HP. unfold report_inv. rewrite after_status_commit_synced.
  assert (report_has report_id P (session (after_status_commit E report_id status w))); [| tauto].
  eexists. rewrite after_status_commit_session, lookup_insert_eq. eauto.
Qed.

(** The call raises when the report cannot be fetched. *)
Lemma update_report_status_get_fails status :
  fails E (tick w) OpReportGet = true ->
  update_report_status E report_id status w
  = (Raise (Fault OpReportGet),
     with_log (log w ++ [LogError "Error updating report status" (Fault OpReportGet)])
       (record_call OpRollback (with_session (committed w) (record_call OpReportGet w)))).
Proof.
  intros Hget. unfold update_report_status.
  rewrite (run_try_except _ _ w), run_bind, run_Report_query_get, Hget. mrun. reflexivity.
Qed.

Hypothesis Hget : fails E (tick w) OpReportGet = false.

(** The call raises, with nothing committed, when the first commit fails. *)
Lemma update_report_status_commit_fails status :
  fails E (S (S (tick w))) OpCommit = true ->
  exists w',
    update_report_status E report_id status w = (Raise (Fault OpCommit), w')
    /\ committed w' = committed w /\ session w' = committed w
    /\ journal w' = (journal w ++ [OpReportGet; OpUtcNow; OpCommit; OpRollback])%list
    /\ outbox w' = outbox w.
Proof.
  intros Hcommit. unfold update_report_status.
  rewrite (run_try_except _ _ w), run_bind, run_Report_query_get, Hget, Hfound.
  mrun.
  destruct (String.eqb status "PENDING" && String.eqb (Report.status r) "DRAFT").
  - mrun. rewrite run_commit. wsimpl. rewrite Hcommit. mrun.
    eexists. split; [reflexivity |]. wsimpl. rewrite <- !app_assoc. auto.
  - mrun. rewrite run_commit. wsimpl. rewrite Hcommit. mrun.
    eexists. split; [reflexivity |]. wsimpl. rewrite <- !app_assoc. auto.
Qed.

Hypothesis Hcommit : fails E (S (S (tick w))) OpCommit = false.

Lemma update_report_status_first_half status :
  update_report_status E report_id status w
  = try_except (send_notifications_if_needed E report_id status)
      update_report_status_handler
      (after_status_commit E report_id status w).
Proof.
  unfold update_report_status, send_notifications_if_needed, update_report_status_handler.
  rewrite (run_try_except _ _ w). rewrite run_bind. rewrite run_Report_query_get, Hget, Hfound.
  mrun.
  rewrite (alter_alt_Some _ _ _ _ Hfound), !alter_insert_eq.
  unfold after_status_commit. rewrite (alter_alt_Some _ _ _ _ Hfound).
  unfold status_changed.
  destruct (String.eqb status "PENDING" && String.eqb (Report.status r) "DRAFT").
  - mrun. rewrite alter_insert_eq. rewrite run_commit. wsimpl. rewrite Hcommit. mrun.
    reflexivity.
  - mrun. rewrite run_commit. wsimpl. rewrite Hcommit. mrun. reflexivity.
Qed.

(** Entering PENDING with the flag down: the dispatcher runs next. *)
Lemma update_report_status_notifies :
  Report.approval_notification_sent r = false ->
  update_report_status E report_id "PENDING" w
  = notify_and_flag E report_id (after_status_commit E report_id "PENDING" w).
Proof.
  intros Hflag. rewrite update_report_status_first_half.
  unfold send_notifications_if_needed, notify_and_flag, update_report_status_handler.
  rewrite !run_try_except.
  rewrite String.eqb_refl. rewrite !run_bind.
  erewrite run_report_getattr
    by (rewrite after_status_commit_session; apply lookup_insert_eq).
  rewrite status_changed_flag, Hflag. cbn [negb]. rewrite run_ret. cbv beta iota.
  rewrite !run_bind.
  destruct (create_approval_notification E report_id _) as [[b|e] w2]; [| reflexivity].
  repeat (rewrite ?run_bind, ?run_report_setattr; cbv beta iota).
  destruct (db_session_commit E _) as [[[]|e] w3]; reflexivity.
Qed.

(** Any other status, or the flag already up: nothing more happens. *)
Lemma update_report_status_quiet status :
  String.eqb status "PENDING" && negb (Report.approval_notification_sent r) = false ->
  update_report_status E report_id status w
  = (Ret true, after_status_commit E report_id status w).
Proof.
  intros Hq. rewrite update_report_status_first_half.
  unfold send_notifications_if_needed. rewrite run_try_except, run_bind.
  destruct (String.eqb status "PENDING"); simpl in Hq.
  - rewrite run_bind.
    erewrite run_report_getattr
      by (rewrite after_status_commit_session; apply lookup_insert_eq).
    rewrite status_changed_flag, Hq. mrun. reflexivity.
  - mrun. reflexivity.
Qed.
End FirstHalf.

(** *** The second half of [update_report_status] *)

Lemma inv_notify_and_flag E report_id (P : Report.t -> Prop) :
  (forall r, P r -> P (Report.set_approval_notification_sent true r)) ->
  preserves (report_inv report_id P) (notify_and_flag E report_id).
Proof.
  intros HP. unfold notify_and_flag.
  apply preserves_try_except.
  - apply preserves_bind; [apply inv_create_approval_notification | intros _].
    apply preserves_bind; [apply inv_report_setattr, HP | intros _].
    apply preserves_bind; [apply inv_commit | intros _; apply preserves_ret].
  - intros e. apply preserves_bind; [apply inv_rollback | intros _].
    apply preserves_bind; [apply inv_logger_error | intros _; apply preserves_throw].
Qed.

(** Once the dispatcher has returned, only the second commit decides. *)
Lemma notify_and_flag_run E report_id w1 b w2 :
  create_approval_notification E report_id w1 = (Ret b, w2) ->
  notify_and_flag E report_id w1
  = let flagged :=
      with_session
        (with_reports
           (alter (Report.set_approval_notification_sent true) report_id (reports (session w2)))
           (session w2)) w2 in
    if fails E (tick w2) OpCommit then
      (Raise (Fault OpCommit),
       with_log (log w2 ++ [LogError "Error updating report status" (Fault OpCommit)])
         (record_call OpRollback
            (with_session (committed w2) (record_call OpCommit flagged))))
    else (Ret true, with_committed (session flagged) (record_call OpCommit flagged)).
Proof.
  intros Hd. unfold notify_and_flag.
  rewrite run_try_except, run_bind, Hd. cbv beta iota zeta.
  rewrite run_bind, run_report_setattr. cbv beta iota.
  rewrite run_bind, run_commit.
  replace (tick (with_session _ w2)) with (tick w2) by reflexivity.
  destruct (fails E (tick w2) OpCommit); mrun; reflexivity.
Qed.

Lemma dispatcher_returns E report_id w1 :
  exists b w2, create_approval_notification E report_id w1 = (Ret b, w2).
Proof.
  destruct (never_raises_create_approval_notification E report_id w1) as [b Hb].
  destruct (create_approval_notification E report_id w1) as [res w2] eqn:Hd.
  simpl in Hb. subst res. eauto.
Qed.

(** A call that returns went through the fetch and the first commit. *)
Lemma update_report_status_returned E w report_id status r b w' :
  reports (session w) !! report_id = Some r ->
  update_report_status E report_id status w = (Ret b, w') ->
  fails E (tick w) OpReportGet = false /\ fails E (S (S (tick w))) OpCommit = false.
Proof.
  intros Hfound Hrun.
  destruct (fails E (tick w) OpReportGet) eqn:Hget.
  { rewrite (update_report_status_get_fails E w report_id status Hget) in Hrun. discriminate. }
  destruct (fails E (S (S (tick w))) OpCommit) eqn:Hcommit; [| auto].
  destruct (update_report_status_commit_fails E w report_id r Hfound Hget status Hcommit)
    as [w'' [Hrun' _]].
  rewrite Hrun' in Hrun. discriminate.
Qed.

(** What the whole call keeps, once the fetch and the first commit went
    through: any property of the changed report that raising the flag does
    not disturb holds in both views of the database at the end, whether
    the call returns or raises. *)
Lemma update_report_status_inv E w report_id status r (P : Report.t -> Prop) :
  reports (session w) !! report_id = Some r ->
  fails E (tick w) OpReportGet = false ->
  fails E (S (S (tick w))) OpCommit = false ->
  (forall r', P r' -> P (Report.set_approval_notification_sent true r')) ->
  P (status_changed status (clock E (S (tick w))) r) ->
  report_inv report_id P (update_report_status E report_id status w).2.
Proof.
  intros Hfound Hget Hcommit Hstable HP.
  pose proof (after_status_commit_inv E w report_id r Hfound status P HP) as Hinv.
  destruct (String.eqb status "PENDING" && negb (Report.approval_notification_sent r)) eqn:Hq.
  - apply andb_true_iff in Hq as [Hs Hf].
    apply String.eqb_eq in Hs. apply negb_true_iff in Hf. subst status.
    rewrite (update_report_status_notifies E w report_id r Hfound Hget Hcommit Hf).
    apply inv_notify_and_flag; assumption.
  - rewrite (update_report_status_quiet E w report_id r Hfound Hget Hcommit status Hq).
    exact Hinv.
Qed.

(** With the flag up, a call does not reach the dispatcher. *)
Lemma update_report_status_no_redispatch E w report_id r status res w' :
  reports (session w) !! report_id = Some r ->
  Report.approval_notification_sent r = true ->
  notifications (committed w) = notifications (session w) ->
  update_report_status E report_id status w = (res, w') ->
  (OpUserQuery ∉ drop (tick w) (journal w'))
  /\ notifications (session w') = notifications (session w)
  /\ notifications (committed w') = notifications (session w)
  /\ outbox w' = outbox w.
Proof.
  intros Hfound Hflag Hsync Hrun.
  assert (Hnot : forall l, OpUserQuery ∈ l -> In OpUserQuery l)
    by (intros l; apply list_elem_of_In).
  destruct (fails E (tick w) OpReportGet) eqn:Hget.
  { rewrite (update_report_status_get_fails E w report_id status Hget) in Hrun.
    injection Hrun as _ <-. unfold tick. wsimpl. rewrite <- app_assoc, drop_app_length.
    repeat split; auto. intros H%Hnot. simpl in H. intuition discriminate. }
  destruct (fails E (S (S (tick w))) OpCommit) eqn:Hcommit.
  { destruct (update_report_status_commit_fails E w report_id r Hfound Hget status Hcommit)
      as [w'' (Hrun' & Hc & Hs & Hj & Ho)].
    rewrite Hrun' in Hrun. injection Hrun as _ <-.
    rewrite Hj, Hs, Hc. unfold tick. rewrite drop_app_length.
    repeat split; auto. intros H%Hnot. simpl in H. intuition discriminate. }
  rewrite (update_report_status_quiet E w report_id r Hfound Hget Hcommit status) in Hrun
    by (rewrite Hflag; apply andb_false_r).
  injection Hrun as _ <-.
  rewrite after_status_commit_journal. unfold tick. rewrite drop_app_length.
  repeat split; auto. intros H%Hnot. simpl in H. intuition discriminate.
Qed.

(** ** The claims about [update_report_status] *)

(** C10: [update_report_status] validates nothing.  For every report the
    session holds, in whatever status, and every status string, inside or
    outside DRAFT/PENDING/APPROVED: when fetching the report and committing
    do not fail, the call returns [True], and the report carries the given
    status and the time stamp of the call, in the session and committed.
    No transition is refused; the dispatcher's own failures change
    nothing to this. *)
Theorem update_report_status_never_rejects E w report_id status r :
  reports (session w) !! report_id = Some r ->
  (forall t, fails E t OpReportGet = false) ->
  (forall t, fails E t OpCommit = false) ->
  exists w',
    update_report_status E report_id status w = (Ret true, w')
    /\ report_inv report_id
         (fun r' => Report.status r' = status
                    /\ Report.updated_at r' = Some (clock E (S (tick w)))) w'.
Proof.
  intros Hfound Hget Hcommit.
  pose proof (update_report_status_inv E w report_id status r
                (fun r' => Report.status r' = status
                           /\ Report.updated_at r' = Some (clock E (S (tick w))))
                Hfound (Hget _) (Hcommit _)) as Hinv.
  cbv beta in Hinv.
  rewrite status_changed_status, status_changed_updated_at in Hinv.
  specialize (Hinv (fun r' H => H) (conj eq_refl eq_refl)).
  destruct (String.eqb status "PENDING" && negb (Report.approval_notification_sent r)) eqn:Hq.
  - apply andb_true_iff in Hq as [Hs Hf].
    apply String.eqb_eq in Hs. apply negb_true_iff in Hf. subst status.
    rewrite (update_report_status_notifies E w report_id r Hfound (Hget _) (Hcommit _) Hf) in *.
    destruct (dispatcher_returns E report_id (after_status_commit E report_id "PENDING" w))
      as (b & w2 & Hd).
    rewrite (notify_and_flag_run E report_id _ b w2 Hd) in *.
    cbv zeta in *. rewrite Hcommit in *. eexists. split; [reflexivity | exact Hinv].
  - rewrite (update_report_status_quiet E w report_id r Hfound (Hget _) (Hcommit _) status Hq) in *.
    eexists. split; [reflexivity | exact Hinv].
Qed.

Lemma update_report_status_never_rejects_witness :
  exists w',
    update_report_status Examples.calm "r1" "ARCHIVED" Examples.with_draft = (Ret true, w')
    /\ report_inv "r1"
         (fun r' => Report.status r' = "ARCHIVED"
                    /\ Report.updated_at r' = Some 1700000001) w'.
Proof.
  apply (update_report_status_never_rejects Examples.calm Examples.with_draft "r1" "ARCHIVED"
           Examples.draft_report).
  - vm_compute. reflexivity.
  - intros t. reflexivity.
  - intros t. reflexivity.
Defined.

(** C3: DRAFT -> PENDING writes the two-stage template.  For every
    report the session holds in status DRAFT, whatever its approval state
    was: after a call to PENDING that returns [True], the report's
    [approvals_json], in the session and committed, is the JSON text of the
    template (current stage 1; then stage 1, Technical Manager, pending and
    stage 2, Project Manager, pending, in this order), which is what
    [json.dumps] prints for [approvals_template]. *)
Theorem draft_to_pending_initialises_approvals E w report_id r w' :
  reports (session w) !! report_id = Some r ->
  Report.status r = "DRAFT" ->
  update_report_status E report_id "PENDING" w = (Ret true, w') ->
  json_dumps (float_repr E) approvals_template = Some approvals_template_json
  /\ report_inv report_id
       (fun r' => Report.approvals_json r' = Some approvals_template_json) w'.
Proof.
  intros Hfound Hdraft Hrun. split; [apply json_dumps_template |].
  destruct (update_report_status_returned E w report_id "PENDING" r true w' Hfound Hrun)
    as [Hget Hcommit].
  pose proof (update_report_status_inv E w report_id "PENDING" r
                (fun r' => Report.approvals_json r' = Some approvals_template_json)
                Hfound Hget Hcommit) as Hinv.
  rewrite Hrun in Hinv. apply Hinv.
  - intros r' H. exact H.
  - unfold status_changed. rewrite Hdraft. reflexivity.
Qed.

Lemma draft_to_pending_initialises_approvals_witness :
  json_dumps (float_repr Examples.calm) approvals_template = Some approvals_template_json
  /\ report_inv "r1" (fun r' => Report.approvals_json r' = Some approvals_template_json)
       (update_report_status Examples.calm "r1" "PENDING" Examples.with_draft).2.
Proof.
  apply (draft_to_pending_initialises_approvals Examples.calm Examples.with_draft "r1"
           Examples.draft_report).
  - vm_compute. reflexivity.
  - reflexivity.
  - vm_compute. reflexivity.
Defined.

(** C2, as the code has it: the flag is raised by calls to PENDING and
    never lowered.  After a call that returns [True], the report has the
    requested status and its flag is the old flag or-ed with "the new
    status is PENDING": a report that leaves PENDING keeps the flag it
    had. *)
Theorem approval_flag_never_cleared E w report_id status r w' :
  reports (session w) !! report_id = Some r ->
  update_report_status E report_id status w = (Ret true, w') ->
  report_inv report_id
    (fun r' => Report.status r' = status
               /\ Report.approval_notification_sent r'
                  = Report.approval_notification_sent r || String.eqb status "PENDING") w'.
Proof.
  intros Hfound Hrun.
  destruct (update_report_status_returned E w report_id status r true w' Hfound Hrun)
    as [Hget Hcommit].
  destruct (String.eqb status "PENDING" && negb (Report.approval_notification_sent r)) eqn:Hq.
  - apply andb_true_iff in Hq as [Hs Hf].
    apply String.eqb_eq in Hs. apply negb_true_iff in Hf. subst status.
    rewrite (update_report_status_notifies E w report_id r Hfound Hget Hcommit Hf) in Hrun.
    destruct (dispatcher_returns E report_id (after_status_commit E report_id "PENDING" w))
      as (b & w2 & Hd).
    assert (Hinv : report_inv report_id (fun r' => Report.status r' = "PENDING") w2).
    { pose proof (inv_create_approval_notification E report_id
                    (fun r' => Report.status r' = "PENDING") report_id
                    (after_status_commit E report_id "PENDING" w)) as H.
      rewrite Hd in H. apply H, (after_status_commit_inv E w report_id r Hfound).
      apply status_changed_status. }
    rewrite (notify_and_flag_run E report_id _ b w2 Hd) in Hrun. cbv zeta in Hrun.
    destruct (fails E (tick w2) OpCommit); [discriminate |].
    injection Hrun as <-.
    destruct Hinv as [(r2 & Hr2 & Hs2) _].
    assert (report_has report_id
              (fun r' => Report.status r' = "PENDING"
                         /\ Report.approval_notification_sent r'
                            = Report.approval_notification_sent r || true)
              (with_reports
                 (alter (Report.set_approval_notification_sent true) report_id
                    (reports (session w2))) (session w2))) as Hfin.
    { exists (Report.set_approval_notification_sent true r2). simpl.
      rewrite lookup_alter_eq, Hr2. rewrite orb_true_r. auto. }
    split; exact Hfin.
  - rewrite (update_report_status_quiet E w report_id r Hfound Hget Hcommit status Hq) in Hrun.
    injection Hrun as <-.
    apply (after_status_commit_inv E w report_id r Hfound).
    rewrite status_changed_status, status_changed_flag. split; [reflexivity |].
    destruct (String.eqb status "PENDING"), (Report.approval_notification_sent r);
      simpl in *; congruence.
Qed.

Lemma approval_flag_never_cleared_witness :
  report_inv "r1"
    (fun r' => Report.status r' = "APPROVED"
               /\ Report.approval_notification_sent r' = true)
    (update_report_status Examples.calm "r1" "APPROVED" Examples.with_pending).2.
Proof.
  apply (approval_flag_never_cleared Examples.calm Examples.with_pending "r1" "APPROVED"
           Examples.pending_report).
  - vm_compute. reflexivity.
  - vm_compute. reflexivity.
Defined.

(** C2, as stated, fails: submitted and then approved through
    [update_report_status] alone, with no collaborator failing, the sample
    draft ends APPROVED with its flag still up. *)
Lemma approval_flag_outlives_pending :
  let submitted := update_report_status Examples.calm "r1" "PENDING" Examples.with_draft in
  let approved := update_report_status Examples.calm "r1" "APPROVED" submitted.2 in
  flag_only_while_pending (committed Examples.with_draft)
  /\ submitted.1 = Ret true
  /\ approved.1 = Ret true
  /\ ~ flag_only_while_pending (committed approved.2).
Proof.
  cbv zeta. split; [| split; [| split]].
  - intros rid r Hr Hflag. unfold Examples.with_draft, Examples.world_of in Hr. simpl in Hr.
    apply lookup_singleton_Some in Hr as [_ <-]. discriminate.
  - vm_compute. reflexivity.
  - vm_compute. reflexivity.
  - intros H.
    assert (Hr : exists r, reports (committed
                   (update_report_status Examples.calm "r1" "APPROVED"
                      (update_report_status Examples.calm "r1" "PENDING"
                         Examples.with_draft).2).2) !! "r1" = Some r
                 /\ Report.approval_notification_sent r = true
                 /\ Report.status r = "APPROVED").
    { eexists. split; [vm_compute; reflexivity | split; reflexivity]. }
    destruct Hr as (r & Hr & Hflag & Hst).
    specialize (H "r1" r Hr Hflag). rewrite Hst in H. discriminate.
Qed.

(** C5: the status change is committed before the dispatcher runs, and a
    dispatcher failure does not undo it.  For a report entering PENDING
    with its flag down, once the fetch and the first commit went through:
    the committed database already holds the new status and time stamp in
    the world [w1] reached after the calls fetch, clock, commit; the rest
    of the call is the dispatch-flag-commit sequence run from [w1]; and if
    the dispatcher fails there (returns [False]), the committed report
    still has the new status and time stamp when the call ends, whether it
    then returns or raises on the second commit. *)
Theorem status_change_committed_before_dispatch E w report_id r :
  reports (session w) !! report_id = Some r ->
  Report.approval_notification_sent r = false ->
  fails E (tick w) OpReportGet = false ->
  fails E (S (S (tick w))) OpCommit = false ->
  let w1 := after_status_commit E report_id "PENDING" w in
  let changed := fun r' => Report.status r' = "PENDING"
                           /\ Report.updated_at r' = Some (clock E (S (tick w))) in
  report_has report_id changed (committed w1)
  /\ journal w1 = (journal w ++ [OpReportGet; OpUtcNow; OpCommit])%list
  /\ update_report_status E report_id "PENDING" w = notify_and_flag E report_id w1
  /\ forall w2,
       create_approval_notification E report_id w1 = (Ret false, w2) ->
       report_has report_id changed
         (committed (update_report_status E report_id "PENDING" w).2).
Proof.
  intros Hfound Hflag Hget Hcommit w1 changed.
  assert (Hch : changed (status_changed "PENDING" (clock E (S (tick w))) r)).
  { split; [apply status_changed_status | apply status_changed_updated_at]. }
  split; [| split; [| split]].
  - apply (after_status_commit_inv E w report_id r Hfound "PENDING" changed Hch).
  - apply after_status_commit_journal.
  - apply (update_report_status_notifies E w report_id r Hfound Hget Hcommit Hflag).
  - intros w2 _.
    apply (update_report_status_inv E w report_id "PENDING" r changed Hfound Hget Hcommit);
      [| exact Hch].
    intros r' H. exact H.
Qed.

Lemma status_change_committed_before_dispatch_witness :
  let E := Examples.env_with (Examples.only_fails OpUserQuery) false in
  let w1 := after_status_commit E "r1" "PENDING" Examples.with_draft in
  let changed := fun r' => Report.status r' = "PENDING"
                           /\ Report.updated_at r' = Some 1700000001 in
  create_approval_notification E "r1" w1
  = (Ret false, (create_approval_notification E "r1" w1).2)
  /\ report_has "r1" changed
       (committed (update_report_status E "r1" "PENDING" Examples.with_draft).2).
Proof.
  cbv zeta. split.
  - vm_compute. reflexivity.
  - apply (status_change_committed_before_dispatch
             (Examples.env_with (Examples.only_fails OpUserQuery) false)
             Examples.with_draft "r1" Examples.draft_report)
      with (w2 := (create_approval_notification
                     (Examples.env_with (Examples.only_fails OpUserQuery) false) "r1"
                     (after_status_commit
                        (Examples.env_with (Examples.only_fails OpUserQuery) false)
                        "r1" "PENDING" Examples.with_draft)).2).
    + vm_compute. reflexivity.
    + reflexivity.
    + reflexivity.
    + reflexivity.
    + vm_compute. reflexivity.
Defined.

(** C6: a failed dispatch still raises the flag.  For a report entering
    PENDING with its flag down: if the dispatcher, run after the first
    commit, returns [False], and the second commit goes through, then the
    call returns [True] with the flag up in the session and committed; and
    any later call on that report, whatever status it asks for and whatever
    fails in it, never reaches the dispatcher: no user is looked up, no
    notification is added and no e-mail is sent. *)
Theorem failed_dispatch_still_raises_flag E w report_id r w2 :
  reports (session w) !! report_id = Some r ->
  Report.approval_notification_sent r = false ->
  fails E (tick w) OpReportGet = false ->
  fails E (S (S (tick w))) OpCommit = false ->
  create_approval_notification E report_id (after_status_commit E report_id "PENDING" w)
  = (Ret false, w2) ->
  fails E (tick w2) OpCommit = false ->
  exists w3,
    update_report_status E report_id "PENDING" w = (Ret true, w3)
    /\ report_inv report_id (fun r' => Report.approval_notification_sent r' = true) w3
    /\ forall status' res w4,
         update_report_status E report_id status' w3 = (res, w4) ->
         (OpUserQuery ∉ drop (tick w3) (journal w4))
         /\ notifications (session w4) = notifications (session w3)
         /\ notifications (committed w4) = notifications (committed w3)
         /\ outbox w4 = outbox w3.
Proof.
  intros Hfound Hflag Hget Hcommit Hd Hcommit2.
  rewrite (update_report_status_notifies E w report_id r Hfound Hget Hcommit Hflag).
  rewrite (notify_and_flag_run E report_id _ false w2 Hd). cbv zeta. rewrite Hcommit2.
  eexists. split; [reflexivity |].
  assert (Hin : report_inv report_id (fun _ => True) w2).
  { pose proof (inv_create_approval_notification E report_id (fun _ => True) report_id
                  (after_status_commit E report_id "PENDING" w)) as H.
    rewrite Hd in H. apply H, (after_status_commit_inv E w report_id r Hfound). exact I. }
  destruct Hin as [(r2 & Hr2 & _) _].
  assert (Hlook : reports (with_reports
                     (alter (Report.set_approval_notification_sent true) report_id
                        (reports (session w2))) (session w2)) !! report_id
                  = Some (Report.set_approval_notification_sent true r2)).
  { simpl. rewrite lookup_alter_eq, Hr2. reflexivity. }
  split.
  - split; eexists; (split; [exact Hlook | reflexivity]).
  - intros status' res w4 Hrun.
    apply (update_report_status_no_redispatch E _ report_id
             (Report.set_approval_notification_sent true r2) status' res w4) in Hrun;
      [exact Hrun | exact Hlook | reflexivity | reflexivity].
Qed.

Lemma failed_dispatch_still_raises_flag_witness :
  let E := Examples.env_with (Examples.only_fails OpUserQuery) false in
  exists w3,
    update_report_status E "r1" "PENDING" Examples.with_draft = (Ret true, w3)
    /\ report_inv "r1" (fun r' => Report.approval_notification_sent r' = true) w3
    /\ forall status' res w4,
         update_report_status E "r1" status' w3 = (res, w4) ->
         (OpUserQuery ∉ drop (tick w3) (journal w4))
         /\ notifications (session w4) = notifications (session w3)
         /\ notifications (committed w4) = notifications (committed w3)
         /\ outbox w4 = outbox w3.
Proof.
  cbv zeta.
  apply (failed_dispatch_still_raises_flag
           (Examples.env_with (Examples.only_fails OpUserQuery) false)
           Examples.with_draft "r1" Examples.draft_report
           (create_approval_notification
              (Examples.env_with (Examples.only_fails OpUserQuery) false) "r1"
              (after_status_commit
                 (Examples.env_with (Examples.only_fails OpUserQuery) false)
                 "r1" "PENDING" Examples.with_draft)).2).
  - vm_compute. reflexivity.
  - reflexivity.
  - reflexivity.
  - reflexivity.
  - vm_compute. reflexivity.
  - vm_compute. reflexivity.
Defined.

(** ** The claims about the pending-approval count *)

(** [_is_at_stage] neither raises nor touches the state. *)
Lemma is_at_stage_pure {St} E r stage (s : St) :
  _is_at_stage E r stage s = (Ret (at_stage_value E r stage), s).
Proof.
  unfold at_stage_value, _is_at_stage.
  destruct (Report.approvals_json r) as [[|c j]|]; [reflexivity | | reflexivity].
  rewrite !run_try_except, !run_bind. unfold json_loads_py.
  destruct (json_loads E (String c j)) as [v|]; [| reflexivity].
  rewrite !run_ret. cbv beta iota. rewrite !run_bind.
  destruct v; reflexivity.
Qed.

Lemma is_at_stage_unreadable E r stage :
  approvals_unreadable E r -> at_stage_value E r stage = false.
Proof.
  unfold approvals_unreadable, at_stage_value, _is_at_stage.
  destruct (Report.approvals_json r) as [[|c j]|]; [reflexivity | | reflexivity].
  intros Hbad. rewrite run_try_except, run_bind. unfold json_loads_py. rewrite Hbad.
  reflexivity.
Qed.

Lemma sum_1_if_at_stage {St} E stage (l : list Report.t) (s : St) :
  sum_1_if (fun r => _is_at_stage E r stage) l s
  = (Ret (length (filter (fun r => at_stage_value E r stage = true) l)), s).
Proof.
  induction l as [|r l IH]; [reflexivity |].
  cbn [sum_1_if]. rewrite run_bind, is_at_stage_pure. cbv beta iota.
  rewrite run_bind, IH. cbv beta iota. rewrite run_ret.
  rewrite filter_cons. destruct (at_stage_value E r stage); reflexivity.
Qed.

Lemma run_Report_query_filter_by_status E st w :
  Report_query_filter_by_status E st w
  = if fails E (tick w) OpReportQuery
    then (Raise (Fault OpReportQuery), record_call OpReportQuery w)
    else (Ret (filter (fun r => Report.status r = st) (map_to_list (reports (session w))).*2),
          record_call OpReportQuery w).
Proof.
  unfold Report_query_filter_by_status. rewrite run_bind, run_call.
  destruct (fails E (tick w) OpReportQuery); reflexivity.
Qed.

(** The count of the pending reports at [stage]: what the two counting
    branches of [get_pending_approvals] compute. *)
Lemma count_at_stage_run E stage w :
  (reports ← Report_query_filter_by_status E "PENDING";
   sum_1_if (fun r => _is_at_stage E r stage) reports) w
  = if fails E (tick w) OpReportQuery
    then (Raise (Fault OpReportQuery), record_call OpReportQuery w)
    else (Ret (length (filter (fun r => at_stage_value E r stage = true)
                         (filter (fun r => Report.status r = "PENDING")
                            (map_to_list (reports (session w))).*2))),
          record_call OpReportQuery w).
Proof.
  rewrite run_bind, run_Report_query_filter_by_status.
  destruct (fails E (tick w) OpReportQuery); [reflexivity |].
  cbv beta iota. apply sum_1_if_at_stage.
Qed.

Lemma get_pending_approvals_returns E role w :
  exists n w', get_pending_approvals E role w = (Ret n, w').
Proof.
  unfold get_pending_approvals. rewrite run_try_except.
  destruct (bool_decide (role ∈ ["TM"; "Technical Manager"])).
  - rewrite count_at_stage_run. destruct (fails E (tick w) OpReportQuery); mrun; eauto.
  - destruct (bool_decide (role ∈ ["PM"; "Project Manager"])).
    + rewrite count_at_stage_run. destruct (fails E (tick w) OpReportQuery); mrun; eauto.
    + mrun. eauto.
Qed.

Lemma count_without_unreadable E stage (m : gmap string Report.t) report_id r :
  m !! report_id = Some r ->
  approvals_unreadable E r ->
  length (filter (fun r => at_stage_value E r stage = true)
            (filter (fun r => Report.status r = "PENDING") (map_to_list m).*2))
  = length (filter (fun r => at_stage_value E r stage = true)
              (filter (fun r => Report.status r = "PENDING")
                 (map_to_list (delete report_id m)).*2)).
Proof.
  intros Hr Hbad.
  rewrite <- (map_to_list_delete m report_id r Hr).
  rewrite fmap_cons. cbn [snd].
  rewrite filter_cons.
  destruct (decide (Report.status r = "PENDING")) as [Hp|Hp]; [| reflexivity].
  rewrite filter_cons, (is_at_stage_unreadable E r stage Hbad).
  rewrite decide_False by discriminate. reflexivity.
Qed.

(** C7: a report whose approval state is absent or is not JSON counts
    for no role.  For such a report in the session: [_is_at_stage] returns
    [False], without raising and without touching anything, at every
    stage; [get_pending_approvals] returns a count for every role string,
    it never raises; and for every role that count is the one it returns
    when the report is not there at all. *)
Theorem unreadable_approvals_count_for_no_role E w report_id r :
  reports (session w) !! report_id = Some r ->
  approvals_unreadable E r ->
  (forall stage, _is_at_stage E r stage w = (Ret false, w))
  /\ (forall role, exists n w', get_pending_approvals E role w = (Ret n, w'))
  /\ (forall role,
        (get_pending_approvals E role w).1
        = (get_pending_approvals E role (without_report report_id w)).1).
Proof.
  intros Hr Hbad. split; [| split].
  - intros stage. rewrite is_at_stage_pure, (is_at_stage_unreadable E r stage Hbad).
    reflexivity.
  - intros role. apply get_pending_approvals_returns.
  - intros role. unfold get_pending_approvals. rewrite !run_try_except.
    replace (tick (without_report report_id w)) with (tick w) by reflexivity.
    destruct (bool_decide (role ∈ ["TM"; "Technical Manager"])).
    + rewrite !count_at_stage_run.
      replace (tick (without_report report_id w)) with (tick w) by reflexivity.
      destruct (fails E (tick w) OpReportQuery); [reflexivity |].
      cbn [fst]. f_equal. apply (count_without_unreadable E 1 _ report_id r Hr Hbad).
    + destruct (bool_decide (role ∈ ["PM"; "Project Manager"])); [| reflexivity].
      rewrite !count_at_stage_run.
      replace (tick (without_report report_id w)) with (tick w) by reflexivity.
      destruct (fails E (tick w) OpReportQuery); [reflexivity |].
      cbn [fst]. f_equal. apply (count_without_unreadable E 2 _ report_id r Hr Hbad).
Qed.

Lemma unreadable_approvals_count_for_no_role_witness :
  (forall stage, _is_at_stage Examples.calm Examples.garbled_report stage Examples.with_garbled
                 = (Ret false, Examples.with_garbled))
  /\ (forall role, exists n w',
        get_pending_approvals Examples.calm role Examples.with_garbled = (Ret n, w'))
  /\ (forall role,
        (get_pending_approvals Examples.calm role Examples.with_garbled).1
        = (get_pending_approvals Examples.calm role
             (without_report "r2" Examples.with_garbled)).1).
Proof.
  apply (unreadable_approvals_count_for_no_role Examples.calm Examples.with_garbled "r2"
           Examples.garbled_report).
  - vm_compute. reflexivity.
  - vm_compute. reflexivity.
Defined.

(** ** The claim about [mark_as_read] *)

Lemma run_Notification_query_first E i e w :
  Notification_query_first E i e w
  = if fails E (tick w) OpNotificationQuery
    then (Raise (Fault OpNotificationQuery), record_call OpNotificationQuery w)
    else (Ret (fst <$> list_find (fun n => Notification.id n = i
                                           /\ Notification.user_email n = e)
                         (notifications (session w))),
          record_call OpNotificationQuery w).
Proof.
  unfold Notification_query_first. rewrite run_bind, run_call.
  destruct (fails E (tick w) OpNotificationQuery); reflexivity.
Qed.

(** C9: [mark_as_read] marks a notification only for its recipient.
    The call never raises.  It returns [True] only when the session holds
    a notification with that key and that recipient; the first such one is
    then read, with [read_at] stamped, every other notification is as it
    was, and this is committed.  When it returns [False] nothing was
    committed; and it does return [False], with the records unchanged,
    whenever no notification has both that key and that recipient. *)
Theorem mark_as_read_only_for_recipient E w notification_id user_email res w' :
  mark_as_read E notification_id user_email w = (res, w') ->
  (exists b, res = Ret b)
  /\ (res = Ret true ->
      exists k n,
        notifications (session w) !! k = Some n
        /\ Notification.id n = notification_id
        /\ Notification.user_email n = user_email
        /\ notifications (session w') !! k
           = Some (Notification.set_read_at (clock E (S (tick w)))
                     (Notification.set_read true n))
        /\ (forall j, j <> k ->
              notifications (session w') !! j = notifications (session w) !! j)
        /\ committed w' = session w')
  /\ (res = Ret false -> committed w' = committed w)
  /\ ((forall n, n ∈ notifications (session w) ->
         ~ (Notification.id n = notification_id /\ Notification.user_email n = user_email)) ->
      res = Ret false
      /\ committed w' = committed w
      /\ (session w' = session w \/ session w' = committed w)).
Proof.
  unfold mark_as_read. rewrite run_try_except, run_bind, run_Notification_query_first.
  destruct (fails E (tick w) OpNotificationQuery) eqn:Hq.
  { mrun. intros [= <- <-]. wsimpl.
    repeat split; eauto; try discriminate. }
  cbv beta iota.
  destruct (list_find _ (notifications (session w))) as [[k n]|] eqn:Hfind.
  - apply list_find_Some in Hfind as (Hk & [Hid Hmail] & _).
    cbn [fmap option_fmap option_map fst].
    mrun. rewrite run_commit. wsimpl.
    destruct (fails E (S (S (length (journal w)))) OpCommit) eqn:Hc.
    + mrun. intros [= <- <-]. wsimpl. repeat split; eauto; try discriminate.
    + mrun. intros [= <- <-]. wsimpl. split; [eauto |]. split; [| split].
      * intros _. exists k, n. repeat split; auto.
        -- rewrite !list_lookup_alter_eq, Hk. reflexivity.
        -- intros j Hj. rewrite !list_lookup_alter_ne by congruence. reflexivity.
      * discriminate.
      * intros Hnone. exfalso. apply (Hnone n); [| auto].
        apply list_elem_of_lookup. eauto.
  - cbn [fmap option_fmap option_map]. mrun. intros [= <- <-]. wsimpl.
    repeat split; eauto; try discriminate.
Qed.

Lemma mark_as_read_only_for_recipient_witness :
  let stranger := mark_as_read Examples.calm 1 "avery@x" Examples.with_note in
  let owner := mark_as_read Examples.calm 1 "tara@x" Examples.with_note in
  (stranger.1 = Ret false /\ committed stranger.2 = committed Examples.with_note)
  /\ owner.1 = Ret true.
Proof.
  cbv zeta. split.
  - destruct (mark_as_read_only_for_recipient Examples.calm Examples.with_note 1 "avery@x"
                (mark_as_read Examples.calm 1 "avery@x" Examples.with_note).1
                (mark_as_read Examples.calm 1 "avery@x" Examples.with_note).2)
      as (_ & _ & _ & Hnone).
    + vm_compute. reflexivity.
    + destruct Hnone as (Hres & Hsame & _); [| split; assumption].
      intros n Hn [Hid Hmail].
      apply list_elem_of_In in Hn. simpl in Hn. destruct Hn as [<- | []]. discriminate.
  - vm_compute. reflexivity.
Defined.

(** ** The claim about the bulk-notification job *)

Lemma run_in_world {L A} (m : M world A) (w : world) (l : L) :
  in_world m (w, l) = let '(r, w') := m w in (r, (w', l)).
Proof. reflexivity. Qed.

Lemma run_set_locals {L} (f : L -> L) (w : world) (l : L) :
  set_locals f (w, l) = (Ret tt, (w, f l)).
Proof. reflexivity. Qed.

Section BulkJob.
Variable E : env.
Variable b : string.
Hypothesis Hfaults : forall t p, fails E t p = true <-> p = OpNewNotification b.
Variables title message notification_type : string.

Lemma call_succeeds p w :
  p <> OpNewNotification b -> call E p w = (Ret tt, record_call p w).
Proof.
  intros Hp. rewrite run_call.
  destruct (fails E (tick w) p) eqn:Hf; [| reflexivity].
  apply Hfaults in Hf. contradiction.
Qed.

Lemma call_constructor_fails w :
  call E (OpNewNotification b) w
  = (Raise (Fault (OpNewNotification b)), record_call (OpNewNotification b) w).
Proof.
  rewrite run_call.
  replace (fails E (tick w) (OpNewNotification b)) with true; [reflexivity |].
  symmetry. apply Hfaults. reflexivity.
Qed.

(** The loop on any list of recipients: the ones equal to [b] are
    tallied as failed and logged, the others get a notification in the
    session, in order. *)
Lemma bulk_loop_run total emails :
  forall i w l,
  exists w',
    bulk_loop E title message notification_type total i emails (w, l)
    = (Ret tt,
       (w', mkBulkLocals
              (sent_count l + length (filter (fun e => e <> b) emails))
              (failed_count l + length (filter (fun e => e = b) emails))))
    /\ committed w' = committed w
    /\ session w'
       = with_notifications
           (notifications (session w)
            ++ new_notifications (next_notification_id w) title message notification_type
                 (filter (fun e => e <> b) emails))
           (session w)
    /\ next_notification_id w'
       = next_notification_id w + Z.of_nat (length (filter (fun e => e <> b) emails))
    /\ log w' = (log w ++ bulk_failures (filter (fun e => e = b) emails))%list.
Proof.
  induction emails as [|email rest IH]; intros i w l.
  - exists w. cbn [bulk_loop filter list_filter length new_notifications bulk_failures fmap list_fmap].
    rewrite run_ret, !Nat.add_0_r, Z.add_0_r, !app_nil_r.
    destruct l, w as [c s j k lg o ts], s. repeat split; reflexivity.
  - cbn [bulk_loop]. rewrite run_bind, run_try_except, run_bind, run_in_world.
    destruct (decide (email = b)) as [-> | Hne].
    + rewrite call_constructor_fails. cbv beta iota zeta.
      rewrite run_bind, run_in_world, run_logger_error. cbv beta iota zeta.
      rewrite run_set_locals. cbv beta iota.
      destruct (IH (S i)
                  (with_log (log (record_call (OpNewNotification b) w)
                             ++ [LogError ("Failed to create notification for " +:+ b)
                                   (Fault (OpNewNotification b))])
                     (record_call (OpNewNotification b) w))
                  (mkBulkLocals (sent_count l) (failed_count l + 1)))
        as (w' & Hrun & Hc & Hs & Hk & Hl).
      exists w'. rewrite Hrun, Hc, Hs, Hk, Hl.
      rewrite !filter_cons, decide_False by (intros H; apply H; reflexivity).
      rewrite decide_True by reflexivity.
      cbn [length bulk_failures fmap list_fmap sent_count failed_count]. wsimpl.
      rewrite <- app_assoc. cbn [app].
      repeat split; try reflexivity. do 3 f_equal. lia.
    + rewrite call_succeeds by congruence. cbv beta iota zeta.
      rewrite run_bind, run_in_world.
      unfold db_session_add_notification.
      rewrite run_bind, call_succeeds by discriminate. cbv beta iota zeta.
      mrun. rewrite run_set_locals. cbv beta iota.
      rewrite run_in_world. unfold update_state.
      rewrite run_bind, call_succeeds by discriminate. mrun.
      match goal with
      | |- context [bulk_loop _ _ _ _ _ _ _ (?w1, ?l1)] =>
          destruct (IH (S i) w1 l1) as (w' & Hrun & Hc & Hs & Hk & Hl)
      end.
      exists w'. rewrite Hrun, Hc, Hs, Hk, Hl.
      rewrite !filter_cons, decide_True by exact Hne.
      rewrite decide_False by exact Hne.
      cbn [length new_notifications sent_count failed_count]. wsimpl.
      rewrite <- app_assoc. cbn [app]. unfold Notification.set_id. cbn.
      repeat split; try reflexivity; [do 3 f_equal; lia | lia].
Qed.

End BulkJob.

Lemma filter_others_absent (b : string) (l : list string) :
  b ∉ l -> filter (fun e => e <> b) l = l /\ filter (fun e => e = b) l = [].
Proof.
  induction l as [|x l IH]; [split; reflexivity |].
  intros Hb. apply not_elem_of_cons in Hb as [Hx Hl].
  destruct (IH Hl) as [IH1 IH2].
  rewrite !filter_cons, decide_True, decide_False by congruence.
  rewrite IH1, IH2. split; reflexivity.
Qed.

Lemma filter_one_failure (b : string) (before after : list string) :
  b ∉ before -> b ∉ after ->
  filter (fun e => e <> b) (before ++ b :: after)%list = (before ++ after)%list
  /\ filter (fun e => e = b) (before ++ b :: after)%list = [b].
Proof.
  intros Hb Ha.
  destruct (filter_others_absent b before Hb) as [Hb1 Hb2].
  destruct (filter_others_absent b after Ha) as [Ha1 Ha2].
  rewrite !filter_app, !filter_cons, Hb1, Hb2, Ha1, Ha2.
  rewrite decide_False by (intros H; apply H; reflexivity).
  rewrite decide_True by reflexivity. split; reflexivity.
Qed.

(** C8: one recipient fails, the batch goes on.  For a list of
    recipients in which [b] occurs once, when constructing the record for
    [b] raises and no other call does: the job ends with the success
    result, sent = the number of other recipients, failed = 1, total = the
    length of the list; the failure is logged once; and the committed
    notifications are the earlier ones followed by one new notification
    for each other recipient, in the order of the list. *)
Theorem bulk_notification_one_failure E w before b after title message notification_type :
  b ∉ before ->
  b ∉ after ->
  (forall t p, fails E t p = true <-> p = OpNewNotification b) ->
  exists timestamp w',
    bulk_notification_async E (before ++ b :: after)%list title message notification_type w
    = (Ret (BulkSuccess (length before + length after) 1
              (length (before ++ b :: after)%list) timestamp), w')
    /\ notifications (committed w')
       = (notifications (session w)
          ++ new_notifications (next_notification_id w) title message notification_type
               (before ++ after)%list)%list
    /\ log w'
       = (log w ++ [LogError ("Failed to create notification for " +:+ b)
                      (Fault (OpNewNotification b))])%list.
Proof.
  intros Hb Ha Hfaults.
  destruct (filter_one_failure b before after Hb Ha) as [Hsent Hfailed].
  unfold bulk_notification_async.
  rewrite run_try_except, run_bind. unfold update_state at 1.
  rewrite run_bind, (call_succeeds E b Hfaults) by discriminate. mrun.
  rewrite (call_succeeds E b Hfaults) by discriminate. mrun.
  unfold with_locals. rewrite run_bind.
  match goal with
  | |- context [bulk_loop E ?t ?m ?k ?n ?i ?l (?w1, ?l1)] =>
      destruct (bulk_loop_run E b Hfaults t m k n l i w1 l1) as (w2 & Hrun & Hc & Hs & Hk & Hl)
  end.
  rewrite Hrun. cbv beta iota. rewrite run_in_world, run_commit.
  replace (fails E (tick w2) OpCommit) with false
    by (symmetry; destruct (fails E (tick w2) OpCommit) eqn:Hf; [| reflexivity];
        apply Hfaults in Hf; discriminate).
  mrun.
  rewrite Hsent, Hfailed, length_app in *. cbn [length sent_count failed_count] in *.
  do 2 eexists. split; [reflexivity |].
  wsimpl. rewrite Hs, Hl. wsimpl. split; reflexivity.
Qed.

Lemma bulk_notification_one_failure_witness :
  let E := Examples.env_with (Examples.only_fails (OpNewNotification "b@x")) false in
  exists timestamp w',
    bulk_notification_async E ["a@x"; "b@x"; "c@x"] "Notice" "Plant shutdown" "info"
      Examples.empty_world
    = (Ret (BulkSuccess 2 1 3 timestamp), w')
    /\ notifications (committed w')
       = [ Notification.mk 1 "a@x" "Notice" "Plant shutdown" "info" false None;
           Notification.mk 2 "c@x" "Notice" "Plant shutdown" "info" false None ]
    /\ log w'
       = [LogError "Failed to create notification for b@x" (Fault (OpNewNotification "b@x"))].
Proof.
  cbv zeta.
  apply (bulk_notification_one_failure
           (Examples.env_with (Examples.only_fails (OpNewNotification "b@x")) false)
           Examples.empty_world ["a@x"] "b@x" ["c@x"] "Notice" "Plant shutdown" "info").
  - intros H. apply list_elem_of_In in H. simpl in H. intuition discriminate.
  - intros H. apply list_elem_of_In in H. simpl in H. intuition discriminate.
  - intros t p. unfold Examples.env_with, Examples.only_fails. simpl.
    apply bool_decide_eq_true.
Defined.

(** ** The claim about [create_report] *)

Lemma call_no_faults E p w :
  (forall t q, fails E t q = false) -> call E p w = (Ret tt, record_call p w).
Proof. intros H. rewrite run_call, H. reflexivity. Qed.

Ltac create_report_step E :=
  match goal with
  | |- context [call E ?p ?w0] =>
      rewrite (run_call E p w0); destruct (fails E (tick w0) p)
  | |- context [db_session_commit E ?w0] =>
      rewrite (run_commit E w0); destruct (fails E (tick w0) OpCommit)
  end; mrun.

(** What [create_report] can raise, and how it leaves the database: the
    exception is a collaborator's (a constructor, [session.add] or the
    commit, or the JSON encoder refusing the field set of a SAT report);
    it is raised again after the rollback, the last call made, with the
    error logged. *)
Lemma create_report_raises E w data user_email e w' :
  create_report E data user_email w = (Raise e, w') ->
  ((exists p, e = Fault p /\ p ∈ [OpNewReport; OpNewSATReport; OpSessionAdd; OpCommit])
   \/ (e = TypeError
       /\ py_eq_str (dict_get_default data "type" (PyStr "SAT")) "SAT" = true
       /\ json_dumps (float_repr E) (PyDict data) = None))
  /\ session w' = committed w
  /\ committed w' = committed w
  /\ last (journal w') = Some OpRollback
  /\ log w' = (log w ++ [LogError "Error creating report" e])%list.
Proof.
  assert (Hin : forall p, p ∈ [OpNewReport; OpNewSATReport; OpSessionAdd; OpCommit] ->
                  (exists q, Fault p = Fault q
                             /\ q ∈ [OpNewReport; OpNewSATReport; OpSessionAdd; OpCommit])
                  \/ (Fault p = TypeError
                      /\ py_eq_str (dict_get_default data "type" (PyStr "SAT")) "SAT" = true
                      /\ json_dumps (float_repr E) (PyDict data) = None)).
  { intros p Hp. left. exists p. split; [reflexivity | exact Hp]. }
  unfold create_report, new_uuid4, db_session_add_sat_report, db_session_add_report,
    json_dumps_py.
  rewrite run_try_except, run_bind. cbv beta iota. rewrite run_bind.
  create_report_step E.
  { intros [= <- <-]. wsimpl. rewrite last_snoc.
    repeat split; try reflexivity. apply Hin. rewrite !elem_of_cons. tauto. }
  cbn [Report.type].
  destruct (py_eq_str (dict_get_default data "type" (PyStr "SAT")) "SAT") eqn:Hsat.
  - destruct (json_dumps (float_repr E) (PyDict data)) as [j|] eqn:Hj.
    2: { mrun. intros [= <- <-]. wsimpl. rewrite last_snoc.
         repeat split; try reflexivity. right. repeat split. }
    mrun. create_report_step E.
    { intros [= <- <-]. wsimpl. rewrite last_snoc.
      repeat split; try reflexivity. apply Hin. rewrite !elem_of_cons. tauto. }
    create_report_step E.
    { intros [= <- <-]. wsimpl. rewrite last_snoc.
      repeat split; try reflexivity. apply Hin. rewrite !elem_of_cons. tauto. }
    create_report_step E.
    { intros [= <- <-]. wsimpl. rewrite last_snoc.
      repeat split; try reflexivity. apply Hin. rewrite !elem_of_cons. tauto. }
    create_report_step E.
    { intros [= <- <-]. wsimpl. rewrite last_snoc.
      repeat split; try reflexivity. apply Hin. rewrite !elem_of_cons. tauto. }
    discriminate.
  - mrun. create_report_step E.
    { intros [= <- <-]. wsimpl. rewrite last_snoc.
      repeat split; try reflexivity. apply Hin. rewrite !elem_of_cons. tauto. }
    create_report_step E.
    { intros [= <- <-]. wsimpl. rewrite last_snoc.
      repeat split; try reflexivity. apply Hin. rewrite !elem_of_cons. tauto. }
    discriminate.
Qed.

(** The run of [create_report] in which nothing fails. *)
Lemma create_report_returns E w data user_email :
  assoc_get "document_title" data = None ->
  (forall t p, fails E t p = false) ->
  (py_eq_str (dict_get_default data "type" (PyStr "SAT")) "SAT" = true ->
   is_Some (json_dumps (float_repr E) (PyDict data))) ->
  exists report w',
    create_report E data user_email w = (Ret report, w')
    /\ Report.status report = "DRAFT"
    /\ Report.document_title report = PyNone
    /\ reports (committed w') !! Report.id report = Some report.
Proof.
  intros Htitle Hcalm Hjson.
  unfold create_report. rewrite run_try_except, run_bind.
  unfold new_uuid4. cbv beta iota.
  rewrite run_bind, (call_no_faults E _ _ Hcalm). cbv beta iota zeta.
  rewrite run_bind. cbn [Report.type].
  destruct (py_eq_str (dict_get_default data "type" (PyStr "SAT")) "SAT") eqn:Hsat.
  - destruct (Hjson eq_refl) as [j Hj].
    unfold json_dumps_py. rewrite Hj. mrun.
    rewrite (call_no_faults E _ _ Hcalm). mrun.
    unfold db_session_add_sat_report, db_session_add_report.
    rewrite run_bind, (call_no_faults E _ _ Hcalm). mrun.
    rewrite (call_no_faults E _ _ Hcalm). mrun.
    rewrite run_commit, Hcalm. mrun.
    do 2 eexists. split; [reflexivity |].
    cbn [Report.status Report.document_title Report.id]. wsimpl.
    unfold dict_get. rewrite Htitle, lookup_insert_eq. auto.
  - mrun. unfold db_session_add_report.
    rewrite run_bind, (call_no_faults E _ _ Hcalm). mrun.
    rewrite run_commit, Hcalm. mrun.
    do 2 eexists. split; [reflexivity |].
    cbn [Report.status Report.document_title Report.id]. wsimpl.
    unfold dict_get. rewrite Htitle, lookup_insert_eq. auto.
Qed.

(** C4, as the code has it: [create_report] checks no field.  For a
    field set without [document_title]: when no collaborator call fails
    and, for a SAT report, the field set can be encoded as JSON, the call
    returns a DRAFT report whose [document_title] is [None], and that
    record is committed under its key.  And whenever the call raises, it
    raises what a collaborator raised (a constructor, [session.add] or
    the commit failing, or the JSON encoder refusing the field set of a
    SAT report), after rolling back: the rollback is the last call made,
    the session is back at the committed database, which is the one
    before the call, and the error is logged. *)
Theorem create_report_accepts_missing_title E w data user_email :
  assoc_get "document_title" data = None ->
  ((forall t p, fails E t p = false) ->
   (py_eq_str (dict_get_default data "type" (PyStr "SAT")) "SAT" = true ->
    is_Some (json_dumps (float_repr E) (PyDict data))) ->
   exists report w',
     create_report E data user_email w = (Ret report, w')
     /\ Report.status report = "DRAFT"
     /\ Report.document_title report = PyNone
     /\ reports (committed w') !! Report.id report = Some report)
  /\ (forall e w',
        create_report E data user_email w = (Raise e, w') ->
        ((exists p, e = Fault p
                    /\ p ∈ [OpNewReport; OpNewSATReport; OpSessionAdd; OpCommit])
         \/ (e = TypeError
             /\ py_eq_str (dict_get_default data "type" (PyStr "SAT")) "SAT" = true
             /\ json_dumps (float_repr E) (PyDict data) = None))
        /\ session w' = committed w
        /\ committed w' = committed w
        /\ last (journal w') = Some OpRollback
        /\ log w' = (log w ++ [LogError "Error creating report" e])%list).
Proof.
  intros Htitle. split.
  - intros Hcalm Hjson. exact (create_report_returns E w data user_email Htitle Hcalm Hjson).
  - intros e w'. apply create_report_raises.
Qed.

Lemma create_report_accepts_missing_title_witness :
  (exists report w',
     create_report Examples.calm [("client_name", PyStr "Acme")] "erin@x" Examples.empty_world
     = (Ret report, w')
     /\ Report.status report = "DRAFT"
     /\ Report.document_title report = PyNone
     /\ reports (committed w') !! Report.id report = Some report)
  /\ (let run := create_report (Examples.env_with (Examples.only_fails OpCommit) false)
                   [("client_name", PyStr "Acme")] "erin@x" Examples.with_note in
      run.1 = Raise (Fault OpCommit)
      /\ session run.2 = committed Examples.with_note
      /\ committed run.2 = committed Examples.with_note
      /\ last (journal run.2) = Some OpRollback).
Proof.
  split.
  - destruct (create_report_accepts_missing_title Examples.calm Examples.empty_world
                [("client_name", PyStr "Acme")] "erin@x" eq_refl) as [Hok _].
    apply Hok.
    + intros t p. reflexivity.
    + intros _. vm_compute. eauto.
  - cbv zeta. split; [vm_compute; reflexivity |].
    destruct (create_report_accepts_missing_title
                (Examples.env_with (Examples.only_fails OpCommit) false)
                Examples.with_note [("client_name", PyStr "Acme")] "erin@x" eq_refl)
      as [_ Hraise].
    destruct (Hraise (Fault OpCommit)
                (create_report (Examples.env_with (Examples.only_fails OpCommit) false)
                   [("client_name", PyStr "Acme")] "erin@x" Examples.with_note).2)
      as (_ & Hs & Hc & Hj & _).
    + vm_compute. reflexivity.
    + repeat split; assumption.
Defined.

(** C4, as stated, fails: with no field at all, hence no
    [document_title], and no collaborator failing, [create_report] raises
    nothing; it returns a report and the record is committed. *)
Lemma create_report_without_fields_succeeds :
  let run := create_report Examples.calm [] "erin@x" Examples.empty_world in
  assoc_get "document_title" [] = None
  /\ exists report,
       run.1 = Ret report
       /\ Report.document_title report = PyNone
       /\ reports (committed run.2) !! Report.id report = Some report.
Proof.
  cbv zeta. split; [reflexivity |].
  eexists. split; [vm_compute; reflexivity |].
  split; [reflexivity | vm_compute; reflexivity].
Qed.

(** ** The claim about the role synonyms *)

(** For the role string "Automation Manager" the count is 0 in every
    world: no report is even looked at. *)
Lemma get_pending_approvals_automation_manager E w :
  get_pending_approvals E "Automation Manager" w = (Ret 0%nat, w).
Proof. reflexivity. Qed.

(** C1: "Automation Manager" is a technical-manager role for
    [get_users_by_role] only.  In the sample world, with an active
    Automation Manager and one report pending at stage 1 and no
    collaborator failing: [get_users_by_role] lists that user under TM;
    [get_pending_approvals] counts the report for the role TM but returns
    0 for the role "Automation Manager" (as it does in every world); and
    [create_approval_notification] succeeds having notified nobody. *)
Theorem automation_manager_synonym_not_shared :
  let w := Examples.with_pending in
  let dispatched := create_approval_notification Examples.calm "r1" w in
  (exists groups,
     (get_users_by_role Examples.calm w).1 = Ret groups
     /\ groups !! "TM" = Some [mkUserData "Avery Moss" "avery@x"])
  /\ (get_pending_approvals Examples.calm "TM" w).1 = Ret 1%nat
  /\ (get_pending_approvals Examples.calm "Automation Manager" w).1 = Ret 0%nat
  /\ (forall E w', get_pending_approvals E "Automation Manager" w' = (Ret 0%nat, w'))
  /\ dispatched.1 = Ret true
  /\ notifications (session dispatched.2) = []
  /\ outbox dispatched.2 = [].
Proof.
  cbv zeta. split; [| split; [| split; [| split; [| split; [| split]]]]].
  - eexists. split; vm_compute; reflexivity.
  - vm_compute. reflexivity.
  - reflexivity.
  - intros E w'. apply get_pending_approvals_automation_manager.
  - vm_compute. reflexivity.
  - vm_compute. reflexivity.
  - vm_compute. reflexivity.
Qed.

(** ** The model at work *)

(** The sample decoder reads the template text back as the template. *)
Example template_text_decodes :
  JsonFragment.loads approvals_template_json = Some approvals_template.
Proof. vm_compute. reflexivity. Qed.

(** The sample decoder refuses floats, leading zeros, trailing commas and
    plain words. *)
Example fragment_refuses :
  JsonFragment.loads "1.5" = None
  /\ JsonFragment.loads "01" = None
  /\ JsonFragment.loads "[1,]" = None
  /\ JsonFragment.loads "not json" = None
  /\ JsonFragment.loads "" = None.
Proof. vm_compute. repeat split. Qed.

(** [1.0 == 1] and [True == 1] hold in Python, [0.5 == 1] does not. *)
Example stage_numbers_compare_by_value :
  py_eq_int (PyFloat (S754_finite false 1 0)) 1 = true
  /\ py_eq_int (PyFloat (S754_finite false 4 (-2))) 1 = true
  /\ py_eq_int (PyBool true) 1 = true
  /\ py_eq_int (PyFloat (S754_finite false 1 (-1))) 1 = false
  /\ py_eq_int (PyStr "1") 1 = false.
Proof. vm_compute. repeat split. Qed.

(** A draft submitted with nothing failing: the technical manager is
    notified once, the report counts at stage 1 and not at stage 2. *)
Example submission_reaches_stage_1 :
  let submitted := update_report_status Examples.calm "r1" "PENDING" Examples.with_draft in
  submitted.1 = Ret true
  /\ Notification.user_email <$> notifications (committed submitted.2) = ["tara@x"]
  /\ (get_pending_approvals Examples.calm "Technical Manager" submitted.2).1 = Ret 1%nat
  /\ (get_pending_approvals Examples.calm "PM" submitted.2).1 = Ret 0%nat.
Proof. vm_compute. repeat split. Qed.

(** With the e-mail flag on, the same submission also hands one e-mail to
    the mailer. *)
Example submission_sends_email :
  let E := Examples.env_with Examples.no_faults true in
  recipient <$> outbox (update_report_status E "r1" "PENDING" Examples.with_draft).2
  = ["tara@x"].
Proof. vm_compute. reflexivity. Qed.

(** A progress report that raises after the record was added counts the
    recipient as sent and as failed. *)
Example progress_failure_counts_twice :
  let E := Examples.env_with
             (fun t p => bool_decide (p = OpUpdateState) && Nat.ltb 0 t) false in
  exists timestamp,
    (bulk_notification_async E ["a@x"] "Notice" "Plant shutdown" "info"
       Examples.empty_world).1
    = Ret (BulkSuccess 1 1 1 timestamp).
Proof. eexists. vm_compute. reflexivity. Qed.

(** * Further properties of the service layer *)

(** ** [update_report_status]: errors and what is left untouched *)

(** The run on a key the session does not hold. *)
Lemma update_report_status_not_found E w report_id status :
  reports (session w) !! report_id = None ->
  fails E (tick w) OpReportGet = false ->
  update_report_status E report_id status w
  = (Raise (NotFound "Report not found"),
     with_log (log w ++ [LogError "Error updating report status"
                           (NotFound "Report not found")])
       (record_call OpRollback
          (with_session (committed w) (record_call OpReportGet w)))).
Proof.
  intros Hnone Hget. unfold update_report_status.
  rewrite (run_try_except _ _ w), run_bind, run_Report_query_get, Hget, Hnone.
  mrun. reflexivity.
Qed.

(** X1: an unknown report.  When the session holds no report under the
    given key and the fetch itself does not fail, the call raises
    [NotFound], after rolling the session back and logging the error;
    nothing is committed. *)
Theorem update_report_status_unknown_report E w report_id status :
  reports (session w) !! report_id = None ->
  fails E (tick w) OpReportGet = false ->
  exists w',
    update_report_status E report_id status w = (Raise (NotFound "Report not found"), w')
    /\ committed w' = committed w
    /\ session w' = committed w
    /\ log w' = (log w ++ [LogError "Error updating report status"
                             (NotFound "Report not found")])%list.
Proof.
  intros Hnone Hget. eexists.
  split; [apply (update_report_status_not_found E w report_id status Hnone Hget) |].
  wsimpl. auto.
Qed.

Lemma update_report_status_unknown_report_witness :
  exists w',
    update_report_status Examples.calm "r9" "PENDING" Examples.with_draft
    = (Raise (NotFound "Report not found"), w')
    /\ committed w' = committed Examples.with_draft
    /\ session w' = committed Examples.with_draft
    /\ log w' = [LogError "Error updating report status" (NotFound "Report not found")].
Proof.
  apply (update_report_status_unknown_report Examples.calm Examples.with_draft "r9" "PENDING").
  - vm_compute. reflexivity.
  - reflexivity.
Defined.

(** X2: a call that raises leaves nothing pending.  Whatever fails and
    wherever: when [update_report_status] raises, the session has been
    rolled back to the committed database, and that database is either
    exactly the one before the call or already holds the report with the
    requested status (the raise came after the first commit). *)
Theorem update_report_status_raise_rolls_back E w report_id status e w' :
  update_report_status E report_id status w = (Raise e, w') ->
  session w' = committed w'
  /\ (committed w' = committed w
      \/ report_has report_id (fun r' => Report.status r' = status) (committed w')).
Proof.
  intros Hrun.
  destruct (fails E (tick w) OpReportGet) eqn:Hget.
  { rewrite (update_report_status_get_fails E w report_id status Hget) in Hrun.
    injection Hrun as _ <-. wsimpl. auto. }
  destruct (reports (session w) !! report_id) as [r|] eqn:Hfound.
  2: { rewrite (update_report_status_not_found E w report_id status Hfound Hget) in Hrun.
       injection Hrun as _ <-. wsimpl. auto. }
  destruct (fails E (S (S (tick w))) OpCommit) eqn:Hcommit.
  { destruct (update_report_status_commit_fails E w report_id r Hfound Hget status Hcommit)
      as (w'' & Hrun' & Hc & Hs & _).
    rewrite Hrun' in Hrun. injection Hrun as _ <-. rewrite Hs, Hc. auto. }
  destruct (String.eqb status "PENDING" && negb (Report.approval_notification_sent r)) eqn:Hq.
  - apply andb_true_iff in Hq as [Hs Hf].
    apply String.eqb_eq in Hs. apply negb_true_iff in Hf. subst status.
    rewrite (update_report_status_notifies E w report_id r Hfound Hget Hcommit Hf) in Hrun.
    destruct (dispatcher_returns E report_id (after_status_commit E report_id "PENDING" w))
      as (b & w2 & Hd).
    assert (Hinv : report_inv report_id (fun r' => Report.status r' = "PENDING") w2).
    { pose proof (inv_create_approval_notification E report_id
                    (fun r' => Report.status r' = "PENDING") report_id
                    (after_status_commit E report_id "PENDING" w)) as H.
      rewrite Hd in H. apply H, (after_status_commit_inv E w report_id r Hfound).
      apply status_changed_status. }
    rewrite (notify_and_flag_run E report_id _ b w2 Hd) in Hrun. cbv zeta in Hrun.
    destruct (fails E (tick w2) OpCommit); [| discriminate].
    injection Hrun as _ <-. wsimpl. split; [reflexivity |]. right. apply Hinv.
  - rewrite (update_report_status_quiet E w report_id r Hfound Hget Hcommit status Hq) in Hrun.
    discriminate.
Qed.

Lemma update_report_status_raise_rolls_back_witness :
  let E := Examples.env_with (Examples.only_fails OpCommit) false in
  let run := update_report_status E "r1" "PENDING" Examples.with_draft in
  run.1 = Raise (Fault OpCommit)
  /\ session run.2 = committed run.2
  /\ (committed run.2 = committed Examples.with_draft
      \/ report_has "r1" (fun r' => Report.status r' = "PENDING") (committed run.2)).
Proof.
  cbv zeta. split; [vm_compute; reflexivity |].
  apply (update_report_status_raise_rolls_back
           (Examples.env_with (Examples.only_fails OpCommit) false)
           Examples.with_draft "r1" "PENDING" (Fault OpCommit)).
  vm_compute. reflexivity.
Defined.

(** X3: the second commit fails.  For a report entering PENDING with its
    flag down, once the dispatcher has returned: if the commit of the flag
    raises, the call raises that failure; the report stays committed as
    PENDING with its flag down, and whatever the dispatcher committed
    stays committed.  The next call to PENDING will dispatch again. *)
Theorem second_commit_failure_keeps_flag_down E w report_id r b w2 :
  reports (session w) !! report_id = Some r ->
  Report.approval_notification_sent r = false ->
  fails E (tick w) OpReportGet = false ->
  fails E (S (S (tick w))) OpCommit = false ->
  create_approval_notification E report_id (after_status_commit E report_id "PENDING" w)
  = (Ret b, w2) ->
  fails E (tick w2) OpCommit = true ->
  exists w',
    update_report_status E report_id "PENDING" w = (Raise (Fault OpCommit), w')
    /\ report_inv report_id
         (fun r' => Report.status r' = "PENDING"
                    /\ Report.approval_notification_sent r' = false) w'
    /\ notifications (committed w') = notifications (committed w2).
Proof.
  intros Hfound Hflag Hget Hcommit Hd Hcommit2.
  rewrite (update_report_status_notifies E w report_id r Hfound Hget Hcommit Hflag).
  rewrite (notify_and_flag_run E report_id _ b w2 Hd). cbv zeta. rewrite Hcommit2.
  eexists. split; [reflexivity |].
  assert (Hinv : report_inv report_id
                   (fun r' => Report.status r' = "PENDING"
                              /\ Report.approval_notification_sent r' = false) w2).
  { pose proof (inv_create_approval_notification E report_id
                  (fun r' => Report.status r' = "PENDING"
                             /\ Report.approval_notification_sent r' = false) report_id
                  (after_status_commit E report_id "PENDING" w)) as H.
    rewrite Hd in H. apply H, (after_status_commit_inv E w report_id r Hfound).
    rewrite status_changed_status, status_changed_flag. auto. }
  destruct Hinv as [_ Hc]. wsimpl. split; [split; exact Hc | reflexivity].
Qed.

Lemma second_commit_failure_keeps_flag_down_witness :
  let E := Examples.env_with
             (fun t p => bool_decide (p = OpCommit) && Nat.eqb t 8) false in
  exists w',
    update_report_status E "r1" "PENDING" Examples.with_draft = (Raise (Fault OpCommit), w')
    /\ report_inv "r1"
         (fun r' => Report.status r' = "PENDING"
                    /\ Report.approval_notification_sent r' = false) w'
    /\ Notification.user_email <$> notifications (committed w') = ["tara@x"].
Proof.
  cbv zeta.
  destruct (second_commit_failure_keeps_flag_down
              (Examples.env_with (fun t p => bool_decide (p = OpCommit) && Nat.eqb t 8) false)
              Examples.with_draft "r1" Examples.draft_report true
              (create_approval_notification
                 (Examples.env_with (fun t p => bool_decide (p = OpCommit) && Nat.eqb t 8) false)
                 "r1"
                 (after_status_commit
                    (Examples.env_with (fun t p => bool_decide (p = OpCommit) && Nat.eqb t 8)
                       false)
                    "r1" "PENDING" Examples.with_draft)).2)
    as (w' & Hrun & Hinv & Hn).
  - vm_compute. reflexivity.
  - reflexivity.
  - reflexivity.
  - reflexivity.
  - vm_compute. reflexivity.
  - vm_compute. reflexivity.
  - exists w'. split; [exact Hrun | split; [exact Hinv |]].
    rewrite Hn. vm_compute. reflexivity.
Defined.

(** *** Properties of a view that the dispatcher keeps *)

Lemma preserves_for_each_in {St A} (I : St -> Prop) (l : list A) (body : A -> M St unit) :
  (forall x, x ∈ l -> preserves I (body x)) -> preserves I (for_each l body).
Proof.
  induction l as [|x l IH]; intros Hb; simpl.
  - apply preserves_ret.
  - apply preserves_bind.
    + apply Hb. apply list_elem_of_here.
    + intros _. apply IH. intros y Hy. apply Hb. apply list_elem_of_further, Hy.
Qed.

Section BothViews.
Variable E : env.
Variable Q : store -> Prop.
Local Abbreviation J := (both_views Q).

Lemma bv_call p : preserves J (call E p).
Proof. intros w H. unfold call. destruct (fails E (tick w) p); exact H. Qed.

Lemma bv_utcnow : preserves J (utcnow E).
Proof. intros w H. exact H. Qed.

Lemma bv_logger_error c e : preserves J (logger_error c e).
Proof. intros w H. exact H. Qed.

Lemma bv_commit : preserves J (db_session_commit E).
Proof.
  unfold db_session_commit. apply preserves_bind; [apply bv_call | intros _].
  apply preserves_modify. intros w [Hs _]. split; exact Hs.
Qed.

Lemma bv_rollback : preserves J db_session_rollback.
Proof. apply preserves_modify. intros w [_ Hc]. split; exact Hc. Qed.

Lemma bv_report_getattr {A} rid (f : Report.t -> A) : preserves J (report_getattr rid f).
Proof. intros w H. unfold report_getattr. destruct (reports (session w) !! rid); exact H. Qed.

Lemma bv_config_get : preserves J (config_get_email_notifications E).
Proof.
  unfold config_get_email_notifications.
  apply preserves_bind; [apply bv_call | intros _; apply preserves_ret].
Qed.

Lemma bv_send_email r sbj b : preserves J (send_email_notification E r sbj b).
Proof.
  unfold send_email_notification. apply preserves_bind; [apply bv_call | intros _].
  apply preserves_modify. intros w H. exact H.
Qed.

Lemma bv_add_notification n :
  (forall s k, Q s -> Q (with_notifications (notifications s ++ [Notification.set_id k n]) s)) ->
  preserves J (db_session_add_notification E n).
Proof.
  intros Hn. unfold db_session_add_notification.
  apply preserves_bind; [apply bv_call | intros _].
  apply preserves_bind; [apply preserves_gets | intros key].
  apply preserves_bind; [| intros _; apply preserves_ret].
  apply preserves_modify. intros w [Hs Hc]. split; [| exact Hc].
  apply (Hn (session w) key Hs).
Qed.

Lemma bv_report_setattr rid f :
  (forall s, Q s -> Q (with_reports (alter f rid (reports s)) s)) ->
  preserves J (report_setattr rid f).
Proof.
  intros Hf. apply preserves_modify. intros w [Hs Hc]. split; [| exact Hc].
  apply (Hf (session w) Hs).
Qed.

Lemma bv_create_notification u t m k :
  (forall s key, Q s ->
     Q (with_notifications (notifications s ++ [Notification.mk key u t m k false None]) s)) ->
  preserves J (create_notification E u t m k).
Proof.
  intros Hn. unfold create_notification.
  apply preserves_try_except.
  - apply preserves_bind; [apply bv_call | intros _].
    apply preserves_bind; [apply bv_add_notification; exact Hn | intros n].
    apply preserves_bind; [apply bv_commit | intros _; apply preserves_ret].
  - intros e. apply preserves_bind; [apply bv_rollback | intros _].
    apply preserves_bind; [apply bv_logger_error | intros _; apply preserves_throw].
Qed.

(** The two loops of the dispatcher, for a list of users all of whose
    notifications keep [Q]. *)
Lemma bv_dispatch_to rid (tms : list User.t) :
  (forall tm s key m, tm ∈ tms -> Q s ->
     Q (with_notifications
          (notifications s
           ++ [Notification.mk key (User.email tm) "New Report for Approval" m "approval"
                 false None]) s)) ->
  preserves J
    (for_each tms (fun tm =>
       document_title ← report_getattr rid Report.document_title;
       create_notification E (User.email tm)
         "New Report for Approval"
         ("Report " +:+ dq +:+ py_str E document_title +:+ dq +:+ " requires your approval")
         "approval";;
       mret tt);;
     enabled ← config_get_email_notifications E;
     (if enabled : bool then
        for_each tms (fun tm =>
          document_title ← report_getattr rid Report.document_title;
          send_email_notification E (User.email tm)
            "New Report Pending Approval"
            ("A new report " +:+ dq +:+ py_str E document_title +:+ dq
               +:+ " is pending your approval."))
      else mret tt);;
     mret true).
Proof.
  intros Hn.
  apply preserves_bind.
  { apply preserves_for_each_in. intros tm Htm.
    apply preserves_bind; [apply bv_report_getattr | intros title].
    apply preserves_bind; [| intros _; apply preserves_ret].
    apply bv_create_notification. intros s key Hs. apply (Hn tm s key _ Htm Hs). }
  intros _. apply preserves_bind; [apply bv_config_get | intros enabled].
  apply preserves_bind; [| intros _; apply preserves_ret].
  destruct enabled; [| apply preserves_ret].
  apply preserves_for_each. intros tm.
  apply preserves_bind; [apply bv_report_getattr | intros title]. apply bv_send_email.
Qed.

End BothViews.

Lemma run_User_query_tms E w :
  User_query_tms E w
  = if fails E (tick w) OpUserQuery
    then (Raise (Fault OpUserQuery), record_call OpUserQuery w)
    else (Ret (filter is_approver (users (session w))), record_call OpUserQuery w).
Proof.
  unfold User_query_tms. rewrite run_bind, run_call.
  destruct (fails E (tick w) OpUserQuery); reflexivity.
Qed.

(** The dispatcher keeps every property of the views that adding an
    approval notification for one of the selected users keeps. *)
Lemma bv_create_approval_notification E (Q : store -> Prop) rid w :
  (forall tm s key m, tm ∈ filter is_approver (users (session w)) -> Q s ->
     Q (with_notifications
          (notifications s
           ++ [Notification.mk key (User.email tm) "New Report for Approval" m "approval"
                 false None]) s)) ->
  both_views Q w ->
  both_views Q (create_approval_notification E rid w).2.
Proof.
  intros Hn HQ. unfold create_approval_notification.
  rewrite run_try_except, run_bind, run_User_query_tms.
  destruct (fails E (tick w) OpUserQuery).
  - mrun. exact HQ.
  - cbv beta iota.
    pose proof (bv_dispatch_to E Q rid (filter is_approver (users (session w))) Hn
                  (record_call OpUserQuery w) HQ) as Hrest.
    match goal with
    | |- context [match ?X with pair _ _ => _ end] => destruct X as [[v|e] w1]
    end; [exact Hrest |].
    mrun. exact Hrest.
Qed.

Lemma bv_dispatcher_any E (Q : store -> Prop) rid :
  (forall s l, Q s -> Q (with_notifications l s)) ->
  preserves (both_views Q) (create_approval_notification E rid).
Proof.
  intros Hn w HQ. apply bv_create_approval_notification; [| exact HQ].
  intros tm s key m _ Hs. apply Hn, Hs.
Qed.

Lemma bv_notify_and_flag E (Q : store -> Prop) rid :
  (forall s l, Q s -> Q (with_notifications l s)) ->
  (forall s f, Q s -> Q (with_reports (alter f rid (reports s)) s)) ->
  preserves (both_views Q) (notify_and_flag E rid).
Proof.
  intros Hn Hf. unfold notify_and_flag.
  apply preserves_try_except.
  - apply preserves_bind; [apply bv_dispatcher_any, Hn | intros _].
    apply preserves_bind; [apply bv_report_setattr; intros s; apply Hf | intros _].
    apply preserves_bind; [apply bv_commit | intros _; apply preserves_ret].
  - intros e. apply preserves_bind; [apply bv_rollback | intros _].
    apply preserves_bind; [apply bv_logger_error | intros _; apply preserves_throw].
Qed.

(** Once the fetch and the first commit went through, both views end
    with every property of the session that survives an update of the
    report [report_id] and a change of the notifications. *)
Lemma update_report_status_both_views E w report_id status r (Q : store -> Prop) :
  reports (session w) !! report_id = Some r ->
  fails E (tick w) OpReportGet = false ->
  fails E (S (S (tick w))) OpCommit = false ->
  (forall s l, Q s -> Q (with_notifications l s)) ->
  (forall s f, Q s -> Q (with_reports (alter f report_id (reports s)) s)) ->
  Q (session w) ->
  both_views Q (update_report_status E report_id status w).2.
Proof.
  intros Hfound Hget Hcommit Hn Hf HQ.
  assert (Hw1 : both_views Q (after_status_commit E report_id status w)).
  { unfold after_status_commit, both_views. wsimpl. split; apply (Hf (session w) _ HQ). }
  destruct (String.eqb status "PENDING" && negb (Report.approval_notification_sent r)) eqn:Hq.
  - apply andb_true_iff in Hq as [Hs Hfl].
    apply String.eqb_eq in Hs. apply negb_true_iff in Hfl. subst status.
    rewrite (update_report_status_notifies E w report_id r Hfound Hget Hcommit Hfl).
    apply bv_notify_and_flag; assumption.
  - rewrite (update_report_status_quiet E w report_id r Hfound Hget Hcommit status Hq).
    exact Hw1.
Qed.

(** X4: the approval state is rewritten on DRAFT -> PENDING only.  For
    every other transition (the report is not a DRAFT, or the new status
    is not PENDING), a call that returns [True] leaves [approvals_json] as
    it was: the current stage is not reset. *)
Theorem other_transitions_keep_approvals E w report_id status r w' :
  reports (session w) !! report_id = Some r ->
  String.eqb status "PENDING" && String.eqb (Report.status r) "DRAFT" = false ->
  update_report_status E report_id status w = (Ret true, w') ->
  report_inv report_id
    (fun r' => Report.approvals_json r' = Report.approvals_json r) w'.
Proof.
  intros Hfound Hother Hrun.
  destruct (update_report_status_returned E w report_id status r true w' Hfound Hrun)
    as [Hget Hcommit].
  pose proof (update_report_status_inv E w report_id status r
                (fun r' => Report.approvals_json r' = Report.approvals_json r)
                Hfound Hget Hcommit) as Hinv.
  rewrite Hrun in Hinv. apply Hinv.
  - intros r' H. exact H.
  - unfold status_changed. rewrite Hother. reflexivity.
Qed.

Lemma other_transitions_keep_approvals_witness :
  report_inv "r1"
    (fun r' => Report.approvals_json r' = Some approvals_template_json)
    (update_report_status Examples.calm "r1" "PENDING" Examples.with_pending).2.
Proof.
  apply (other_transitions_keep_approvals Examples.calm Examples.with_pending "r1" "PENDING"
           Examples.pending_report).
  - vm_compute. reflexivity.
  - reflexivity.
  - vm_compute. reflexivity.
Defined.

(** X5: one report changes, and the whole session is committed.  After a
    call that returns [True], the users, the SAT records and every report
    other than the one named are, in the session and committed, what the
    session held before the call. *)
Theorem update_report_status_touches_one_report E w report_id status r w' :
  reports (session w) !! report_id = Some r ->
  update_report_status E report_id status w = (Ret true, w') ->
  both_views
    (fun s => users s = users (session w)
              /\ sat_reports s = sat_reports (session w)
              /\ forall other, other <> report_id ->
                   reports s !! other = reports (session w) !! other) w'.
Proof.
  intros Hfound Hrun.
  destruct (update_report_status_returned E w report_id status r true w' Hfound Hrun)
    as [Hget Hcommit].
  pose proof (update_report_status_both_views E w report_id status r
                (fun s => users s = users (session w)
                          /\ sat_reports s = sat_reports (session w)
                          /\ forall other, other <> report_id ->
                               reports s !! other = reports (session w) !! other)
                Hfound Hget Hcommit) as Hbv.
  rewrite Hrun in Hbv. apply Hbv.
  - intros s l H. exact H.
  - intros s f (Hu & Hs & Hr). repeat split; auto.
    intros other Hne. simpl. rewrite lookup_alter_ne by congruence. apply Hr, Hne.
  - auto.
Qed.

Lemma update_report_status_touches_one_report_witness :
  both_views
    (fun s => users s = users (session Examples.with_garbled)
              /\ sat_reports s = sat_reports (session Examples.with_garbled)
              /\ forall other, other <> "r2" ->
                   reports s !! other = reports (session Examples.with_garbled) !! other)
    (update_report_status Examples.calm "r2" "APPROVED" Examples.with_garbled).2.
Proof.
  apply (update_report_status_touches_one_report Examples.calm Examples.with_garbled "r2"
           "APPROVED" Examples.garbled_report).
  - vm_compute. reflexivity.
  - vm_compute. reflexivity.
Defined.

(** X6: a resubmitted report is not notified again.  For a DRAFT whose
    flag is already up (it was submitted before), when the fetch and the
    commit go through: the call to PENDING returns [True] and writes the
    two-stage template again, but the flag stays up and the dispatcher is
    not reached: the only collaborator calls are fetch, clock and commit,
    no notification is added and no e-mail is sent. *)
Theorem resubmission_is_not_notified E w report_id r :
  reports (session w) !! report_id = Some r ->
  Report.status r = "DRAFT" ->
  Report.approval_notification_sent r = true ->
  fails E (tick w) OpReportGet = false ->
  fails E (S (S (tick w))) OpCommit = false ->
  exists w',
    update_report_status E report_id "PENDING" w = (Ret true, w')
    /\ report_inv report_id
         (fun r' => Report.status r' = "PENDING"
                    /\ Report.approvals_json r' = Some approvals_template_json
                    /\ Report.approval_notification_sent r' = true) w'
    /\ journal w' = (journal w ++ [OpReportGet; OpUtcNow; OpCommit])%list
    /\ notifications (committed w') = notifications (session w)
    /\ outbox w' = outbox w.
Proof.
  intros Hfound Hdraft Hflag Hget Hcommit.
  rewrite (update_report_status_quiet E w report_id r Hfound Hget Hcommit "PENDING")
    by (rewrite Hflag; reflexivity).
  eexists. split; [reflexivity |]. split; [| split; [| split]].
  - apply (after_status_commit_inv E w report_id r Hfound).
    rewrite status_changed_flag. unfold status_changed. rewrite Hdraft. auto.
  - apply after_status_commit_journal.
  - reflexivity.
  - reflexivity.
Qed.

Lemma resubmission_is_not_notified_witness :
  exists w',
    update_report_status Examples.calm "r3" "PENDING" Scenarios.with_returned_draft
    = (Ret true, w')
    /\ report_inv "r3"
         (fun r' => Report.status r' = "PENDING"
                    /\ Report.approvals_json r' = Some approvals_template_json
                    /\ Report.approval_notification_sent r' = true) w'
    /\ journal w' = [OpReportGet; OpUtcNow; OpCommit]
    /\ notifications (committed w') = []
    /\ outbox w' = [].
Proof.
  apply (resubmission_is_not_notified Examples.calm Scenarios.with_returned_draft "r3"
           Scenarios.returned_draft).
  - vm_compute. reflexivity.
  - reflexivity.
  - reflexivity.
  - reflexivity.
  - reflexivity.
Defined.

(** ** The stage check and the pending counts *)

Lemma float_stage_unique f : float_eq_Z f 1 = true -> float_eq_Z f 2 = false.
Proof.
  destruct f as [s| | |s m e]; simpl; try discriminate.
  destruct (0 <=? e) eqn:He.
  - intros H1%Z.eqb_eq. apply Z.eqb_neq. lia.
  - intros H1%Z.eqb_eq. apply Z.eqb_neq. apply Z.leb_gt in He.
    assert (0 < 2 ^ (- e)) by (apply Z.pow_pos_nonneg; lia). lia.
Qed.

Lemma py_stage_unique v : py_eq_int v 1 = true -> py_eq_int v 2 = false.
Proof.
  destruct v as [|b|z|f|s|l|d|t]; simpl; try discriminate.
  - destruct b; simpl; [reflexivity | discriminate].
  - intros H1%Z.eqb_eq. subst z. reflexivity.
  - apply float_stage_unique.
Qed.

(** A report is never at stage 1 and at stage 2. *)
Lemma at_stage_unique E r : at_stage_value E r 1 = true -> at_stage_value E r 2 = false.
Proof.
  unfold at_stage_value, _is_at_stage.
  destruct (Report.approvals_json r) as [[|c j]|]; try discriminate.
  rewrite !run_try_except, !run_bind. unfold json_loads_py.
  destruct (json_loads E (String c j)) as [v|]; [| discriminate].
  rewrite !run_ret. cbv beta iota. rewrite !run_bind.
  destruct v; try discriminate.
  cbn [py_get]. repeat (rewrite ?run_ret; cbv beta iota). cbn [fst].
  apply py_stage_unique.
Qed.

Lemma disjoint_counts {A} (P1 P2 : A -> Prop) `{forall x, Decision (P1 x)}
    `{forall x, Decision (P2 x)} (l : list A) :
  (forall x, P1 x -> ~ P2 x) ->
  (length (filter P1 l) + length (filter P2 l) <= length l)%nat.
Proof.
  intros Hd. induction l as [|x l IH]; [reflexivity |].
  rewrite !filter_cons.
  destruct (decide (P1 x)) as [H1|H1], (decide (P2 x)) as [H2|H2]; simpl; try lia.
  exfalso. exact (Hd x H1 H2).
Qed.

Lemma get_pending_approvals_run E role stage w :
  (bool_decide (role ∈ ["TM"; "Technical Manager"]) = true /\ stage = 1
   \/ bool_decide (role ∈ ["TM"; "Technical Manager"]) = false
      /\ bool_decide (role ∈ ["PM"; "Project Manager"]) = true /\ stage = 2) ->
  get_pending_approvals E role w
  = if fails E (tick w) OpReportQuery
    then (Ret 0%nat,
          with_log (log w ++ [LogError "Error getting pending approvals" (Fault OpReportQuery)])
            (record_call OpReportQuery w))
    else (Ret (length (filter (fun r => at_stage_value E r stage = true)
                         (filter (fun r => Report.status r = "PENDING")
                            (map_to_list (reports (session w))).*2))),
          record_call OpReportQuery w).
Proof.
  intros Hrole. unfold get_pending_approvals. rewrite run_try_except.
  destruct Hrole as [[-> ->] | (-> & -> & ->)];
    rewrite count_at_stage_run; destruct (fails E (tick w) OpReportQuery); mrun; reflexivity.
Qed.

(** X8: the two queues never share a report, and counting changes
    nothing.  For a technical-manager role string and a project-manager
    role string, counted one after the other: both database views are as
    before, and the two counts together do not exceed the number of
    PENDING reports. *)
Theorem pending_counts_are_disjoint E w tm_role pm_role n1 w1 n2 w2 :
  tm_role ∈ ["TM"; "Technical Manager"] ->
  pm_role ∈ ["PM"; "Project Manager"] ->
  get_pending_approvals E tm_role w = (Ret n1, w1) ->
  get_pending_approvals E pm_role w1 = (Ret n2, w2) ->
  session w2 = session w
  /\ committed w2 = committed w
  /\ (n1 + n2 <= length (filter (fun r => Report.status r = "PENDING")
                           (map_to_list (reports (session w))).*2))%nat.
Proof.
  intros Htm Hpm Hrun1 Hrun2.
  rewrite (get_pending_approvals_run E tm_role 1 w) in Hrun1
    by (left; split; [apply bool_decide_eq_true, Htm | reflexivity]).
  assert (Hnot : bool_decide (pm_role ∈ ["TM"; "Technical Manager"]) = false).
  { apply bool_decide_eq_false. intros H.
    apply list_elem_of_In in H. apply list_elem_of_In in Hpm. simpl in H, Hpm.
    intuition (subst; discriminate). }
  rewrite (get_pending_approvals_run E pm_role 2 w1) in Hrun2
    by (right; split; [exact Hnot | split; [apply bool_decide_eq_true, Hpm | reflexivity]]).
  assert (Hs1 : session w1 = session w /\ committed w1 = committed w).
  { destruct (fails E (tick w) OpReportQuery); injection Hrun1 as _ <-; auto. }
  destruct Hs1 as [Hs1 Hc1].
  assert (Hs2 : session w2 = session w1 /\ committed w2 = committed w1).
  { destruct (fails E (tick w1) OpReportQuery); injection Hrun2 as _ <-; auto. }
  destruct Hs2 as [Hs2 Hc2].
  split; [congruence | split; [congruence |]].
  pose proof (disjoint_counts
                (fun r => at_stage_value E r 1 = true) (fun r => at_stage_value E r 2 = true)
                (filter (fun r => Report.status r = "PENDING")
                   (map_to_list (reports (session w))).*2)) as Hd.
  rewrite Hs1 in Hrun2.
  assert (Hle : forall x : Report.t, at_stage_value E x 1 = true -> at_stage_value E x 2 <> true).
  { intros x H1. rewrite (at_stage_unique E x H1). discriminate. }
  specialize (Hd Hle).
  destruct (fails E (tick w) OpReportQuery); injection Hrun1 as <- _;
    destruct (fails E (tick w1) OpReportQuery); injection Hrun2 as <- _; lia.
Qed.

Lemma pending_counts_are_disjoint_witness :
  let first := get_pending_approvals Examples.calm "TM" Examples.with_garbled in
  let second := get_pending_approvals Examples.calm "Project Manager" first.2 in
  first.1 = Ret 1%nat
  /\ second.1 = Ret 0%nat
  /\ session second.2 = session Examples.with_garbled
  /\ committed second.2 = committed Examples.with_garbled
  /\ (1 + 0 <= length (filter (fun r => Report.status r = "PENDING")
                         (map_to_list (reports (session Examples.with_garbled))).*2))%nat.
Proof.
  cbv zeta. split; [vm_compute; reflexivity |]. split; [vm_compute; reflexivity |].
  apply (pending_counts_are_disjoint Examples.calm Examples.with_garbled "TM" "Project Manager"
           1%nat (get_pending_approvals Examples.calm "TM" Examples.with_garbled).2
           0%nat
           (get_pending_approvals Examples.calm "Project Manager"
              (get_pending_approvals Examples.calm "TM" Examples.with_garbled).2).2).
  - apply list_elem_of_In. simpl. auto.
  - apply list_elem_of_In. simpl. auto.
  - vm_compute. reflexivity.
  - vm_compute. reflexivity.
Defined.

Lemma is_at_stage_template {St} E r stage (s : St) :
  Report.approvals_json r = Some approvals_template_json ->
  json_loads E approvals_template_json = Some approvals_template ->
  _is_at_stage E r stage s = (Ret (1 =? stage), s).
Proof.
  intros Hjson Hloads. unfold _is_at_stage. rewrite Hjson.
  remember approvals_template_json as t eqn:Ht.
  destruct t as [|c j]; [vm_compute in Ht; discriminate |].
  rewrite run_try_except, run_bind. unfold json_loads_py. rewrite Hloads.
  reflexivity.
Qed.

(** X7: a submitted report waits for the technical manager.  For a
    DRAFT submitted with a call that returns [True], in an environment
    whose JSON decoder reads the template text back as the template: the
    stored report is at stage 1 and not at stage 2, in the session and
    committed. *)
Theorem submitted_report_waits_at_stage_1 E w report_id r w' :
  reports (session w) !! report_id = Some r ->
  Report.status r = "DRAFT" ->
  json_loads E approvals_template_json = Some approvals_template ->
  update_report_status E report_id "PENDING" w = (Ret true, w') ->
  report_inv report_id
    (fun r' => forall w0 : world,
       _is_at_stage E r' 1 w0 = (Ret true, w0)
       /\ _is_at_stage E r' 2 w0 = (Ret false, w0)) w'.
Proof.
  intros Hfound Hdraft Hloads Hrun.
  destruct (update_report_status_returned E w report_id "PENDING" r true w' Hfound Hrun)
    as [Hget Hcommit].
  pose proof (update_report_status_inv E w report_id "PENDING" r
                (fun r' => Report.approvals_json r' = Some approvals_template_json)
                Hfound Hget Hcommit) as Hinv.
  rewrite Hrun in Hinv.
  assert (Hjson : report_inv report_id
                    (fun r' => Report.approvals_json r' = Some approvals_template_json) w').
  { apply Hinv; [intros r' H; exact H |]. unfold status_changed. rewrite Hdraft. reflexivity. }
  destruct Hjson as [(r1 & Hr1 & Hj1) (r2 & Hr2 & Hj2)].
  split; eexists; (split; [eassumption |]); intros w0;
    rewrite !(is_at_stage_template E _ _ w0) by assumption; auto.
Qed.

Lemma submitted_report_waits_at_stage_1_witness :
  report_inv "r1"
    (fun r' => forall w0 : world,
       _is_at_stage Examples.calm r' 1 w0 = (Ret true, w0)
       /\ _is_at_stage Examples.calm r' 2 w0 = (Ret false, w0))
    (update_report_status Examples.calm "r1" "PENDING" Examples.with_draft).2.
Proof.
  apply (submitted_report_waits_at_stage_1 Examples.calm Examples.with_draft "r1"
           Examples.draft_report).
  - vm_compute. reflexivity.
  - reflexivity.
  - vm_compute. reflexivity.
  - vm_compute. reflexivity.
Defined.

(** ** The dispatcher *)

(** X11: the dispatcher notifies approvers only.  Whatever fails during
    the call, [create_approval_notification] does not raise, and every
    notification found afterwards, in the session or committed, was
    already there (committed or pending) or is an unread "approval"
    notification addressed to an Active user of the session whose role is
    TM or Technical Manager. *)
Theorem dispatcher_notifies_approvers_only E w report res w' :
  create_approval_notification E report w = (res, w') ->
  (exists b, res = Ret b)
  /\ both_views
       (fun s => forall n, n ∈ notifications s ->
          n ∈ notifications (committed w)
          \/ n ∈ notifications (session w)
          \/ (Notification.title n = "New Report for Approval"
              /\ Notification.type n = "approval"
              /\ Notification.read n = false
              /\ exists tm, tm ∈ users (session w) /\ is_approver tm
                            /\ Notification.user_email n = User.email tm)) w'.
Proof.
  intros Hrun. split.
  - destruct (never_raises_create_approval_notification E report w) as [b Hb].
    rewrite Hrun in Hb. eauto.
  - pose proof (bv_create_approval_notification E
                  (fun s => forall n, n ∈ notifications s ->
                     n ∈ notifications (committed w)
                     \/ n ∈ notifications (session w)
                     \/ (Notification.title n = "New Report for Approval"
                         /\ Notification.type n = "approval"
                         /\ Notification.read n = false
                         /\ exists tm, tm ∈ users (session w) /\ is_approver tm
                                       /\ Notification.user_email n = User.email tm))
                  report w) as Hbv.
    rewrite Hrun in Hbv. apply Hbv.
    + intros tm s key m Htm Hs n Hn. simpl in Hn.
      apply elem_of_app in Hn as [Hn | Hn]; [apply Hs, Hn |].
      apply list_elem_of_singleton in Hn. subst n.
      apply list_elem_of_filter in Htm as [Happ Hin].
      right. right. simpl. repeat split; eauto.
    + split; intros n Hn; auto.
Qed.

Lemma dispatcher_notifies_approvers_only_witness :
  let E := Examples.env_with (Examples.only_fails OpConfigGet) true in
  let run := create_approval_notification E "r1" Examples.with_draft in
  run.1 = Ret false
  /\ Notification.user_email <$> notifications (committed run.2) = ["tara@x"]
  /\ both_views
       (fun s => forall n, n ∈ notifications s ->
          n ∈ notifications (committed Examples.with_draft)
          \/ n ∈ notifications (session Examples.with_draft)
          \/ (Notification.title n = "New Report for Approval"
              /\ Notification.type n = "approval"
              /\ Notification.read n = false
              /\ exists tm, tm ∈ users (session Examples.with_draft) /\ is_approver tm
                            /\ Notification.user_email n = User.email tm)) run.2.
Proof.
  cbv zeta. split; [vm_compute; reflexivity |]. split; [vm_compute; reflexivity |].
  apply (dispatcher_notifies_approvers_only
           (Examples.env_with (Examples.only_fails OpConfigGet) true)
           Examples.with_draft "r1"
           (create_approval_notification
              (Examples.env_with (Examples.only_fails OpConfigGet) true) "r1"
              Examples.with_draft).1).
  vm_compute. reflexivity.
Defined.

(** *** The dispatcher when only constructions fail *)

Lemma for_each_app {St A} (l1 l2 : list A) (body : A -> M St unit) s :
  for_each (l1 ++ l2) body s
  = match for_each l1 body s with
    | (Ret _, s1) => for_each l2 body s1
    | (Raise e, s1) => (Raise e, s1)
    end.
Proof.
  revert s. induction l1 as [|x l1 IH]; intros s; [reflexivity |].
  cbn [app for_each]. rewrite !run_bind.
  destruct (body x s) as [[[]|e] s1]; [apply IH | reflexivity].
Qed.

Lemma create_approval_notification_unfold E report :
  create_approval_notification E report
  = try_except
      (tms ← User_query_tms E;
       for_each tms (notify_one E report);;
       enabled ← config_get_email_notifications E;
       (if enabled : bool then for_each tms (email_one E report) else mret tt);;
       mret true)
      (fun e => logger_error "Error creating approval notifications" e;; mret false).
Proof. reflexivity. Qed.

Section ConstructorFaults.
Variable E : env.
Variable bad : string -> bool.
Hypothesis Hfaults : constructor_faults E bad.

Lemma cf_call p w :
  (forall e, p <> OpNewNotification e) -> call E p w = (Ret tt, record_call p w).
Proof.
  intros Hp. rewrite run_call, Hfaults. destruct p; try reflexivity.
  exfalso. eapply Hp. reflexivity.
Qed.

Lemma cf_construct e w :
  call E (OpNewNotification e) w
  = (if bad e then Raise (Fault (OpNewNotification e)) else Ret tt,
     record_call (OpNewNotification e) w).
Proof. rewrite run_call, Hfaults. reflexivity. Qed.

Lemma cf_commit w :
  db_session_commit E w = (Ret tt, with_committed (session w) (record_call OpCommit w)).
Proof. rewrite run_commit, Hfaults. reflexivity. Qed.

(** One notification for a recipient whose construction goes through. *)
Lemma cf_create_notification_good u t m k w :
  bad u = false ->
  exists w',
    create_notification E u t m k w
    = (Ret (Notification.mk (next_notification_id w) u t m k false None), w')
    /\ session w'
       = with_notifications
           (notifications (session w)
            ++ [Notification.mk (next_notification_id w) u t m k false None])
           (session w)
    /\ committed w' = session w'
    /\ next_notification_id w' = next_notification_id w + 1
    /\ log w' = log w
    /\ outbox w' = outbox w.
Proof.
  intros Hu. unfold create_notification.
  rewrite run_try_except, run_bind, cf_construct, Hu. cbv beta iota.
  unfold db_session_add_notification.
  rewrite !run_bind, cf_call by discriminate. mrun.
  rewrite cf_commit. mrun.
  eexists. split; [reflexivity |]. wsimpl. auto.
Qed.

(** One notification for a recipient whose construction raises. *)
Lemma cf_create_notification_bad u t m k w :
  bad u = true ->
  exists w',
    create_notification E u t m k w = (Raise (Fault (OpNewNotification u)), w')
    /\ session w' = committed w
    /\ committed w' = committed w
    /\ log w' = (log w ++ [LogError "Error creating notification"
                             (Fault (OpNewNotification u))])%list
    /\ outbox w' = outbox w.
Proof.
  intros Hu. unfold create_notification.
  rewrite run_try_except, run_bind, cf_construct, Hu. mrun.
  eexists. split; [reflexivity |]. wsimpl. auto.
Qed.

Variables (report : string) (r : Report.t).

(** The first loop over users whose constructions all go through. *)
Lemma cf_notify_all (tms : list User.t) :
  Forall (fun tm => bad (User.email tm) = false) tms ->
  forall w,
  reports (session w) !! report = Some r ->
  exists w',
    for_each tms (notify_one E report) w = (Ret tt, w')
    /\ users (session w') = users (session w)
    /\ reports (session w') = reports (session w)
    /\ sat_reports (session w') = sat_reports (session w)
    /\ notifications (session w')
       = (notifications (session w)
          ++ new_notifications (next_notification_id w) "New Report for Approval"
               (approval_message E (Report.document_title r)) "approval"
               (User.email <$> tms))%list
    /\ next_notification_id w' = next_notification_id w + Z.of_nat (length tms)
    /\ (tms <> [] -> committed w' = session w')
    /\ (tms = [] -> w' = w)
    /\ log w' = log w
    /\ outbox w' = outbox w.
Proof.
  induction 1 as [|tm tms Hgood _ IH]; intros w Hfound.
  - exists w. cbn [for_each fmap list_fmap new_notifications length].
    rewrite app_nil_r, Z.add_0_r. repeat split; auto. intros H. contradiction.
  - cbn [for_each]. rewrite run_bind. unfold notify_one at 1.
    rewrite run_bind, (run_report_getattr _ _ _ _ Hfound). cbv beta iota.
    rewrite run_bind.
    destruct (cf_create_notification_good (User.email tm) "New Report for Approval"
                (approval_message E (Report.document_title r)) "approval" w Hgood)
      as (w1 & Hrun1 & Hs1 & Hc1 & Hk1 & Hl1 & Ho1).
    unfold approval_message in Hrun1. rewrite Hrun1. mrun.
    destruct (IH w1) as (w' & Hrun & Hu & Hr & Hsat & Hn & Hk & Hc & _ & Hl & Ho).
    { rewrite Hs1. exact Hfound. }
    exists w'. rewrite Hrun. split; [reflexivity |].
    rewrite Hu, Hr, Hsat, Hn, Hk, Hl, Ho, Hs1, Hk1, Hl1, Ho1.
    cbn [fmap list_fmap new_notifications length]. wsimpl.
    rewrite <- app_assoc. cbn [app].
    repeat split; auto; try lia; try discriminate.
    intros _. destruct tms as [|tm' tms'].
    + cbn [for_each] in Hrun. rewrite run_ret in Hrun. injection Hrun as <-. exact Hc1.
    + apply Hc. discriminate.
Qed.

(** The second loop: one e-mail per user. *)
Lemma cf_email_all (tms : list User.t) :
  forall w,
  reports (session w) !! report = Some r ->
  exists w',
    for_each tms (email_one E report) w = (Ret tt, w')
    /\ session w' = session w
    /\ committed w' = committed w
    /\ next_notification_id w' = next_notification_id w
    /\ log w' = log w
    /\ outbox w' = (outbox w ++ approval_emails E (Report.document_title r) tms)%list.
Proof.
  induction tms as [|tm tms IH]; intros w Hfound.
  - exists w. cbn [for_each approval_emails fmap list_fmap]. rewrite app_nil_r.
    repeat split; reflexivity.
  - cbn [for_each]. rewrite run_bind. unfold email_one at 1.
    rewrite run_bind, (run_report_getattr _ _ _ _ Hfound). cbv beta iota.
    unfold send_email_notification. rewrite run_bind, cf_call by discriminate. mrun.
    match goal with
    | |- context [for_each tms _ ?w1] =>
        destruct (IH w1) as (w' & Hrun & Hs & Hc & Hk & Hl & Ho); [exact Hfound |]
    end.
    exists w'. rewrite Hrun, Hs, Hc, Hk, Hl, Ho. split; [reflexivity |].
    wsimpl. unfold approval_emails, approval_email_body.
    cbn [fmap list_fmap]. rewrite <- app_assoc. repeat split; reflexivity.
Qed.

End ConstructorFaults.

(** X9: a dispatch in which no construction fails.  When the report is
    in the session and the only calls that can fail are constructions for
    recipients who are not among the selected approvers: the dispatcher
    returns [True]; the session gains exactly one unread "approval"
    notification per Active TM / Technical Manager, in the order of the
    user table, each with the message built from the report title, and
    (when there is at least one) they are committed; the mailer receives
    one e-mail per approver when the e-mail flag is set and none when it is
    not; nothing is logged. *)
Theorem dispatch_notifies_each_approver E bad w report r :
  constructor_faults E bad ->
  reports (session w) !! report = Some r ->
  Forall (fun tm => bad (User.email tm) = false) (filter is_approver (users (session w))) ->
  exists w',
    create_approval_notification E report w = (Ret true, w')
    /\ notifications (session w')
       = (notifications (session w)
          ++ new_notifications (next_notification_id w) "New Report for Approval"
               (approval_message E (Report.document_title r)) "approval"
               (User.email <$> filter is_approver (users (session w))))%list
    /\ (filter is_approver (users (session w)) <> [] -> committed w' = session w')
    /\ outbox w'
       = (outbox w
          ++ if ENABLE_EMAIL_NOTIFICATIONS E
             then approval_emails E (Report.document_title r)
                    (filter is_approver (users (session w)))
             else [])%list
    /\ log w' = log w.
Proof.
  intros Hfaults Hfound Hgood.
  rewrite create_approval_notification_unfold.
  rewrite run_try_except, run_bind, run_User_query_tms, Hfaults. cbv beta iota.
  rewrite run_bind.
  destruct (cf_notify_all E bad Hfaults report r _ Hgood (record_call OpUserQuery w) Hfound)
    as (w1 & Hrun1 & Hu1 & Hr1 & Hsat1 & Hn1 & Hk1 & Hc1 & _ & Hl1 & Ho1).
  rewrite Hrun1. cbv beta iota.
  unfold config_get_email_notifications.
  rewrite !run_bind, (cf_call E bad Hfaults) by discriminate. mrun.
  assert (Hfound1 : reports (session (record_call OpConfigGet w1)) !! report = Some r).
  { unfold record_call. wsimpl. rewrite Hr1. exact Hfound. }
  destruct (ENABLE_EMAIL_NOTIFICATIONS E).
  - destruct (cf_email_all E bad Hfaults report r (filter is_approver (users (session w)))
                (record_call OpConfigGet w1) Hfound1)
      as (w2 & Hrun2 & Hs2 & Hc2 & Hk2 & Hl2 & Ho2).
    unfold record_call in Hrun2. wsimpl. rewrite Hrun2. mrun.
    eexists. split; [reflexivity |].
    rewrite Hs2, Hc2, Hl2, Ho2. wsimpl. rewrite Hn1, Hl1, Ho1.
    repeat split; auto.
  - mrun. eexists. split; [reflexivity |]. wsimpl.
    rewrite Hn1, Hl1, Ho1, app_nil_r. repeat split; auto.
Qed.

Lemma dispatch_notifies_each_approver_witness :
  let E := Examples.env_with Examples.no_faults true in
  exists w',
    create_approval_notification E "r1" Examples.with_draft = (Ret true, w')
    /\ notifications (session w')
       = [Notification.mk 1 "tara@x" "New Report for Approval"
            (approval_message E (PyStr "Pump SAT")) "approval" false None]
    /\ committed w' = session w'
    /\ outbox w' = [mkEmail "tara@x" "New Report Pending Approval"
                      (approval_email_body E (PyStr "Pump SAT"))]
    /\ log w' = [].
Proof.
  cbv zeta.
  destruct (dispatch_notifies_each_approver (Examples.env_with Examples.no_faults true)
              (fun _ => false) Examples.with_draft "r1" Examples.draft_report)
    as (w' & Hrun & Hn & Hc & Ho & Hl).
  - intros t p. destruct p; reflexivity.
  - vm_compute. reflexivity.
  - vm_compute. repeat constructor.
  - exists w'. split; [exact Hrun |]. split; [exact Hn |]. split; [| split; [exact Ho | exact Hl]].
    apply Hc. vm_compute. discriminate.
Defined.

(** X10: the first failing construction stops the dispatch.  When the
    selected approvers are [before], then [tm], then [after], the
    constructions for [before] go through and the one for [tm] raises: the
    dispatcher returns [False]; the approvers in [before] keep their
    committed notifications, [tm] and everyone in [after] get none; no
    e-mail is sent, not even to [before]; the session is rolled back to
    the committed database, and the two error lines are logged. *)
Theorem dispatch_stops_at_first_failure E bad w report r before tm after :
  constructor_faults E bad ->
  reports (session w) !! report = Some r ->
  filter is_approver (users (session w)) = (before ++ tm :: after)%list ->
  Forall (fun u => bad (User.email u) = false) before ->
  bad (User.email tm) = true ->
  exists w',
    create_approval_notification E report w = (Ret false, w')
    /\ session w' = committed w'
    /\ (before = [] -> committed w' = committed w)
    /\ (before <> [] ->
        notifications (committed w')
        = (notifications (session w)
           ++ new_notifications (next_notification_id w) "New Report for Approval"
                (approval_message E (Report.document_title r)) "approval"
                (User.email <$> before))%list)
    /\ outbox w' = outbox w
    /\ log w'
       = (log w ++ [LogError "Error creating notification"
                      (Fault (OpNewNotification (User.email tm)));
                    LogError "Error creating approval notifications"
                      (Fault (OpNewNotification (User.email tm)))])%list.
Proof.
  intros Hfaults Hfound Htms Hgood Hbad.
  rewrite create_approval_notification_unfold.
  rewrite run_try_except, run_bind, run_User_query_tms, Hfaults. cbv beta iota.
  rewrite Htms. rewrite run_bind, for_each_app.
  destruct (cf_notify_all E bad Hfaults report r before Hgood (record_call OpUserQuery w) Hfound)
    as (w1 & Hrun1 & Hu1 & Hr1 & Hsat1 & Hn1 & Hk1 & Hc1 & Hsame & Hl1 & Ho1).
  rewrite Hrun1. cbn [for_each]. rewrite run_bind. unfold notify_one at 1.
  assert (Hfound1 : reports (session w1) !! report = Some r) by (rewrite Hr1; exact Hfound).
  rewrite run_bind, (run_report_getattr _ _ _ _ Hfound1). cbv beta iota.
  rewrite run_bind.
  destruct (cf_create_notification_bad E bad Hfaults (User.email tm) "New Report for Approval"
              (approval_message E (Report.document_title r)) "approval" w1 Hbad)
    as (w2 & Hrun2 & Hs2 & Hc2 & Hl2 & Ho2).
  unfold approval_message in Hrun2. rewrite Hrun2. mrun.
  eexists. split; [reflexivity |]. wsimpl.
  rewrite Hs2, Hc2, Hl2, Ho2, Hl1, Ho1, <- app_assoc. cbn [app].
  repeat split; auto.
  - intros ->. rewrite (Hsame eq_refl). reflexivity.
  - intros Hne. rewrite (Hc1 Hne), Hn1. reflexivity.
Qed.

Lemma dispatch_stops_at_first_failure_witness :
  let E := Examples.env_with (Examples.only_fails (OpNewNotification "tim@x")) true in
  exists w',
    create_approval_notification E "r1" Scenarios.with_three_approvers = (Ret false, w')
    /\ session w' = committed w'
    /\ Notification.user_email <$> notifications (committed w') = ["tara@x"]
    /\ outbox w' = []
    /\ log w' = [LogError "Error creating notification" (Fault (OpNewNotification "tim@x"));
                 LogError "Error creating approval notifications"
                   (Fault (OpNewNotification "tim@x"))].
Proof.
  cbv zeta.
  destruct (dispatch_stops_at_first_failure
              (Examples.env_with (Examples.only_fails (OpNewNotification "tim@x")) true)
              (Scenarios.construction_fails_for "tim@x")
              Scenarios.with_three_approvers "r1" Examples.draft_report
              [Examples.tara] Scenarios.tim [Scenarios.tess])
    as (w' & Hrun & Hs & _ & Hn & Ho & Hl).
  - intros t p. destruct p; reflexivity.
  - vm_compute. reflexivity.
  - vm_compute. reflexivity.
  - vm_compute. repeat constructor.
  - vm_compute. reflexivity.
  - exists w'. split; [exact Hrun |]. split; [exact Hs |].
    split; [| split; [exact Ho | exact Hl]].
    rewrite Hn by discriminate. vm_compute. reflexivity.
Defined.

(** ** Notifications: creation, unread count, marking *)

(** X12: [create_notification] stores the notification or nothing.  When
    it returns, the result is an unread notification with the next free
    key and the given fields, appended to the session, and the session is
    committed.  When it raises, the exception is the collaborator's, the
    session has been rolled back and the committed database is the one
    before the call. *)
Theorem create_notification_all_or_nothing E w user_email title message notification_type
    res w' :
  create_notification E user_email title message notification_type w = (res, w') ->
  match res with
  | Ret n =>
      n = Notification.mk (next_notification_id w) user_email title message
            notification_type false None
      /\ session w' = with_notifications (notifications (session w) ++ [n]) (session w)
      /\ committed w' = session w'
  | Raise e =>
      (exists p, e = Fault p)
      /\ session w' = committed w
      /\ committed w' = committed w
  end.
Proof.
  unfold create_notification, db_session_add_notification.
  rewrite run_try_except, !run_bind, run_call.
  destruct (fails E (tick w) (OpNewNotification user_email)).
  { mrun. intros [= <- <-]. wsimpl. eauto. }
  cbv beta iota. rewrite !run_bind, run_call.
  destruct (fails E (tick (record_call (OpNewNotification user_email) w)) OpSessionAdd).
  { mrun. intros [= <- <-]. wsimpl. eauto. }
  mrun. rewrite run_commit.
  match goal with |- context [fails E ?t OpCommit] => destruct (fails E t OpCommit) end.
  - mrun. intros [= <- <-]. wsimpl. eauto.
  - mrun. intros [= <- <-]. wsimpl. auto.
Qed.

Lemma create_notification_all_or_nothing_witness :
  let lost := create_notification
                (Examples.env_with (Examples.only_fails OpCommit) false)
                "avery@x" "Hello" "Welcome" "info" Examples.with_note in
  let kept := create_notification Examples.calm "avery@x" "Hello" "Welcome" "info"
                Examples.with_note in
  (lost.1 = Raise (Fault OpCommit) /\ committed lost.2 = committed Examples.with_note
   /\ session lost.2 = committed Examples.with_note)
  /\ kept.1 = Ret (Notification.mk 2 "avery@x" "Hello" "Welcome" "info" false None)
  /\ committed kept.2 = session kept.2.
Proof.
  cbv zeta. split.
  - pose proof (create_notification_all_or_nothing
                  (Examples.env_with (Examples.only_fails OpCommit) false)
                  Examples.with_note "avery@x" "Hello" "Welcome" "info"
                  (Raise (Fault OpCommit))
                  (create_notification
                     (Examples.env_with (Examples.only_fails OpCommit) false)
                     "avery@x" "Hello" "Welcome" "info" Examples.with_note).2) as H.
    cbv beta iota in H. destruct H as (_ & Hs & Hc); [vm_compute; reflexivity |].
    split; [vm_compute; reflexivity | split; assumption].
  - pose proof (create_notification_all_or_nothing Examples.calm
                  Examples.with_note "avery@x" "Hello" "Welcome" "info"
                  (Ret (Notification.mk 2 "avery@x" "Hello" "Welcome" "info" false None))
                  (create_notification Examples.calm "avery@x" "Hello" "Welcome" "info"
                     Examples.with_note).2) as H.
    cbv beta iota in H. destruct H as (_ & _ & Hc); [vm_compute; reflexivity |].
    split; [vm_compute; reflexivity | exact Hc].
Defined.

Lemma run_get_unread_count E user_email w :
  get_unread_count E user_email w
  = if fails E (tick w) OpNotificationQuery
    then (Ret 0%nat,
          with_log (log w ++ [LogError "Error getting unread count"
                                (Fault OpNotificationQuery)])
            (record_call OpNotificationQuery w))
    else (Ret (unread_of user_email (session w)), record_call OpNotificationQuery w).
Proof.
  unfold get_unread_count, Notification_query_unread_count.
  rewrite run_try_except, run_bind, run_call.
  destruct (fails E (tick w) OpNotificationQuery); mrun; reflexivity.
Qed.

(** X13: the unread count never raises and answers 0 on failure.  The
    call leaves both database views as they are; when the query goes
    through it returns the number of unread notifications of the
    recipient in the session; when the query raises it logs the error and
    returns 0, the same answer as for an empty inbox. *)
Theorem get_unread_count_answers E w user_email res w' :
  get_unread_count E user_email w = (res, w') ->
  session w' = session w
  /\ committed w' = committed w
  /\ (fails E (tick w) OpNotificationQuery = false ->
      res = Ret (unread_of user_email (session w)) /\ log w' = log w)
  /\ (fails E (tick w) OpNotificationQuery = true ->
      res = Ret 0%nat
      /\ log w' = (log w ++ [LogError "Error getting unread count"
                               (Fault OpNotificationQuery)])%list).
Proof.
  rewrite run_get_unread_count.
  destruct (fails E (tick w) OpNotificationQuery); intros [= <- <-]; wsimpl;
    repeat split; auto; discriminate.
Qed.

Lemma get_unread_count_answers_witness :
  let blind := get_unread_count
                 (Examples.env_with (Examples.only_fails OpNotificationQuery) false)
                 "tara@x" Examples.with_note in
  let seen := get_unread_count Examples.calm "tara@x" Examples.with_note in
  blind.1 = Ret 0%nat /\ seen.1 = Ret 1%nat /\ session blind.2 = session Examples.with_note.
Proof.
  cbv zeta. split; [vm_compute; reflexivity |]. split; [vm_compute; reflexivity |].
  apply (get_unread_count_answers
           (Examples.env_with (Examples.only_fails OpNotificationQuery) false)
           Examples.with_note "tara@x"
           (get_unread_count
              (Examples.env_with (Examples.only_fails OpNotificationQuery) false)
              "tara@x" Examples.with_note).1).
  vm_compute. reflexivity.
Defined.

(** [mark_as_read] when the query and the commit go through and [k] is
    the first match. *)
Lemma mark_as_read_run E w notification_id user_email k n :
  fails E (tick w) OpNotificationQuery = false ->
  fails E (S (S (tick w))) OpCommit = false ->
  list_find (fun n => Notification.id n = notification_id
                      /\ Notification.user_email n = user_email)
    (notifications (session w)) = Some (k, n) ->
  exists w',
    mark_as_read E notification_id user_email w = (Ret true, w')
    /\ notifications (session w')
       = alter (Notification.set_read_at (clock E (S (tick w))))
           k (alter (Notification.set_read true) k (notifications (session w)))
    /\ committed w' = session w'.
Proof.
  intros Hq Hc Hfind. unfold mark_as_read.
  rewrite run_try_except, run_bind, run_Notification_query_first, Hq, Hfind.
  cbn [fmap option_fmap option_map fst]. mrun. rewrite run_commit. wsimpl. rewrite Hc.
  mrun. eexists. split; [reflexivity |]. wsimpl. auto.
Qed.

(** A call that returned [True] found a first match and went through
    the query and the commit. *)
Lemma mark_as_read_returned_true E w notification_id user_email w' :
  mark_as_read E notification_id user_email w = (Ret true, w') ->
  fails E (tick w) OpNotificationQuery = false
  /\ fails E (S (S (tick w))) OpCommit = false
  /\ exists k n,
       list_find (fun n => Notification.id n = notification_id
                           /\ Notification.user_email n = user_email)
         (notifications (session w)) = Some (k, n).
Proof.
  unfold mark_as_read.
  rewrite run_try_except, run_bind, run_Notification_query_first.
  destruct (fails E (tick w) OpNotificationQuery) eqn:Hq.
  { mrun. discriminate. }
  cbv beta iota.
  destruct (list_find _ (notifications (session w))) as [[k n]|] eqn:Hfind.
  - cbn [fmap option_fmap option_map fst]. mrun. rewrite run_commit. wsimpl.
    destruct (fails E (S (S (length (journal w)))) OpCommit) eqn:Hc.
    + mrun. discriminate.
    + intros _. eauto.
  - cbn [fmap option_fmap option_map]. mrun. discriminate.
Qed.

Lemma list_alter_twice {A} (f g : A -> A) k (l : list A) :
  alter f k (alter g k l) = alter (fun x => f (g x)) k l.
Proof.
  revert k. induction l as [|x l IH]; intros [|k]; try reflexivity.
  cbn [alter list_alter]. f_equal. apply IH.
Qed.

Lemma unread_after_marking (u : string) (f : Notification.t -> Notification.t)
    (l : list Notification.t) k n :
  l !! k = Some n ->
  Notification.user_email (f n) = Notification.user_email n ->
  Notification.read (f n) = true ->
  length (filter (fun x => Notification.user_email x = u /\ Notification.read x = false) l)
  = (length (filter (fun x => Notification.user_email x = u /\ Notification.read x = false)
               (alter f k l))
     + if bool_decide (Notification.user_email n = u /\ Notification.read n = false)
       then 1 else 0)%nat.
Proof.
  intros Hk Hmail Hread. revert k Hk.
  induction l as [|x l IH]; intros [|k] Hk; try discriminate.
  - injection Hk as ->. cbn [alter list_alter]. rewrite !filter_cons.
    rewrite (decide_False (P := _ (f n) = u /\ _)) by (rewrite Hread; intros [_ H]; discriminate).
    case_bool_decide as Hn.
    + rewrite decide_True by exact Hn. simpl. lia.
    + rewrite decide_False by exact Hn. lia.
  - cbn [alter list_alter]. rewrite !filter_cons. simpl in Hk.
    specialize (IH k Hk).
    destruct (decide (Notification.user_email x = u /\ Notification.read x = false));
      simpl; lia.
Qed.

(** X14: marking lowers one unread count by at most one.  After a
    [mark_as_read] that returned [True] for the recipient [u]: the unread
    count of [u] dropped by one if the first matching notification was
    unread and is unchanged if it was already read, and the unread count of
    every other recipient is unchanged. *)
Theorem mark_as_read_lowers_unread_count E w notification_id u w' :
  mark_as_read E notification_id u w = (Ret true, w') ->
  exists k n,
    list_find (fun n => Notification.id n = notification_id /\ Notification.user_email n = u)
      (notifications (session w)) = Some (k, n)
    /\ unread_of u (session w)
       = (unread_of u (session w') + if Notification.read n then 0 else 1)%nat
    /\ forall other, other <> u -> unread_of other (session w') = unread_of other (session w).
Proof.
  intros Hrun.
  destruct (mark_as_read_returned_true E w notification_id u w' Hrun)
    as (Hq & Hc & k & n & Hfind).
  destruct (mark_as_read_run E w notification_id u k n Hq Hc Hfind) as (w'' & Hrun' & Hn & _).
  rewrite Hrun' in Hrun. injection Hrun as <-.
  exists k, n. split; [exact Hfind |].
  apply list_find_Some in Hfind as (Hk & [_ Hmail] & _).
  rewrite list_alter_twice in Hn.
  unfold unread_of. rewrite Hn. split.
  - rewrite (unread_after_marking u
               (fun x => Notification.set_read_at (clock E (S (tick w)))
                           (Notification.set_read true x))
               (notifications (session w)) k n Hk eq_refl eq_refl).
    f_equal. destruct (Notification.read n) eqn:Hr.
    + rewrite bool_decide_eq_false_2; [reflexivity | intros [_ H]; discriminate].
    + rewrite bool_decide_eq_true_2; [reflexivity | auto].
  - intros other Hne.
    rewrite (unread_after_marking other
               (fun x => Notification.set_read_at (clock E (S (tick w)))
                           (Notification.set_read true x))
               (notifications (session w)) k n Hk eq_refl eq_refl).
    rewrite bool_decide_eq_false_2 by (intros [H _]; congruence). lia.
Qed.

Lemma mark_as_read_lowers_unread_count_witness :
  let run := mark_as_read Examples.calm 1 "tara@x" Examples.with_note in
  unread_of "tara@x" (session Examples.with_note) = 1%nat
  /\ unread_of "tara@x" (session run.2) = 0%nat
  /\ exists k n,
       list_find (fun n => Notification.id n = 1 /\ Notification.user_email n = "tara@x")
         (notifications (session Examples.with_note)) = Some (k, n)
       /\ unread_of "tara@x" (session Examples.with_note)
          = (unread_of "tara@x" (session run.2) + if Notification.read n then 0 else 1)%nat
       /\ forall other, other <> "tara@x" ->
            unread_of other (session run.2) = unread_of other (session Examples.with_note).
Proof.
  cbv zeta. split; [vm_compute; reflexivity |]. split; [vm_compute; reflexivity |].
  apply (mark_as_read_lowers_unread_count Examples.calm Examples.with_note 1 "tara@x").
  vm_compute. reflexivity.
Defined.

(** X15: marking again restamps.  [mark_as_read] does not look at the
    [read] flag: on a notification that is already read, when the query
    and the commit go through, it returns [True] again and [read_at] is
    overwritten with the time of this call. *)
Theorem mark_as_read_again_restamps E w notification_id user_email k n :
  fails E (tick w) OpNotificationQuery = false ->
  fails E (S (S (tick w))) OpCommit = false ->
  list_find (fun n => Notification.id n = notification_id
                      /\ Notification.user_email n = user_email)
    (notifications (session w)) = Some (k, n) ->
  Notification.read n = true ->
  exists w',
    mark_as_read E notification_id user_email w = (Ret true, w')
    /\ notifications (committed w') !! k
       = Some (Notification.set_read_at (clock E (S (tick w))) n).
Proof.
  intros Hq Hc Hfind Hread.
  destruct (mark_as_read_run E w notification_id user_email k n Hq Hc Hfind)
    as (w' & Hrun & Hn & Hsync).
  exists w'. split; [exact Hrun |].
  apply list_find_Some in Hfind as (Hk & _ & _).
  rewrite Hsync, Hn, !list_lookup_alter_eq, Hk. simpl. f_equal.
  destruct n as [i u t m ty rd ra]. simpl in Hread. subst rd. reflexivity.
Qed.

Lemma mark_as_read_again_restamps_witness :
  exists w',
    mark_as_read Examples.calm 7 "tara@x" Scenarios.with_read_note = (Ret true, w')
    /\ notifications (committed w') !! 0%nat
       = Some (Notification.set_read_at 1700000001 Scenarios.read_note).
Proof.
  apply (mark_as_read_again_restamps Examples.calm Scenarios.with_read_note 7 "tara@x"
           0%nat Scenarios.read_note).
  - reflexivity.
  - reflexivity.
  - vm_compute. reflexivity.
  - reflexivity.
Defined.

(** ** Who sees which reports *)

Lemma run_Report_query_all E w :
  Report_query_all E w
  = if fails E (tick w) OpReportQuery
    then (Raise (Fault OpReportQuery), record_call OpReportQuery w)
    else (Ret (map_to_list (reports (session w))).*2, record_call OpReportQuery w).
Proof.
  unfold Report_query_all. rewrite run_bind, run_call.
  destruct (fails E (tick w) OpReportQuery); reflexivity.
Qed.

Lemma run_Report_query_filter_by_user_email E e w :
  Report_query_filter_by_user_email E e w
  = if fails E (tick w) OpReportQuery
    then (Raise (Fault OpReportQuery), record_call OpReportQuery w)
    else (Ret (filter (fun r => Report.user_email r = e)
                 (map_to_list (reports (session w))).*2),
          record_call OpReportQuery w).
Proof.
  unfold Report_query_filter_by_user_email. rewrite run_bind, run_call.
  destruct (fails E (tick w) OpReportQuery); reflexivity.
Qed.

Lemma elem_of_stored_reports (m : gmap string Report.t) (r : Report.t) :
  r ∈ (map_to_list m).*2 <-> exists key, m !! key = Some r.
Proof.
  rewrite list_elem_of_fmap. split.
  - intros ([key r'] & -> & Hin). exists key. apply elem_of_map_to_list, Hin.
  - intros [key Hkey]. exists (key, r). split; [reflexivity |].
    apply elem_of_map_to_list, Hkey.
Qed.

Lemma sees_all_reports_dec role :
  (String.eqb role "Admin"
   || bool_decide (role ∈ ["TM"; "Technical Manager"; "PM"; "Project Manager"])) = true
  <-> sees_all_reports role.
Proof.
  unfold sees_all_reports. rewrite orb_true_iff, String.eqb_eq, bool_decide_eq_true.
  rewrite !elem_of_cons. tauto.
Qed.

(** X16: who sees which reports.  When [get_user_reports] returns a
    list: for the roles Admin, TM, Technical Manager, PM and Project
    Manager the list holds exactly the reports of the session; for every
    other role string (Engineer, but also Tech Manager or Automation
    Manager) it holds exactly the reports of the session owned by the
    caller's e-mail.  The call changes neither database view. *)
Theorem get_user_reports_visibility E w user_email role found w' :
  get_user_reports E user_email role w = (Ret found, w') ->
  session w' = session w
  /\ committed w' = committed w
  /\ forall r,
       r ∈ found <->
       (exists key, reports (session w) !! key = Some r)
       /\ (sees_all_reports role \/ Report.user_email r = user_email).
Proof.
  unfold get_user_reports. rewrite run_try_except.
  pose proof (sees_all_reports_dec role) as Hdec.
  destruct (String.eqb role "Admin") eqn:Hadmin.
  - rewrite run_Report_query_all. destruct (fails E (tick w) OpReportQuery).
    + mrun. discriminate.
    + intros [= <- <-]. split; [reflexivity | split; [reflexivity |]].
      intros r. rewrite elem_of_stored_reports. split.
      * intros Hin. split; [exact Hin |]. left. apply Hdec. reflexivity.
      * intros [Hin _]. exact Hin.
  - destruct (bool_decide (role ∈ ["TM"; "Technical Manager"; "PM"; "Project Manager"]))
      eqn:Hmgr.
    + rewrite run_Report_query_all. destruct (fails E (tick w) OpReportQuery).
      * mrun. discriminate.
      * intros [= <- <-]. split; [reflexivity | split; [reflexivity |]].
        intros r. rewrite elem_of_stored_reports. split.
        -- intros Hin. split; [exact Hin |]. left. apply Hdec. reflexivity.
        -- intros [Hin _]. exact Hin.
    + rewrite run_Report_query_filter_by_user_email.
      destruct (fails E (tick w) OpReportQuery).
      * mrun. discriminate.
      * intros [= <- <-]. split; [reflexivity | split; [reflexivity |]].
        intros r. rewrite list_elem_of_filter, elem_of_stored_reports.
        split.
        -- intros [Hown Hin]. auto.
        -- intros [Hin [Hall | Hown]]; [| auto].
           apply Hdec in Hall. discriminate.
Qed.

Lemma get_user_reports_visibility_witness :
  let run := get_user_reports Examples.calm "avery@x" "Automation Manager"
               Examples.with_pending in
  run.1 = Ret []
  /\ forall r,
       r ∈ ([] : list Report.t) <->
       (exists key, reports (session Examples.with_pending) !! key = Some r)
       /\ (sees_all_reports "Automation Manager" \/ Report.user_email r = "avery@x").
Proof.
  cbv zeta. split; [vm_compute; reflexivity |].
  apply (get_user_reports_visibility Examples.calm Examples.with_pending "avery@x"
           "Automation Manager" []
           (get_user_reports Examples.calm "avery@x" "Automation Manager"
              Examples.with_pending).2).
  vm_compute. reflexivity.
Defined.

(** ** The role groups *)

Lemma group_user_lookup acc u g :
  group_user acc u !! g
  = if decide (role_group (User.role u) = Some g)
    then (fun l => (l ++ [mkUserData (User.full_name u) (User.email u)])%list) <$> acc !! g
    else acc !! g.
Proof.
  unfold group_user, role_group, dict_append.
  destruct (String.eqb (User.role u) "Admin");
    [| destruct (String.eqb (User.role u) "Engineer");
       [| destruct (bool_decide (User.role u ∈ _));
          [| destruct (bool_decide (User.role u ∈ _))]]];
    rewrite ?lookup_alter;
    repeat case_decide; simplify_eq; reflexivity.
Qed.

Lemma foldl_group_user_lookup users : forall acc g,
  foldl group_user acc users !! g
  = (fun l => (l ++ ((fun u => mkUserData (User.full_name u) (User.email u))
                       <$> filter (fun u => role_group (User.role u) = Some g) users))%list)
      <$> acc !! g.
Proof.
  induction users as [|u users IH]; intros acc g.
  - cbn [foldl filter list_filter fmap list_fmap].
    destruct (acc !! g); simpl; [rewrite app_nil_r |]; reflexivity.
  - cbn [foldl]. rewrite IH, group_user_lookup, filter_cons.
    destruct (decide (role_group (User.role u) = Some g)).
    + destruct (acc !! g); simpl; [| reflexivity]. rewrite <- app_assoc. reflexivity.
    + reflexivity.
Qed.

Lemma users_by_role_empty_lookup g :
  users_by_role_empty !! g
  = if bool_decide (g ∈ ["Admin"; "Engineer"; "TM"; "PM"]) then Some [] else None.
Proof.
  unfold users_by_role_empty.
  rewrite !lookup_insert, lookup_empty.
  case_bool_decide as Hg.
  - repeat case_decide; try reflexivity.
    exfalso. apply list_elem_of_In in Hg. simpl in Hg. intuition congruence.
  - repeat case_decide; try reflexivity; exfalso; apply Hg; subst;
      apply list_elem_of_In; simpl; auto.
Qed.

(** X17: the four role groups.  When [get_users_by_role] returns, the
    dict has exactly the keys Admin, Engineer, TM and PM, and under each
    key the name and e-mail of the Active users whose role string is filed
    under that key, in the order of the user table: an inactive user, or
    a user with any other role string, is in no group, and nobody is in
    two. *)
Theorem get_users_by_role_groups E w groups w' :
  get_users_by_role E w = (Ret groups, w') ->
  forall g,
    groups !! g
    = if bool_decide (g ∈ ["Admin"; "Engineer"; "TM"; "PM"])
      then Some ((fun u => mkUserData (User.full_name u) (User.email u))
                   <$> filter (fun u => role_group (User.role u) = Some g)
                         (filter (fun u => User.status u = "Active") (users (session w))))
      else None.
Proof.
  unfold get_users_by_role, User_query_active.
  rewrite run_try_except, !run_bind, run_call.
  destruct (fails E (tick w) OpUserQuery).
  { mrun. discriminate. }
  mrun. intros [= <- <-] g. wsimpl.
  rewrite foldl_group_user_lookup, users_by_role_empty_lookup.
  destruct (bool_decide (g ∈ ["Admin"; "Engineer"; "TM"; "PM"])); reflexivity.
Qed.

Lemma get_users_by_role_groups_witness :
  match (get_users_by_role Examples.calm Scenarios.with_three_approvers).1 with
  | Ret groups =>
      groups !! "TM" = Some [mkUserData "Tara Mills" "tara@x"; mkUserData "Tim Moor" "tim@x";
                             mkUserData "Tess Muir" "tess@x"]
      /\ groups !! "PM" = Some [mkUserData "Paula Marsh" "paula@x"]
      /\ groups !! "Admin" = Some []
      /\ groups !! "Technical Manager" = None
  | Raise _ => False
  end.
Proof.
  pose proof (get_users_by_role_groups Examples.calm Scenarios.with_three_approvers) as H.
  destruct (get_users_by_role Examples.calm Scenarios.with_three_approvers)
    as [[groups|e] w'] eqn:Hrun; cbn [fst].
  - rewrite !(H groups w' eq_refl). vm_compute. repeat split.
  - vm_compute in Hrun. discriminate.
Defined.

(** ** [create_report]: failure and the SAT companion *)

(** X18: a failed [create_report] stores nothing.  Whatever raises
    during the call (a constructor, the JSON encoder on a field set it
    cannot encode, [session.add], the commit): the exception is passed on
    after a rollback, the committed database is the one before the call
    and the session holds nothing more than it. *)
Theorem create_report_failure_stores_nothing E w data user_email e w' :
  create_report E data user_email w = (Raise e, w') ->
  committed w' = committed w
  /\ session w' = committed w
  /\ log w' = (log w ++ [LogError "Error creating report" e])%list.
Proof.
  unfold create_report, new_uuid4, db_session_add_sat_report, db_session_add_report,
    json_dumps_py.
  rewrite run_try_except, run_bind. cbv beta iota. rewrite run_bind.
  create_report_step E.
  { intros [= <- <-]. wsimpl. auto. }
  cbn [Report.type].
  destruct (py_eq_str (dict_get_default data "type" (PyStr "SAT")) "SAT").
  - destruct (json_dumps (float_repr E) (PyDict data)) as [j|].
    2: { mrun. intros [= <- <-]. wsimpl. auto. }
    mrun. create_report_step E.
    { intros [= <- <-]. wsimpl. auto. }
    create_report_step E.
    { intros [= <- <-]. wsimpl. auto. }
    create_report_step E.
    { intros [= <- <-]. wsimpl. auto. }
    create_report_step E.
    { intros [= <- <-]. wsimpl. auto. }
    discriminate.
  - mrun. create_report_step E.
    { intros [= <- <-]. wsimpl. auto. }
    create_report_step E.
    { intros [= <- <-]. wsimpl. auto. }
    discriminate.
Qed.

Lemma create_report_failure_stores_nothing_witness :
  let unencodable := [("document_title", PyStr "Pump SAT"); ("attachment", PyObject 1)] in
  let run := create_report Examples.calm unencodable "erin@x" Examples.with_note in
  run.1 = Raise TypeError
  /\ committed run.2 = committed Examples.with_note
  /\ session run.2 = committed Examples.with_note
  /\ log run.2 = [LogError "Error creating report" TypeError].
Proof.
  cbv zeta. split; [vm_compute; reflexivity |].
  apply (create_report_failure_stores_nothing Examples.calm Examples.with_note
           [("document_title", PyStr "Pump SAT"); ("attachment", PyObject 1)] "erin@x"
           TypeError).
  vm_compute. reflexivity.
Defined.

(** X19: what a successful [create_report] stores.  When the call
    returns a report: its key is the identifier drawn at the start of the
    call, it is a DRAFT, version R0, owned by the caller, with its flag
    down, whatever the field set says about these; it is stored under its
    key, every other report is as the session had it, and the session is
    committed.  Exactly when its type is 'SAT' (also when the field set
    names no type), one SAT record is appended, holding the JSON text of
    the whole field set; otherwise none. *)
Theorem create_report_stores E w data user_email report w' :
  create_report E data user_email w = (Ret report, w') ->
  Report.id report = uuid4 E (tick w)
  /\ Report.status report = "DRAFT"
  /\ Report.version report = "R0"
  /\ Report.user_email report = user_email
  /\ Report.approval_notification_sent report = false
  /\ Report.type report = dict_get_default data "type" (PyStr "SAT")
  /\ committed w' = session w'
  /\ reports (session w') !! Report.id report = Some report
  /\ (forall other, other <> Report.id report ->
        reports (session w') !! other = reports (session w) !! other)
  /\ if py_eq_str (Report.type report) "SAT"
     then exists data_json,
            json_dumps (float_repr E) (PyDict data) = Some data_json
            /\ sat_reports (session w')
               = (sat_reports (session w)
                  ++ [SATReport.mk (Report.id report) data_json (dict_get data "date")
                        (dict_get data "purpose") (dict_get data "scope")])%list
     else sat_reports (session w') = sat_reports (session w).
Proof.
  unfold create_report, new_uuid4, db_session_add_sat_report, db_session_add_report,
    json_dumps_py.
  rewrite run_try_except, run_bind. cbv beta iota. rewrite run_bind.
  create_report_step E; [discriminate |].
  cbn [Report.type].
  destruct (py_eq_str (dict_get_default data "type" (PyStr "SAT")) "SAT") eqn:Hsat.
  - destruct (json_dumps (float_repr E) (PyDict data)) as [j|] eqn:Hj.
    2: { mrun. discriminate. }
    mrun. create_report_step E; [discriminate |].
    create_report_step E; [discriminate |].
    create_report_step E; [discriminate |].
    create_report_step E; [discriminate |].
    intros [= <- <-]. cbn [Report.id Report.status Report.version Report.user_email
                            Report.approval_notification_sent Report.type]. wsimpl.
    rewrite Hsat. repeat split; auto.
    + apply lookup_insert_eq.
    + intros other Hne. apply lookup_insert_ne. congruence.
    + eauto.
  - mrun. create_report_step E; [discriminate |].
    create_report_step E; [discriminate |].
    intros [= <- <-]. cbn [Report.id Report.status Report.version Report.user_email
                            Report.approval_notification_sent Report.type]. wsimpl.
    rewrite Hsat. repeat split; auto.
    + apply lookup_insert_eq.
    + intros other Hne. apply lookup_insert_ne. congruence.
Qed.

Lemma create_report_stores_witness :
  let data := [("type", PyStr "FDS"); ("status", PyStr "APPROVED");
               ("document_title", PyStr "Valve FDS")] in
  match create_report Examples.calm data "erin@x" Examples.with_note with
  | (Ret report, w') =>
      Report.status report = "DRAFT"
      /\ Report.user_email report = "erin@x"
      /\ reports (session w') !! Report.id report = Some report
      /\ committed w' = session w'
      /\ sat_reports (session w') = []
  | (Raise _, _) => False
  end.
Proof.
  cbv zeta.
  pose proof (create_report_stores Examples.calm Examples.with_note
                [("type", PyStr "FDS"); ("status", PyStr "APPROVED");
                 ("document_title", PyStr "Valve FDS")] "erin@x") as H.
  destruct (create_report Examples.calm _ "erin@x" Examples.with_note)
    as [[report|e] w'] eqn:Hrun.
  - destruct (H report w' eq_refl) as (_ & Hst & _ & Hu & _ & Hty & Hc & Hr & _ & Hsat).
    rewrite Hty in Hsat. cbn in Hsat. auto.
  - vm_compute in Hrun. discriminate.
Defined.

(** ** The bulk job: tallies, the final commit, the progress reports *)

Section BulkLoop.
Variable E : env.
Variable bad : string -> bool.
(** In the loop only constructions fail, and exactly those for [bad]
    recipients. *)
Hypothesis Hloop : forall t p,
  p <> OpCommit ->
  fails E t p = match p with
                | OpNewNotification e => bad e
                | _ => false
                end.
Variables title message notification_type : string.

Lemma bulk_loop_tally total emails :
  forall i w l,
  exists w',
    bulk_loop E title message notification_type total i emails (w, l)
    = (Ret tt,
       (w', mkBulkLocals
              (sent_count l + length (filter (fun e => bad e = false) emails))
              (failed_count l + length (filter (fun e => bad e = true) emails))))
    /\ committed w' = committed w
    /\ users (session w') = users (session w)
    /\ reports (session w') = reports (session w)
    /\ sat_reports (session w') = sat_reports (session w)
    /\ notifications (session w')
       = (notifications (session w)
          ++ new_notifications (next_notification_id w) title message notification_type
               (filter (fun e => bad e = false) emails))%list
    /\ log w' = (log w ++ bulk_failures (filter (fun e => bad e = true) emails))%list
    /\ outbox w' = outbox w.
Proof.
  induction emails as [|email rest IH]; intros i w l.
  - exists w. cbn [bulk_loop filter list_filter length new_notifications bulk_failures
                   fmap list_fmap].
    rewrite run_ret, !Nat.add_0_r, !app_nil_r. destruct l. repeat split; reflexivity.
  - cbn [bulk_loop]. rewrite run_bind, run_try_except, run_bind, run_in_world.
    rewrite run_call, Hloop by discriminate.
    destruct (bad email) eqn:Hbad.
    + cbv beta iota zeta.
      rewrite run_bind, run_in_world, run_logger_error. cbv beta iota zeta.
      rewrite run_set_locals. cbv beta iota.
      match goal with
      | |- context [bulk_loop _ _ _ _ _ _ _ (?w1, ?l1)] =>
          destruct (IH (S i) w1 l1) as (w' & Hrun & Hc & Hu & Hr & Hs & Hn & Hl & Ho)
      end.
      exists w'. rewrite Hrun, Hc, Hu, Hr, Hs, Hn, Hl, Ho.
      rewrite !filter_cons, decide_False by (rewrite Hbad; discriminate).
      rewrite decide_True by exact Hbad.
      cbn [length bulk_failures fmap list_fmap sent_count failed_count]. wsimpl.
      rewrite <- app_assoc. cbn [app].
      repeat split; try reflexivity. do 3 f_equal. lia.
    + cbv beta iota zeta.
      rewrite run_bind, run_in_world.
      unfold db_session_add_notification.
      rewrite run_bind, run_call, Hloop by discriminate. cbv beta iota zeta.
      mrun. rewrite run_set_locals. cbv beta iota.
      rewrite run_in_world. unfold update_state.
      rewrite run_bind, run_call, Hloop by discriminate. mrun.
      match goal with
      | |- context [bulk_loop _ _ _ _ _ _ _ (?w1, ?l1)] =>
          destruct (IH (S i) w1 l1) as (w' & Hrun & Hc & Hu & Hr & Hs & Hn & Hl & Ho)
      end.
      exists w'. rewrite Hrun, Hc, Hu, Hr, Hs, Hn, Hl, Ho.
      rewrite !filter_cons, decide_True by exact Hbad.
      rewrite decide_False by (rewrite Hbad; discriminate).
      cbn [length new_notifications sent_count failed_count]. wsimpl.
      rewrite <- app_assoc. cbn [app]. unfold Notification.set_id. cbn.
      repeat split; try reflexivity. do 3 f_equal. lia.
Qed.

End BulkLoop.

Lemma filter_partition_length (bad : string -> bool) (l : list string) :
  (length (filter (fun e => bad e = false) l) + length (filter (fun e => bad e = true) l)
   = length l)%nat.
Proof.
  induction l as [|x l IH]; [reflexivity |].
  rewrite !filter_cons. destruct (bad x); simpl; lia.
Qed.

(** X20: the tallies add up when only constructions fail.  For every
    list of recipients (repeated ones included) and every set [bad] of
    recipients whose record construction raises, nothing else failing:
    the job succeeds with sent = the number of recipients not in [bad],
    failed = the number in [bad], and sent + failed = total; one line is
    logged per failure; and the committed notifications are the earlier
    ones followed by one for each good recipient, in the order of the
    list. *)
Theorem bulk_notification_tallies E bad w user_emails title message notification_type :
  constructor_faults E bad ->
  let good := filter (fun e => bad e = false) user_emails in
  let failed := filter (fun e => bad e = true) user_emails in
  exists timestamp w',
    bulk_notification_async E user_emails title message notification_type w
    = (Ret (BulkSuccess (length good) (length failed) (length user_emails) timestamp), w')
    /\ (length good + length failed = length user_emails)%nat
    /\ notifications (committed w')
       = (notifications (session w)
          ++ new_notifications (next_notification_id w) title message notification_type good)%list
    /\ log w' = (log w ++ bulk_failures failed)%list.
Proof.
  intros Hfaults good failed.
  assert (Hloop : forall t p, p <> OpCommit ->
            fails E t p = match p with OpNewNotification e => bad e | _ => false end)
    by (intros t p _; apply Hfaults).
  unfold bulk_notification_async.
  rewrite run_try_except, run_bind. unfold update_state at 1.
  rewrite run_bind, run_call, Hfaults. mrun.
  rewrite run_call, Hfaults. mrun.
  unfold with_locals. rewrite run_bind.
  match goal with
  | |- context [bulk_loop E ?t ?m ?k ?n ?i ?l (?w1, ?l1)] =>
      destruct (bulk_loop_tally E bad Hloop t m k n l i w1 l1)
        as (w2 & Hrun & Hc & Hu & Hr & Hs & Hn & Hl & Ho)
  end.
  rewrite Hrun. cbv beta iota. rewrite run_in_world, run_commit, Hfaults. mrun.
  cbn [sent_count failed_count]. rewrite !Nat.add_0_l.
  do 2 eexists. split; [reflexivity |]. split; [apply filter_partition_length |].
  wsimpl. rewrite Hn, Hl. wsimpl. split; reflexivity.
Qed.

Lemma bulk_notification_tallies_witness :
  let E := Examples.env_with (Examples.only_fails (OpNewNotification "b@x")) false in
  exists timestamp w',
    bulk_notification_async E ["b@x"; "a@x"; "b@x"; "a@x"] "Notice" "Plant shutdown" "info"
      Examples.empty_world
    = (Ret (BulkSuccess 2 2 4 timestamp), w')
    /\ Notification.user_email <$> notifications (committed w') = ["a@x"; "a@x"].
Proof.
  cbv zeta.
  destruct (bulk_notification_tallies
              (Examples.env_with (Examples.only_fails (OpNewNotification "b@x")) false)
              (Scenarios.construction_fails_for "b@x")
              Examples.empty_world ["b@x"; "a@x"; "b@x"; "a@x"] "Notice" "Plant shutdown" "info")
    as (ts & w' & Hrun & _ & Hn & _).
  - intros t p. destruct p; reflexivity.
  - exists ts, w'. split; [exact Hrun |]. rewrite Hn. vm_compute. reflexivity.
Defined.

(** X21: the final commit fails.  When, besides constructions for the
    recipients in [bad], every commit raises: the job does not raise but
    ends with the "failed" result carrying the commit's exception; nothing
    is committed, however many recipients were tallied as sent; and the
    log holds one line per failed construction followed by the line of
    the job's own handler. *)
Theorem bulk_notification_commit_failure E bad w user_emails title message notification_type :
  (forall t p,
     fails E t p = match p with
                   | OpNewNotification e => bad e
                   | OpCommit => true
                   | _ => false
                   end) ->
  exists timestamp w',
    bulk_notification_async E user_emails title message notification_type w
    = (Ret (TaskFailed (Fault OpCommit) timestamp), w')
    /\ committed w' = committed w
    /\ log w'
       = (log w ++ bulk_failures (filter (fun e => bad e = true) user_emails)
          ++ [LogError "Error sending bulk notifications" (Fault OpCommit)])%list.
Proof.
  intros Hfaults.
  assert (Hloop : forall t p, p <> OpCommit ->
            fails E t p = match p with OpNewNotification e => bad e | _ => false end).
  { intros t p Hp. rewrite Hfaults. destruct p; try reflexivity. contradiction. }
  unfold bulk_notification_async.
  rewrite run_try_except, run_bind. unfold update_state at 1.
  rewrite run_bind, run_call, Hfaults. mrun.
  rewrite run_call, Hfaults. mrun.
  unfold with_locals. rewrite run_bind.
  match goal with
  | |- context [bulk_loop E ?t ?m ?k ?n ?i ?l (?w1, ?l1)] =>
      destruct (bulk_loop_tally E bad Hloop t m k n l i w1 l1)
        as (w2 & Hrun & Hc & Hu & Hr & Hs & Hn & Hl & Ho)
  end.
  rewrite Hrun. cbv beta iota. rewrite run_in_world, run_commit, Hfaults. mrun.
  do 2 eexists. split; [reflexivity |].
  wsimpl. rewrite Hc, Hl. wsimpl. rewrite <- app_assoc. repeat split; reflexivity.
Qed.

Lemma bulk_notification_commit_failure_witness :
  let E := Examples.env_with (Examples.only_fails OpCommit) false in
  exists timestamp w',
    bulk_notification_async E ["a@x"; "c@x"] "Notice" "Plant shutdown" "info"
      Examples.empty_world
    = (Ret (TaskFailed (Fault OpCommit) timestamp), w')
    /\ committed w' = committed Examples.empty_world
    /\ log w' = [LogError "Error sending bulk notifications" (Fault OpCommit)].
Proof.
  cbv zeta.
  destruct (bulk_notification_commit_failure
              (Examples.env_with (Examples.only_fails OpCommit) false)
              (fun _ => false)
              Examples.empty_world ["a@x"; "c@x"] "Notice" "Plant shutdown" "info")
    as (ts & w' & Hrun & Hc & Hl).
  - intros t p. destruct p; reflexivity.
  - exists ts, w'. split; [exact Hrun |]. split; [exact Hc |]. exact Hl.
Defined.

Section ProgressFails.
Variable E : env.
Variable t0 : nat.
(** Every progress report raises, except a call at position [t0]; no
    other call raises. *)
Hypothesis Hprogress : forall t p,
  fails E t p = bool_decide (p = OpUpdateState) && negb (Nat.eqb t t0).
Variables title message notification_type : string.

Lemma bulk_loop_progress_fails total emails :
  forall i w l,
  (t0 < tick w)%nat ->
  exists w',
    bulk_loop E title message notification_type total i emails (w, l)
    = (Ret tt,
       (w', mkBulkLocals (sent_count l + length emails) (failed_count l + length emails)))
    /\ (t0 < tick w')%nat
    /\ committed w' = committed w
    /\ notifications (session w')
       = (notifications (session w)
          ++ new_notifications (next_notification_id w) title message notification_type
               emails)%list
    /\ log w'
       = (log w
          ++ ((fun e => LogError ("Failed to create notification for " +:+ e)
                          (Fault OpUpdateState)) <$> emails))%list.
Proof.
  induction emails as [|email rest IH]; intros i w l Ht.
  - exists w. cbn [bulk_loop length new_notifications fmap list_fmap].
    rewrite run_ret, !Nat.add_0_r, !app_nil_r. destruct l. repeat split; auto.
  - cbn [bulk_loop]. rewrite run_bind, run_try_except, run_bind, run_in_world.
    rewrite run_call, Hprogress. cbn [bool_decide decide_rel andb]. cbv beta iota zeta.
    rewrite bool_decide_eq_false_2 by discriminate. cbv beta iota zeta. cbn [andb].
    rewrite run_bind, run_in_world. unfold db_session_add_notification.
    rewrite run_bind, run_call, Hprogress.
    rewrite bool_decide_eq_false_2 by discriminate. cbn [andb]. mrun.
    rewrite run_set_locals. cbv beta iota.
    rewrite run_in_world. unfold update_state.
    rewrite run_bind, run_call, Hprogress.
    rewrite bool_decide_eq_true_2 by reflexivity. cbn [andb].
    replace (Nat.eqb _ t0) with false
      by (symmetry; apply Nat.eqb_neq; unfold tick in *; wsimpl; lia).
    cbn [negb]. mrun.
    rewrite run_in_world, run_logger_error. cbv beta iota zeta.
    rewrite run_set_locals. cbv beta iota.
    match goal with
    | |- context [bulk_loop _ _ _ _ _ _ _ (?w1, ?l1)] =>
        destruct (IH (S i) w1 l1) as (w' & Hrun & Ht' & Hc & Hn & Hl);
          [unfold tick in *; wsimpl; lia |]
    end.
    exists w'. rewrite Hrun, Hc, Hn, Hl. split.
    + cbn [length sent_count failed_count]. do 3 f_equal; lia.
    + split; [exact Ht' |]. wsimpl.
      cbn [new_notifications fmap list_fmap]. rewrite <- !app_assoc. cbn [app].
      unfold Notification.set_id. cbn. repeat split; reflexivity.
Qed.

End ProgressFails.

(** X22: a failing progress report counts the recipient twice.  When
    every [update_state] call after the first one raises and nothing else
    does: each recipient's notification is created and committed, yet
    each recipient is tallied both as sent and as failed, so the job
    reports sent = failed = total. *)
Theorem bulk_notification_progress_failure E w user_emails title message notification_type :
  (forall t p, fails E t p = bool_decide (p = OpUpdateState) && negb (Nat.eqb t (tick w))) ->
  exists timestamp w',
    bulk_notification_async E user_emails title message notification_type w
    = (Ret (BulkSuccess (length user_emails) (length user_emails) (length user_emails)
              timestamp), w')
    /\ notifications (committed w')
       = (notifications (session w)
          ++ new_notifications (next_notification_id w) title message notification_type
               user_emails)%list
    /\ log w'
       = (log w
          ++ ((fun e => LogError ("Failed to create notification for " +:+ e)
                          (Fault OpUpdateState)) <$> user_emails))%list.
Proof.
  intros Hfaults.
  unfold bulk_notification_async.
  rewrite run_try_except, run_bind. unfold update_state at 1.
  rewrite run_bind, run_call, Hfaults, Nat.eqb_refl, andb_false_r. mrun.
  rewrite run_call, Hfaults, bool_decide_eq_false_2 by discriminate. cbn [andb]. mrun.
  unfold with_locals. rewrite run_bind.
  match goal with
  | |- context [bulk_loop E ?t ?m ?k ?n ?i ?l (?w1, ?l1)] =>
      destruct (bulk_loop_progress_fails E (length (journal w)) Hfaults t m k n l i w1 l1)
        as (w2 & Hrun & Ht & Hc & Hn & Hl); [unfold tick; wsimpl; lia |]
  end.
  rewrite Hrun. cbv beta iota. rewrite run_in_world, run_commit, Hfaults.
  rewrite bool_decide_eq_false_2 by discriminate. cbn [andb]. mrun.
  cbn [sent_count failed_count]. rewrite !Nat.add_0_l.
  do 2 eexists. split; [reflexivity |].
  wsimpl. rewrite Hn, Hl. wsimpl. split; reflexivity.
Qed.

Lemma bulk_notification_progress_failure_witness :
  let E := Examples.env_with
             (fun t p => bool_decide (p = OpUpdateState) && negb (Nat.eqb t 0)) false in
  exists timestamp w',
    bulk_notification_async E ["a@x"; "c@x"] "Notice" "Plant shutdown" "info"
      Examples.empty_world
    = (Ret (BulkSuccess 2 2 2 timestamp), w')
    /\ Notification.user_email <$> notifications (committed w') = ["a@x"; "c@x"].
Proof.
  cbv zeta.
  destruct (bulk_notification_progress_failure
              (Examples.env_with
                 (fun t p => bool_decide (p = OpUpdateState) && negb (Nat.eqb t 0)) false)
              Examples.empty_world ["a@x"; "c@x"] "Notice" "Plant shutdown" "info")
    as (ts & w' & Hrun & Hn & _).
  - intros t p. reflexivity.
  - exists ts, w'. split; [exact Hrun |]. rewrite Hn. vm_compute. reflexivity.
Defined.

(** ** The engineer's dashboard numbers *)

Lemma sum_1_status_le (l : list Report.t) :
  (sum_1_status "PENDING" l + sum_1_status "APPROVED" l + sum_1_status "DRAFT" l
   <= length l)%nat.
Proof.
  induction l as [|r l IH]; [reflexivity |].
  cbn [sum_1_status length].
  destruct (String.eqb (Report.status r) "PENDING") eqn:Hp.
  - apply String.eqb_eq in Hp. rewrite Hp. cbn. lia.
  - destruct (String.eqb (Report.status r) "APPROVED") eqn:Ha.
    + apply String.eqb_eq in Ha. rewrite Ha. cbn. lia.
    + destruct (String.eqb (Report.status r) "DRAFT"); lia.
Qed.

Lemma sum_1_status_all (l : list Report.t) :
  Forall (fun r => Report.status r ∈ ["PENDING"; "APPROVED"; "DRAFT"]) l ->
  (sum_1_status "PENDING" l + sum_1_status "APPROVED" l + sum_1_status "DRAFT" l
   = length l)%nat.
Proof.
  induction 1 as [|r l Hr _ IH]; [reflexivity |].
  cbn [sum_1_status length].
  apply list_elem_of_In in Hr. simpl in Hr.
  destruct Hr as [<- | [<- | [<- | []]]]; cbn; lia.
Qed.

(** X23: the engineer's numbers.  [get_engineer_stats] never raises and
    changes neither database view.  When the query goes through,
    [total_reports] is the number of reports the caller owns, and the
    pending, approved and draft counts are disjoint: together they never
    exceed the total, and they add up to it when every owned report has
    one of these three statuses (a report in any other status, such as
    REJECTED, is in the total only).  When the query raises, all four
    numbers are 0. *)
Theorem get_engineer_stats_adds_up E w user_email res w' :
  get_engineer_stats E user_email w = (res, w') ->
  let own := filter (fun r => Report.user_email r = user_email)
               (map_to_list (reports (session w))).*2 in
  session w' = session w
  /\ committed w' = committed w
  /\ exists stats,
       res = Ret stats
       /\ (pending_reports stats + approved_reports stats + draft_reports stats
           <= total_reports stats)%nat
       /\ (fails E (tick w) OpReportQuery = false ->
           total_reports stats = length own
           /\ (Forall (fun r => Report.status r ∈ ["PENDING"; "APPROVED"; "DRAFT"]) own ->
               (pending_reports stats + approved_reports stats + draft_reports stats
                = total_reports stats)%nat))
       /\ (fails E (tick w) OpReportQuery = true -> stats = mkEngineerStats 0 0 0 0).
Proof.
  unfold get_engineer_stats.
  rewrite run_try_except, run_bind, run_Report_query_filter_by_user_email.
  destruct (fails E (tick w) OpReportQuery).
  - mrun. intros [= <- <-]. wsimpl. repeat split; auto.
    eexists. split; [reflexivity |]. cbn. repeat split; auto; discriminate.
  - mrun. intros [= <- <-]. wsimpl. repeat split; auto.
    eexists. split; [reflexivity |]. cbn [pending_reports approved_reports draft_reports
                                          total_reports].
    split; [apply sum_1_status_le |]. split; [| discriminate].
    intros _. split; [reflexivity |]. apply sum_1_status_all.
Qed.

Lemma get_engineer_stats_adds_up_witness :
  let run := get_engineer_stats Examples.calm "erin@x" Scenarios.with_rejected in
  run.1 = Ret (mkEngineerStats 3 1 0 1)
  /\ session run.2 = session Scenarios.with_rejected
  /\ committed run.2 = committed Scenarios.with_rejected.
Proof.
  cbv zeta. split; [vm_compute; reflexivity |].
  destruct (get_engineer_stats_adds_up Examples.calm Scenarios.with_rejected "erin@x"
              (get_engineer_stats Examples.calm "erin@x" Scenarios.with_rejected).1
              (get_engineer_stats Examples.calm "erin@x" Scenarios.with_rejected).2)
    as (Hs & Hc & _).
  - vm_compute. reflexivity.
  - split; assumption.
Defined.

(** ** The retention job *)

Lemma lookup_foldl_delete (m : gmap string Report.t) (keys : list string) (k : string) :
  foldl (fun m k => delete k m) m keys !! k = if decide (k ∈ keys) then None else m !! k.
Proof.
  revert m. induction keys as [|k' keys IH]; intros m; cbn [foldl].
  - rewrite decide_False by apply not_elem_of_nil. reflexivity.
  - rewrite IH. destruct (decide (k ∈ keys)) as [Hin|Hnin].
    + rewrite decide_True by (right; exact Hin). reflexivity.
    + destruct (decide (k = k')) as [->|Hne].
      * rewrite decide_True by left. apply lookup_delete_eq.
      * rewrite decide_False.
        -- apply lookup_delete_ne. congruence.
        -- intros [?|?]%elem_of_cons; contradiction.
Qed.

Lemma delete_selected (P : Report.t -> Prop) `{!forall r, Decision (P r)}
    (m : gmap string Report.t) :
  foldl (fun m k => delete k m) m (filter (fun kr => P kr.2) (map_to_list m)).*1
  = filter (fun kr => ~ P kr.2) m.
Proof.
  apply map_eq. intros k. rewrite lookup_foldl_delete.
  destruct (m !! k) as [r|] eqn:Hk.
  - destruct (decide (P r)) as [HP|HP].
    + rewrite decide_True.
      * symmetry. apply map_lookup_filter_None. right. intros r' Hr'.
        rewrite Hk in Hr'. injection Hr' as <-. cbn. tauto.
      * apply list_elem_of_fmap. exists (k, r). split; [reflexivity |].
        apply list_elem_of_filter. split; [exact HP |].
        apply elem_of_map_to_list. exact Hk.
    + rewrite decide_False.
      * symmetry. apply map_lookup_filter_Some. split; [exact Hk | exact HP].
      * intros Hin. apply list_elem_of_fmap in Hin as ([k' r'] & -> & Hin).
        apply list_elem_of_filter in Hin as [HP' Hin].
        apply elem_of_map_to_list in Hin. cbn in *. rewrite Hk in Hin.
        injection Hin as <-. contradiction.
  - rewrite (proj2 (map_lookup_filter_None _ _ _)) by (left; exact Hk).
    destruct (decide _); reflexivity.
Qed.

Lemma filter_ext_in {A} (P Q : A -> Prop) `{!forall x, Decision (P x)}
    `{!forall x, Decision (Q x)} (l : list A) :
  (forall x, x ∈ l -> (P x <-> Q x)) -> filter P l = filter Q l.
Proof.
  induction l as [|x l IH]; intros Hext; [reflexivity |].
  rewrite !filter_cons.
  assert (Hl : filter P l = filter Q l) by (apply IH; intros y Hy; apply Hext; right; exact Hy).
  assert (Hx : P x <-> Q x) by (apply Hext; left).
  destruct (decide (P x)), (decide (Q x)); rewrite ?Hl; tauto.
Qed.

Lemma filter_complement_length {A} (P : A -> Prop) `{!forall x, Decision (P x)} (l : list A) :
  (length (filter P l) + length (filter (fun x => ~ P x) l) = length l)%nat.
Proof.
  induction l as [|x l IH]; [reflexivity |].
  rewrite !filter_cons. destruct (decide (P x)), (decide (~ P x)); cbn [length]; try lia; tauto.
Qed.

Lemma size_filter_map_to_list (P : string * Report.t -> Prop) `{!forall x, Decision (P x)}
    (m : gmap string Report.t) :
  size (filter P m) = length (filter P (map_to_list m)).
Proof.
  rewrite map_filter_alt, <- length_map_to_list.
  apply Permutation_length, map_to_list_to_map.
  apply (sublist_NoDup _ (map_to_list m).*1);
    [apply NoDup_fst_map_to_list | apply fmap_sublist, sublist_filter].
Qed.

Lemma foldl_delete_notifications (ns l : list Notification.t) :
  foldl (fun l n => filter (fun x => x <> n) l) l ns = filter (fun x => x ∉ ns) l.
Proof.
  revert l. induction ns as [|n ns IH]; intros l; cbn [foldl].
  - induction l as [|x l IHl]; [reflexivity |].
    rewrite filter_cons, decide_True by apply not_elem_of_nil. f_equal. exact IHl.
  - rewrite IH, list_filter_filter. apply list_filter_iff. intros x.
    rewrite not_elem_of_cons. tauto.
Qed.

Lemma run_delete_reports keys w :
  for_each keys db_session_delete_report w
  = (Ret tt,
     with_session (with_reports (foldl (fun m k => delete k m) (reports (session w)) keys)
                     (session w)) w).
Proof.
  revert w. induction keys as [|k keys IH]; intros w; cbn [for_each foldl].
  - rewrite run_ret. destruct w as [c [u r s n] j i l o t]. reflexivity.
  - rewrite run_bind. unfold db_session_delete_report at 1. rewrite run_modify, IH.
    reflexivity.
Qed.

Lemma run_delete_notifications ns w :
  for_each ns db_session_delete_notification w
  = (Ret tt,
     with_session (with_notifications (filter (fun x => x ∉ ns) (notifications (session w)))
                     (session w)) w).
Proof.
  rewrite <- foldl_delete_notifications.
  revert w. induction ns as [|n ns IH]; intros w; cbn [for_each foldl].
  - rewrite run_ret. destruct w as [c [u r s k] j i l o t]. reflexivity.
  - rewrite run_bind. unfold db_session_delete_notification at 1. rewrite run_modify, IH.
    reflexivity.
Qed.

Lemma run_Report_query_old_drafts E cutoff w :
  Report_query_old_drafts E cutoff w
  = if fails E (tick w) OpReportQuery
    then (Raise (Fault OpReportQuery), record_call OpReportQuery w)
    else (Ret (filter (fun kr => old_draft cutoff kr.2)
                 (map_to_list (reports (session w)))).*1,
          record_call OpReportQuery w).
Proof.
  unfold Report_query_old_drafts. rewrite run_bind, run_call.
  destruct (fails E (tick w) OpReportQuery); reflexivity.
Qed.

Lemma run_Notification_query_old_read E created_at cutoff w :
  Notification_query_old_read E created_at cutoff w
  = if fails E (tick w) OpNotificationQuery
    then (Raise (Fault OpNotificationQuery), record_call OpNotificationQuery w)
    else (Ret (filter (old_read_notification created_at cutoff) (notifications (session w))),
          record_call OpNotificationQuery w).
Proof.
  unfold Notification_query_old_read. rewrite run_bind, run_call.
  destruct (fails E (tick w) OpNotificationQuery); reflexivity.
Qed.

Lemma run_cutoff {St} (now days : Z) (s : St) :
  (window ← timedelta_days days; datetime_sub now window) s
  = if cutoff_in_range now days then (Ret (now - days * microseconds_per_day), s)
    else (Raise OverflowError, s).
Proof.
  unfold cutoff_in_range, timedelta_days, datetime_sub. rewrite run_bind.
  destruct (Z.abs days <=? 999999999); [| reflexivity].
  rewrite run_ret. cbn [andb].
  destruct ((0 <=? now - days * microseconds_per_day)
            && (now - days * microseconds_per_day <=? datetime_max)); reflexivity.
Qed.

Section RetentionJob.
Variable E : env.
Variable created_at : Notification.t -> option Z.

(** The body of the [try] block once the cutoff is known. *)
Lemma cleanup_unfold days w :
  SystemService_cleanup_old_data E created_at days w
  = try_except
      (cutoff_date ← (window ← timedelta_days days;
                      datetime_sub (clock E (tick w)) window);
       old_drafts ← Report_query_old_drafts E cutoff_date;
       let count := length old_drafts in
       for_each old_drafts db_session_delete_report;;
       old_notifications ← Notification_query_old_read E created_at cutoff_date;
       for_each old_notifications db_session_delete_notification;;
       db_session_commit E;;
       mret count)
      (fun e =>
         db_session_rollback;;
         logger_error "Error cleaning up old data" e;;
         mret 0%nat)
      (record_call OpUtcNow w).
Proof.
  unfold SystemService_cleanup_old_data.
  rewrite !run_try_except, run_bind, run_utcnow. cbv beta iota.
  rewrite !run_bind.
  destruct (timedelta_days days (record_call OpUtcNow w)) as [[window|e] w1]; reflexivity.
Qed.

(** The run in which the date arithmetic, the two queries and the commit
    go through. *)
Lemma cleanup_run_ok days w :
  cutoff_in_range (clock E (tick w)) days = true ->
  fails E (S (tick w)) OpReportQuery = false ->
  fails E (S (S (tick w))) OpNotificationQuery = false ->
  fails E (S (S (S (tick w)))) OpCommit = false ->
  let cutoff := clock E (tick w) - days * microseconds_per_day in
  let kept :=
    mkStore (users (session w))
      (filter (fun kr => ~ old_draft cutoff kr.2) (reports (session w)))
      (sat_reports (session w))
      (filter (fun n => ~ old_read_notification created_at cutoff n)
         (notifications (session w))) in
  SystemService_cleanup_old_data E created_at days w
  = (Ret (length (filter (fun kr => old_draft cutoff kr.2)
                    (map_to_list (reports (session w))))),
     mkWorld kept kept
       (journal w ++ [OpUtcNow; OpReportQuery; OpNotificationQuery; OpCommit])
       (next_notification_id w) (log w) (outbox w) (task_states w)).
Proof.
  intros Hrange Hq Hn Hc. rewrite cleanup_unfold.
  rewrite run_try_except, run_bind, run_cutoff, Hrange.
  rewrite run_bind, run_Report_query_old_drafts, tick_record_call, Hq.
  rewrite run_bind, run_delete_reports.
  rewrite run_bind, run_Notification_query_old_read.
  wsimpl. rewrite Hn.
  rewrite run_bind, run_delete_notifications, run_bind, run_commit.
  wsimpl. rewrite Hc. mrun.
  set (cutoff := clock E (length (journal w)) - days * microseconds_per_day).
  assert (Hd : foldl (fun m k => delete k m) (reports (session w))
                 (filter (fun kr => old_draft cutoff kr.2)
                    (map_to_list (reports (session w)))).*1
               = filter (fun kr => ~ old_draft cutoff kr.2) (reports (session w)))
    by exact (delete_selected (old_draft cutoff) (reports (session w))).
  rewrite Hd, length_fmap, <- !app_assoc. cbn [app].
  assert (Hk : filter (fun x => x ∉ filter (old_read_notification created_at cutoff)
                                      (notifications (session w)))
                 (notifications (session w))
               = filter (fun n => ~ old_read_notification created_at cutoff n)
                   (notifications (session w))).
  { apply filter_ext_in. intros n Hin. rewrite list_elem_of_filter. tauto. }
  rewrite Hk. reflexivity.
Qed.

(** The run in which the date arithmetic overflows: no query is reached. *)
Lemma cleanup_run_overflow days w :
  cutoff_in_range (clock E (tick w)) days = false ->
  SystemService_cleanup_old_data E created_at days w
  = (Ret 0%nat,
     mkWorld (committed w) (committed w) (journal w ++ [OpUtcNow; OpRollback])
       (next_notification_id w)
       (log w ++ [LogError "Error cleaning up old data" OverflowError])
       (outbox w) (task_states w)).
Proof.
  intros Hrange. rewrite cleanup_unfold.
  rewrite run_try_except, run_bind, run_cutoff, Hrange. mrun.
  rewrite <- !app_assoc. reflexivity.
Qed.

(** The run in which a query or the commit raises. *)
Lemma cleanup_run_failed days w :
  cutoff_in_range (clock E (tick w)) days = true ->
  fails E (S (tick w)) OpReportQuery = true
  \/ fails E (S (S (tick w))) OpNotificationQuery = true
  \/ fails E (S (S (S (tick w)))) OpCommit = true ->
  exists p calls,
    SystemService_cleanup_old_data E created_at days w
    = (Ret 0%nat,
       mkWorld (committed w) (committed w) (journal w ++ calls)
         (next_notification_id w)
         (log w ++ [LogError "Error cleaning up old data" (Fault p)])
         (outbox w) (task_states w))
    /\ p ∈ [OpReportQuery; OpNotificationQuery; OpCommit].
Proof.
  intros Hrange Hf. rewrite cleanup_unfold.
  rewrite run_try_except, run_bind, run_cutoff, Hrange.
  rewrite run_bind, run_Report_query_old_drafts, tick_record_call.
  destruct (fails E (S (tick w)) OpReportQuery) eqn:Hq.
  { exists OpReportQuery, [OpUtcNow; OpReportQuery; OpRollback]. mrun.
    rewrite <- !app_assoc. split; [reflexivity |]. rewrite !elem_of_cons. tauto. }
  rewrite run_bind, run_delete_reports.
  rewrite run_bind, run_Notification_query_old_read.
  wsimpl.
  destruct (fails E (S (S (length (journal w)))) OpNotificationQuery) eqn:Hn.
  { exists OpNotificationQuery, [OpUtcNow; OpReportQuery; OpNotificationQuery; OpRollback].
    mrun. rewrite <- !app_assoc. split; [reflexivity |]. rewrite !elem_of_cons. tauto. }
  rewrite run_bind, run_delete_notifications, run_bind, run_commit.
  wsimpl.
  destruct (fails E (S (S (S (length (journal w))))) OpCommit) eqn:Hc.
  { exists OpCommit, [OpUtcNow; OpReportQuery; OpNotificationQuery; OpCommit; OpRollback].
    mrun. rewrite <- !app_assoc. split; [reflexivity |]. rewrite !elem_of_cons. tauto. }
  destruct Hf as [Hf | [Hf | Hf]]; discriminate.
Qed.

(** The service never raises: it returns a count whatever happens. *)
Lemma cleanup_returns days w :
  exists count w',
    SystemService_cleanup_old_data E created_at days w = (Ret count, w')
    /\ (fails E (S (tick w)) OpReportQuery = true
        \/ fails E (S (S (tick w))) OpNotificationQuery = true
        \/ fails E (S (S (S (tick w)))) OpCommit = true ->
        count = 0%nat /\ committed w' = committed w /\ session w' = committed w).
Proof.
  destruct (cutoff_in_range (clock E (tick w)) days) eqn:Hrange.
  2: { do 2 eexists. split; [apply (cleanup_run_overflow days w Hrange) |].
       intros _. repeat split. }
  destruct (fails E (S (tick w)) OpReportQuery) eqn:Hq;
    [| destruct (fails E (S (S (tick w))) OpNotificationQuery) eqn:Hn;
       [| destruct (fails E (S (S (S (tick w)))) OpCommit) eqn:Hc]].
  4: { do 2 eexists. split; [apply (cleanup_run_ok days w Hrange Hq Hn Hc) |].
       intros [Hf | [Hf | Hf]]; discriminate. }
  all: destruct (cleanup_run_failed days w Hrange) as (p & calls & Hrun & _);
    [rewrite ?Hq, ?Hn, ?Hc; tauto |];
    do 2 eexists; (split; [exact Hrun |]); intros _; repeat split; reflexivity.
Qed.

End RetentionJob.

(** X24: what the retention policy deletes.  When the window and the
    cutoff are in the range of the date arithmetic and the two queries and
    the commit go through, [cleanup_old_data] removes exactly the reports
    that are DRAFT with an [updated_at] before the cutoff (now minus the
    window) and exactly the notifications that are read with a
    [created_at] before it, and commits.  So a report in any other status,
    a draft whose [updated_at] is null, and an unread notification of any
    age all stay.  The number returned is the number of reports that
    disappeared; deleted notifications are not counted.  Users are
    untouched and nothing is logged. *)
Theorem cleanup_deletes_expired_only E created_at days w :
  cutoff_in_range (clock E (tick w)) days = true ->
  fails E (S (tick w)) OpReportQuery = false ->
  fails E (S (S (tick w))) OpNotificationQuery = false ->
  fails E (S (S (S (tick w)))) OpCommit = false ->
  let cutoff := clock E (tick w) - days * microseconds_per_day in
  exists count w',
    SystemService_cleanup_old_data E created_at days w = (Ret count, w')
    /\ reports (session w')
       = filter (fun kr => ~ old_draft cutoff kr.2) (reports (session w))
    /\ notifications (session w')
       = filter (fun n => ~ old_read_notification created_at cutoff n)
           (notifications (session w))
    /\ users (session w') = users (session w)
    /\ committed w' = session w'
    /\ (count + size (reports (session w')) = size (reports (session w)))%nat
    /\ log w' = log w.
Proof.
  intros Hrange Hq Hn Hc cutoff.
  do 2 eexists. split; [apply (cleanup_run_ok E created_at days w Hrange Hq Hn Hc) |].
  cbn [session committed reports notifications users log].
  repeat split.
  fold cutoff.
  rewrite size_filter_map_to_list, <- (length_map_to_list (reports (session w))).
  apply (filter_complement_length (fun kr : string * Report.t => old_draft cutoff kr.2)).
Qed.

(** X25: a failed clean-up looks like an empty one.  If the date
    arithmetic overflows (a window of more than 999999999 days, or a
    cutoff outside the years 1 to 9999), or the report query, the
    notification query or the commit raises, [cleanup_old_data] does not
    raise: it returns 0, the same number as when nothing was old enough.
    Whatever was pending in the session is rolled back, the committed
    database is unchanged, and the error is logged: [OverflowError], with
    no query reached, when the arithmetic overflowed, and otherwise the
    failure of the query or commit. *)
Theorem cleanup_failure_returns_zero E created_at days w :
  cutoff_in_range (clock E (tick w)) days = false
  \/ fails E (S (tick w)) OpReportQuery = true
  \/ fails E (S (S (tick w))) OpNotificationQuery = true
  \/ fails E (S (S (S (tick w)))) OpCommit = true ->
  exists w' e,
    SystemService_cleanup_old_data E created_at days w = (Ret 0%nat, w')
    /\ committed w' = committed w
    /\ session w' = committed w
    /\ log w' = (log w ++ [LogError "Error cleaning up old data" e])%list
    /\ (cutoff_in_range (clock E (tick w)) days = false ->
        e = OverflowError /\ journal w' = (journal w ++ [OpUtcNow; OpRollback])%list)
    /\ (cutoff_in_range (clock E (tick w)) days = true ->
        exists p, e = Fault p /\ p ∈ [OpReportQuery; OpNotificationQuery; OpCommit]).
Proof.
  intros Hf.
  destruct (cutoff_in_range (clock E (tick w)) days) eqn:Hrange.
  - destruct Hf as [Hf | Hf]; [discriminate |].
    destruct (cleanup_run_failed E created_at days w Hrange Hf) as (p & calls & Hrun & Hp).
    eexists. exists (Fault p). split; [exact Hrun |].
    repeat split; [discriminate | discriminate |].
    intros _. exists p. split; [reflexivity | exact Hp].
  - eexists. exists OverflowError.
    split; [apply (cleanup_run_overflow E created_at days w Hrange) |].
    repeat split. discriminate.
Qed.

(** X26: the periodic task reports success when the clean-up failed.  The
    task never raises.  Its result is 'failed' only when [create_app]
    raised, and then neither view of the database changed.  Otherwise the
    result is 'success', also when the service's query or commit raised:
    the task then reports [deleted_reports] = 0 while nothing was deleted
    and the committed database is unchanged. *)
Theorem cleanup_task_reports_success_on_failure E created_at days w :
  exists res w',
    tasks_cleanup_old_data E created_at days w = (Ret res, w')
    /\ (fails E (tick w) OpCreateApp = true ->
        res = CleanupFailed (Fault OpCreateApp) (clock E (S (tick w)))
        /\ session w' = session w /\ committed w' = committed w)
    /\ (fails E (tick w) OpCreateApp = false ->
        exists count timestamp,
          res = CleanupSuccess count timestamp
          /\ (fails E (S (S (tick w))) OpReportQuery = true
              \/ fails E (S (S (S (tick w)))) OpNotificationQuery = true
              \/ fails E (S (S (S (S (tick w))))) OpCommit = true ->
              count = 0%nat /\ committed w' = committed w)).
Proof.
  unfold tasks_cleanup_old_data.
  rewrite run_try_except, run_bind, run_call.
  destruct (fails E (tick w) OpCreateApp) eqn:Happ.
  - mrun. do 2 eexists. split; [reflexivity |]. split; [| discriminate].
    intros _. repeat split.
  - destruct (cleanup_returns E created_at days (record_call OpCreateApp w))
      as (count & w1 & Hrun & Hfail).
    rewrite run_bind, Hrun, run_bind, run_utcnow, run_ret.
    do 2 eexists. split; [reflexivity |]. split; [discriminate |].
    intros _. do 2 eexists. split; [reflexivity |].
    rewrite !tick_record_call in Hfail. intros Hf.
    destruct (Hfail Hf) as (H0 & Hc & _). split; [exact H0 |].
    unfold record_call, with_journal in *. cbn [committed] in *. exact Hc.
Qed.

Lemma cleanup_deletes_expired_only_witness :
  exists w',
    SystemService_cleanup_old_data (Scenarios.env_us Examples.no_faults)
      Scenarios.created_at_of 90 Scenarios.before_cleanup = (Ret 1%nat, w')
    /\ reports (session w') !! "r5" = None
    /\ reports (session w') !! "r6" = Some Scenarios.fresh_draft
    /\ reports (session w') !! "r7" = Some Scenarios.unstamped_draft
    /\ reports (session w') !! "r8" = Some Scenarios.stale_pending
    /\ notifications (session w') = [Scenarios.note 2 false; Scenarios.note 3 true]
    /\ committed w' = session w'.
Proof.
  destruct (cleanup_deletes_expired_only (Scenarios.env_us Examples.no_faults)
              Scenarios.created_at_of 90 Scenarios.before_cleanup
              eq_refl eq_refl eq_refl eq_refl)
    as (count & w' & Hrun & Hr & Hn & _ & Hc & Hsize & _).
  exists w'. rewrite Hr in Hsize. rewrite Hr, Hn.
  vm_compute in Hsize.
  assert (Hsum : (count + 3 = 4)%nat) by exact Hsize.
  assert (Hcount : count = 1%nat) by lia.
  rewrite Hcount in Hrun.
  split; [exact Hrun |].
  repeat split; try (vm_compute; reflexivity). exact Hc.
Defined.

Lemma cleanup_failure_returns_zero_witness :
  (exists w',
     SystemService_cleanup_old_data (Scenarios.env_us (Examples.only_fails OpCommit))
       Scenarios.created_at_of 90 Scenarios.before_cleanup = (Ret 0%nat, w')
     /\ committed w' = committed Scenarios.before_cleanup
     /\ session w' = committed Scenarios.before_cleanup)
  /\ (exists w',
        SystemService_cleanup_old_data (Scenarios.env_us Examples.no_faults)
          Scenarios.created_at_of 1000000 Scenarios.before_cleanup = (Ret 0%nat, w')
        /\ committed w' = committed Scenarios.before_cleanup
        /\ log w' = [LogError "Error cleaning up old data" OverflowError]
        /\ journal w' = [OpUtcNow; OpRollback]).
Proof.
  split.
  - destruct (cleanup_failure_returns_zero (Scenarios.env_us (Examples.only_fails OpCommit))
                Scenarios.created_at_of 90 Scenarios.before_cleanup)
      as (w' & e & Hrun & Hc & Hs & _).
    + right. right. right. reflexivity.
    + exists w'. repeat split; assumption.
  - destruct (cleanup_failure_returns_zero (Scenarios.env_us Examples.no_faults)
                Scenarios.created_at_of 1000000 Scenarios.before_cleanup)
      as (w' & e & Hrun & Hc & _ & Hlog & Hover & _).
    + left. reflexivity.
    + destruct (Hover eq_refl) as [He Hj]. subst e.
      exists w'. repeat split; assumption.
Defined.

Lemma cleanup_task_reports_success_on_failure_witness :
  exists timestamp w',
    tasks_cleanup_old_data (Scenarios.env_us (Examples.only_fails OpCommit))
      Scenarios.created_at_of 90 Scenarios.before_cleanup
    = (Ret (CleanupSuccess 0 timestamp), w')
    /\ committed w' = committed Scenarios.before_cleanup.
Proof.
  destruct (cleanup_task_reports_success_on_failure
              (Scenarios.env_us (Examples.only_fails OpCommit))
              Scenarios.created_at_of 90 Scenarios.before_cleanup)
    as (res & w' & Hrun & _ & Hok).
  destruct (Hok eq_refl) as (count & timestamp & Hres & Hzero).
  destruct Hzero as [Hcount Hc]; [right; right; reflexivity |].
  exists timestamp, w'. rewrite Hrun, Hres, Hcount. split; [reflexivity | exact Hc].
Defined.

(** ** The manager dashboard *)

Lemma get_pending_approvals_bounded E role w :
  exists n w1,
    get_pending_approvals E role w = (Ret n, w1)
    /\ session w1 = session w
    /\ committed w1 = committed w
    /\ (n <= length (filter (fun r => Report.status r = "PENDING")
                       (map_to_list (reports (session w))).*2))%nat
    /\ (role ∉ ["TM"; "Technical Manager"; "PM"; "Project Manager"] -> n = 0%nat /\ w1 = w).
Proof.
  destruct (bool_decide (role ∈ ["TM"; "Technical Manager"])) eqn:Htm;
    [| destruct (bool_decide (role ∈ ["PM"; "Project Manager"])) eqn:Hpm].
  - rewrite (get_pending_approvals_run E role 1 w) by (left; split; [exact Htm | reflexivity]).
    apply bool_decide_eq_true in Htm.
    destruct (fails E (tick w) OpReportQuery); do 2 eexists;
      (split; [reflexivity |]); (split; [reflexivity |]); (split; [reflexivity |]);
      (split; [first [apply length_filter | apply Nat.le_0_l] |]);
      intros Hno; exfalso; apply Hno; rewrite !elem_of_cons in *; tauto.
  - rewrite (get_pending_approvals_run E role 2 w)
      by (right; split; [exact Htm | split; [exact Hpm | reflexivity]]).
    apply bool_decide_eq_true in Hpm.
    destruct (fails E (tick w) OpReportQuery); do 2 eexists;
      (split; [reflexivity |]); (split; [reflexivity |]); (split; [reflexivity |]);
      (split; [first [apply length_filter | apply Nat.le_0_l] |]);
      intros Hno; exfalso; apply Hno; rewrite !elem_of_cons in *; tauto.
  - unfold get_pending_approvals. rewrite Htm, Hpm, run_try_except, run_ret.
    do 2 eexists. repeat split. apply Nat.le_0_l.
Qed.

Lemma run_Report_query_count E w :
  Report_query_count E w
  = if fails E (tick w) OpReportQuery
    then (Raise (Fault OpReportQuery), record_call OpReportQuery w)
    else (Ret (length (map_to_list (reports (session w))).*2), record_call OpReportQuery w).
Proof.
  unfold Report_query_count. rewrite run_bind, run_call.
  destruct (fails E (tick w) OpReportQuery); reflexivity.
Qed.

Lemma run_Report_query_count_by_status E s w :
  Report_query_count_by_status E s w
  = if fails E (tick w) OpReportQuery
    then (Raise (Fault OpReportQuery), record_call OpReportQuery w)
    else (Ret (length (filter (fun r => Report.status r = s)
                         (map_to_list (reports (session w))).*2)),
          record_call OpReportQuery w).
Proof.
  unfold Report_query_count_by_status. rewrite run_bind, run_call.
  destruct (fails E (tick w) OpReportQuery); reflexivity.
Qed.

Lemma run_Report_query_recent E order n w :
  Report_query_recent E order n w
  = if fails E (tick w) OpReportQuery
    then (Raise (Fault OpReportQuery), record_call OpReportQuery w)
    else (Ret (take n (order (map_to_list (reports (session w))).*2)),
          record_call OpReportQuery w).
Proof.
  unfold Report_query_recent. rewrite run_bind, run_call.
  destruct (fails E (tick w) OpReportQuery); reflexivity.
Qed.

Lemma pending_and_approved_bounded (l : list Report.t) (n : nat) :
  (n <= length (filter (fun r => Report.status r = "PENDING") l))%nat ->
  (n + length (filter (fun r => Report.status r = "APPROVED") l) <= length l)%nat.
Proof.
  intros Hn.
  pose proof (disjoint_counts (fun r => Report.status r = "PENDING")
                (fun r => Report.status r = "APPROVED") l) as Hd.
  cbv beta in Hd. etrans; [| apply Hd].
  - apply Nat.add_le_mono_r. exact Hn.
  - intros r -> Heq. discriminate.
Qed.

(** X27: the manager dashboard's numbers fit together.  For every role
    string and whatever fails, [get_manager_stats] returns a dict and
    changes neither view of the database.  In it, pending approvals plus
    approved reports never exceed the report count, [team_reports] repeats
    the report count, at most ten recent reports are listed, and a role
    outside the four manager role strings has no pending approvals.  When
    no report query raises, the report count is the number of reports in
    the session, the approved count the number of them in status APPROVED,
    and the recent reports the first ten in the database's order. *)
Theorem manager_stats_are_consistent E order role w :
  let stored := (map_to_list (reports (session w))).*2 in
  exists stats w',
    get_manager_stats E order role w = (Ret stats, w')
    /\ session w' = session w
    /\ committed w' = committed w
    /\ (ManagerStats.pending_approvals stats + ManagerStats.approved_reports stats
        <= ManagerStats.reports_count stats)%nat
    /\ ManagerStats.team_reports stats = ManagerStats.reports_count stats
    /\ (length (ManagerStats.recent_reports stats) <= 10)%nat
    /\ (role ∉ ["TM"; "Technical Manager"; "PM"; "Project Manager"] ->
        ManagerStats.pending_approvals stats = 0%nat)
    /\ ((forall t, fails E t OpReportQuery = false) ->
        ManagerStats.reports_count stats = length stored
        /\ ManagerStats.approved_reports stats
           = length (filter (fun r => Report.status r = "APPROVED") stored)
        /\ ManagerStats.recent_reports stats = take 10 (order stored)).
Proof.
  intros stored. subst stored. unfold get_manager_stats.
  rewrite run_try_except, run_bind, run_Report_query_count.
  destruct (fails E (tick w) OpReportQuery) eqn:H1.
  { mrun. do 2 eexists. split; [reflexivity |]. cbn.
    repeat split; try lia;
      match goal with Hall : forall t, _ |- _ => rewrite Hall in H1; discriminate end. }
  destruct (get_pending_approvals_bounded E role (record_call OpReportQuery w))
    as (n & w1 & Hrun & Hs & Hc & Hn & Hrole).
  rewrite run_bind, Hrun, run_bind, run_Report_query_count_by_status.
  destruct (fails E (tick w1) OpReportQuery) eqn:H3.
  { mrun. do 2 eexists. split; [reflexivity |]. cbn.
    rewrite Hs, Hc. repeat split; try lia;
      match goal with Hall : forall t, _ |- _ => rewrite Hall in H3; discriminate end. }
  rewrite run_bind, run_Report_query_recent.
  wsimpl.
  destruct (fails E (S (length (journal w1))) OpReportQuery) eqn:H4.
  { mrun. do 2 eexists. split; [reflexivity |]. cbn.
    rewrite Hs, Hc. repeat split; try lia;
      match goal with Hall : forall t, _ |- _ => rewrite Hall in H4; discriminate end. }
  mrun. do 2 eexists. split; [reflexivity |]. cbn.
  rewrite Hs, Hc. repeat split.
  - apply pending_and_approved_bounded. exact Hn.
  - rewrite length_take. lia.
  - intros Hno. apply Hrole, Hno.
Qed.

Lemma manager_stats_are_consistent_witness :
  let run := get_manager_stats Examples.calm (fun l => l) "TM" Scenarios.with_rejected in
  exists stats,
    run.1 = Ret stats
    /\ (ManagerStats.pending_approvals stats + ManagerStats.approved_reports stats
        <= ManagerStats.reports_count stats)%nat
    /\ ManagerStats.reports_count stats = 3%nat.
Proof.
  cbv zeta.
  destruct (manager_stats_are_consistent Examples.calm (fun l => l) "TM"
              Scenarios.with_rejected)
    as (stats & w' & Hrun & _ & _ & Hle & _ & _ & _ & Hok).
  exists stats. rewrite Hrun. split; [reflexivity |]. split; [exact Hle |].
  destruct Hok as (Hcount & _); [reflexivity |].
  rewrite Hcount. vm_compute. reflexivity.
Defined.

(** X28: a failed pending-approvals query does not fail the dashboard.
    For a manager role, when the query inside [get_pending_approvals]
    raises while the dashboard's own three queries go through, the
    dashboard's handler is not reached: the dict carries the real report
    count, approved count and recent reports, with [pending_approvals] 0
    whatever is pending, and the only line logged is the one of
    [get_pending_approvals]. *)
Theorem manager_stats_swallow_pending_failure E order role w :
  role ∈ ["TM"; "Technical Manager"; "PM"; "Project Manager"] ->
  fails E (tick w) OpReportQuery = false ->
  fails E (S (tick w)) OpReportQuery = true ->
  fails E (S (S (tick w))) OpReportQuery = false ->
  fails E (S (S (S (tick w)))) OpReportQuery = false ->
  let stored := (map_to_list (reports (session w))).*2 in
  exists w',
    get_manager_stats E order role w
    = (Ret (ManagerStats.mk (length stored) 0
              (length (filter (fun r => Report.status r = "APPROVED") stored))
              (take 10 (order stored)) (length stored)), w')
    /\ log w' = (log w ++ [LogError "Error getting pending approvals"
                             (Fault OpReportQuery)])%list
    /\ session w' = session w
    /\ committed w' = committed w.
Proof.
  intros Hrole H1 H2 H3 H4 stored. subst stored. unfold get_manager_stats.
  rewrite run_try_except, run_bind, run_Report_query_count, H1.
  assert (Hstage : exists stage,
             bool_decide (role ∈ ["TM"; "Technical Manager"]) = true /\ stage = 1
             \/ bool_decide (role ∈ ["TM"; "Technical Manager"]) = false
                /\ bool_decide (role ∈ ["PM"; "Project Manager"]) = true /\ stage = 2).
  { destruct (bool_decide (role ∈ ["TM"; "Technical Manager"])) eqn:Htm.
    - exists 1. left. split; reflexivity.
    - exists 2. right. split; [reflexivity |]. split; [| reflexivity].
      apply bool_decide_eq_true. apply bool_decide_eq_false in Htm.
      rewrite !elem_of_cons in *. tauto. }
  destruct Hstage as (stage & Hstage).
  rewrite run_bind, (get_pending_approvals_run E role stage _ Hstage).
  rewrite tick_record_call, H2.
  rewrite run_bind, run_Report_query_count_by_status.
  wsimpl. rewrite H3.
  rewrite run_bind, run_Report_query_recent.
  wsimpl. rewrite H4. mrun.
  eexists. repeat split.
Qed.

Lemma manager_stats_swallow_pending_failure_witness :
  let E := Examples.env_with (fun t _ => Nat.eqb t 1) false in
  let run := get_manager_stats E (fun l => l) "TM" Scenarios.with_rejected in
  exists recent,
    run.1 = Ret (ManagerStats.mk 3 0 0 recent 3)
    /\ log run.2 = [LogError "Error getting pending approvals" (Fault OpReportQuery)].
Proof.
  cbv zeta.
  destruct (manager_stats_swallow_pending_failure
              (Examples.env_with (fun t _ => Nat.eqb t 1) false) (fun l => l) "TM"
              Scenarios.with_rejected)
    as (w' & Hrun & Hlog & _); try reflexivity.
  { rewrite !elem_of_cons. tauto. }
  rewrite Hrun. eexists. split; [vm_compute; reflexivity |]. exact Hlog.
Defined.
